(** * OrcaSong: event record extraction and data-split planning

    A shallow embedding of [orcasong/tools/make_data_split.py] and
    [orcasong/file_to_hits.py], and the properties of the design document
    checked against it.

    Python values are modelled as follows.
    - [int] is [Z]; [divmod], [//] and [%] are [Z.div] and [Z.modulo], which
      round towards minus infinity exactly as Python does.
    - a [list] is a [list]; slices are [Py.slice], with Python's clipping and
      negative-index rules.
    - [float] and numpy's [float64] are IEEE 754 binary64 values, the
      [spec_float] of the standard library with [prec = 53], [emax = 1024].
    - a [dict] is a [gmap]; a raised exception is the [Raise] branch of
      [result]. *)

From Stdlib Require Import ZArith Lia Bool.
From Stdlib Require Import Floats.SpecFloat.
From stdpp Require Import base option list strings gmap.
From stdpp Require Import pretty.

Local Open Scope Z_scope.

(** ** Exceptions *)

(** The built-in exceptions the two modules can raise. The design document
    gives some of them domain names: [ZeroDivisionError] raised by the chunk
    partitioner is its [InvalidCountError], and the [IndexError] raised by the
    primary-track lookup is its [PrimaryNotFoundError]. *)
Inductive exn : Type :=
  | ZeroDivisionError
  | IndexError
  | KeyError
  | AttributeError
  | ValueError
  | TypeError
  | OSError.

Inductive result (A : Type) : Type :=
  | OK (a : A)
  | Raise (e : exn).
Arguments OK {A} a.
Arguments Raise {A} e.

#[global] Instance result_bind : MBind result := fun A B k r =>
  match r with
  | OK a => k a
  | Raise e => Raise e
  end.

#[global] Instance result_ret : MRet result := fun A a => OK a.

#[global] Instance result_fmap : FMap result := fun A B f r =>
  match r with
  | OK a => OK (f a)
  | Raise e => Raise e
  end.

Definition InvalidCountError : exn := ZeroDivisionError.
Definition PrimaryNotFoundError : exn := IndexError.

Definition is_OK {A : Type} (r : result A) : bool :=
  match r with OK _ => true | Raise _ => false end.

(** ** Python built-ins *)

Module Py.

(** [len(a)] *)
Definition len {A : Type} (a : list A) : Z := Z.of_nat (length a).

(** [divmod(a, b)] on integers. *)
Definition divmod (a b : Z) : result (Z * Z) :=
  if b =? 0 then Raise ZeroDivisionError else OK (a / b, a mod b).

(** [range(n)]: empty when [n <= 0]. *)
Definition range (n : Z) : list Z := seqZ 0 n.

(** The start or stop of a slice, brought into [0 .. len]. *)
Definition slice_index (l i : Z) : Z :=
  if i <? 0 then Z.max (i + l) 0 else Z.min i l.

(** [a[lo:hi]] *)
Definition slice {A : Type} (a : list A) (lo hi : Z) : list A :=
  let lo' := slice_index (len a) lo in
  let hi' := slice_index (len a) hi in
  take (Z.to_nat (hi' - lo')) (drop (Z.to_nat lo') a).

(** [a[i]] on a list, with negative indices counted from the end. *)
Definition getitem {A : Type} (a : list A) (i : Z) : result A :=
  let j := if i <? 0 then i + len a else i in
  if j <? 0 then Raise IndexError
  else match a !! Z.to_nat j with
       | Some x => OK x
       | None => Raise IndexError
       end.

End Py.

(** ** make_data_split.py *)

(** [split(a, n)]:
<<
    k, m = divmod(len(a), n)
    a_split = list((a[i * k + min(i, m):(i + 1) * k + min(i + 1, m)] for i in range(n)))
    return a_split
>> *)
Definition split {A : Type} (a : list A) (n : Z) : result (list (list A)) :=
  '(k, m) ← Py.divmod (Py.len a) n;
  OK ((fun i => Py.slice a (i * k + Z.min i m) ((i + 1) * k + Z.min (i + 1) m))
        <$> Py.range n).

(** The sizes of the chunks, and their total. *)
Definition chunk_sizes {A : Type} (chunks : list (list A)) : list Z :=
  Py.len <$> chunks.

Definition sum_Z (l : list Z) : Z := foldr Z.add 0 l.

(** The index at which chunk [i] starts, and the piece of [a] that is chunk
    [i], for a quotient [k] and a remainder [m]. *)
Definition chunk_start (k m i : Z) : Z := i * k + Z.min i m.

Definition chunk {A : Type} (a : list A) (k m : Z) (i : nat) : list A :=
  take (Z.to_nat (chunk_start k m (Z.of_nat i + 1) - chunk_start k m (Z.of_nat i)))
       (drop (Z.to_nat (chunk_start k m (Z.of_nat i))) a).

(** *** Floating point *)

(** Python's [float] and numpy's [float64]: IEEE 754 binary64. *)
Abbreviation f64 := spec_float (only parsing).

Module F64.

Definition prec : Z := 53.
Definition emax : Z := 1024.

Definition zero : f64 := S754_zero false.
Definition neg_zero : f64 := S754_zero true.
Definition nan : f64 := S754_nan.

(** Conversion of an [int], rounding to nearest even. *)
Definition of_Z (z : Z) : f64 := binary_normalize prec emax z 0 false.

Definition one : f64 := of_Z 1.

Definition add : f64 -> f64 -> f64 := SFadd prec emax.
Definition sub : f64 -> f64 -> f64 := SFsub prec emax.
Definition mul : f64 -> f64 -> f64 := SFmul prec emax.
Definition div : f64 -> f64 -> f64 := SFdiv prec emax.

(** [x == y] and [x != y]; a not-a-number is different from everything. *)
Definition eqb (x y : f64) : bool := SFeqb x y.
Definition neqb (x y : f64) : bool := negb (SFeqb x y).

(** [bool(x)], [x.astype(bool)]: everything but the two zeros is true. *)
Definition truthy (x : f64) : bool := neqb x zero.

(** Rounding of a value to the format with [p] bits of mantissa and
    exponent bound [e]. *)
Definition round_to (p e : Z) (x : f64) : f64 :=
  match x with
  | S754_finite s m ex => binary_normalize p e (cond_Zopp s (Zpos m)) ex s
  | _ => x
  end.

(** [x.astype('float32')], seen again as a binary64 value. *)
Definition astype_float32 (x : f64) : f64 :=
  round_to prec emax (round_to 24 128 x).

End F64.

(** [a / b] on two [int]s: true division. Python rounds the exact quotient of
    the two integers once, to the nearest float, ties to even; it does not
    convert the operands first, so that [(2**53 + 1) / 3] is the float
    nearest to the third of [2**53 + 1]. [SFdiv] divides the mantissas it is
    given exactly and rounds once; here it is given the integers themselves
    as mantissas, with exponent 0. A zero dividend gives a zero with the
    sign of the divisor. Python raises [OverflowError] where the quotient
    lies beyond the float range, from [2**1024] on; the quotients taken
    here, of counts of files and of records that have 64-bit sizes, are far
    below, and the model gives an infinity there. *)
Definition int_truediv (a b : Z) : result f64 :=
  if b =? 0 then Raise ZeroDivisionError
  else if a =? 0 then OK (S754_zero (b <? 0))
  else OK (F64.div (S754_finite (a <? 0) (Z.to_pos (Z.abs a)) 0)
                   (S754_finite (b <? 0) (Z.to_pos (Z.abs b)) 0)).

(** *** The inventory of one input group *)

(** What [h5py] shows of the files on disk: a file maps dataset keys to
    datasets, a dataset is a sequence of records, a record maps column names
    to values. *)
Abbreviation h5_record := (gmap string Z) (only parsing).
Abbreviation h5_dataset := (list (gmap string Z)) (only parsing).
Abbreviation h5_file := (gmap string (list (gmap string Z))) (only parsing).
Abbreviation filesystem := (gmap string (gmap string (list (gmap string Z))))
  (only parsing).

(** [h5py.File(fpath, 'r')] *)
Definition h5py_File (fs : filesystem) (fpath : string) : result h5_file :=
  match fs !! fpath with
  | Some f => OK f
  | None => Raise OSError
  end.

(** [d[key]] on a mapping with string keys. *)
Definition dict_getitem {V : Type} (d : gmap string V) (key : string) : result V :=
  match d !! key with
  | Some v => OK v
  | None => Raise KeyError
  end.

(** [row[name]] on a record of a dataset. *)
Definition record_getitem (row : h5_record) (name : string) : result Z :=
  match row !! name with
  | Some v => OK v
  | None => Raise ValueError
  end.

(** The loop of [get_number_of_evts_and_run_ids]:
<<
    for i, fpath in enumerate(list_of_files):
        f = h5py.File(fpath, 'r')
        dset = f[dataset_key]
        n_evts = dset.shape[0]
        total_number_of_evts += n_evts
        run_id = f[dataset_key][0][run_id_col_name]
        run_ids.append(run_id)
        f.close()
>> *)
Fixpoint collect_files (fs : filesystem) (dataset_key run_id_col_name : string)
    (list_of_files : list string) (total_number_of_evts : Z) (run_ids : list Z)
    : result (Z * list Z) :=
  match list_of_files with
  | [] => OK (total_number_of_evts, run_ids)
  | fpath :: rest =>
      f ← h5py_File fs fpath;
      dset ← dict_getitem f dataset_key;
      let n_evts := Py.len dset in
      let total_number_of_evts := total_number_of_evts + n_evts in
      row ← (d ← dict_getitem f dataset_key; Py.getitem d 0);
      run_id ← record_getitem row run_id_col_name;
      collect_files fs dataset_key run_id_col_name rest
        total_number_of_evts (run_ids ++ [run_id])
  end.

(** [get_number_of_evts_and_run_ids(list_of_files, dataset_key, run_id_col_name)]:
    the loop, then
<<
    mean_number_of_evts_per_file = total_number_of_evts / len(list_of_files)
    return total_number_of_evts, mean_number_of_evts_per_file, run_ids
>> *)
Definition get_number_of_evts_and_run_ids (fs : filesystem)
    (list_of_files : list string) (dataset_key run_id_col_name : string)
    : result (Z * f64 * list Z) :=
  '(total_number_of_evts, run_ids) ←
    collect_files fs dataset_key run_id_col_name list_of_files 0 [];
  mean_number_of_evts_per_file ←
    int_truediv total_number_of_evts (Py.len list_of_files);
  OK (total_number_of_evts, mean_number_of_evts_per_file, run_ids).

(** *** Chunking the buckets of one input group *)

(** The part of the configuration dict that
    [add_fpaths_for_data_split_to_cfg] reads and writes. The families of
    keys built from a bucket name ([n_files_<dsplit>], [run_ids_<dsplit>],
    [output_<dsplit>]) are maps from the bucket name, and the input groups
    are a map from the group name: [cfg[key]] is [groups c !! key],
    [cfg['n_files_' + dsplit]] is [n_files_dsplit c !! dsplit] and
    [cfg['output_' + dsplit]] is [output_dsplit c !! dsplit]. In the code
    the three families share the one dict [cfg]; they are kept apart here,
    which is the code's behaviour as long as no input group is itself named
    [n_files_<dsplit>] or [output_<dsplit>] for one of the three buckets.
    The groups are the sections of the configuration file, named by the
    user; a section with one of these names would be read as a count or
    overwritten as an output dict, and is not covered. *)
Record group_cfg : Type := {
  fpaths : list string;
  run_ids : list Z;
  run_ids_dsplit : gmap string (list Z)
}.

Record cfg : Type := {
  n_files_dsplit : gmap string Z;
  groups : gmap string group_cfg;
  output_dsplit : gmap string (gmap string (list (list string)))
}.

Definition dsplits : list string := ["train"; "validate"; "rest"].

(** The inner loop over the buckets for one file:
<<
    for dsplit in ['train', 'validate', 'rest']:
        if 'run_ids_' + dsplit in cfg[key]:
            if cfg[key]['run_ids_' + dsplit][0] <= run_id <= cfg[key]['run_ids_' + dsplit][1]:
                fpath_lists[dsplit].append(fpath)
>> *)
Fixpoint assign_file (g : group_cfg) (fpath : string) (run_id : Z)
    (ds : list string) (fpath_lists : gmap string (list string))
    : result (gmap string (list string)) :=
  match ds with
  | [] => OK fpath_lists
  | dsplit :: rest =>
      match run_ids_dsplit g !! dsplit with
      | None => assign_file g fpath run_id rest fpath_lists
      | Some range =>
          low ← Py.getitem range 0;
          if low <=? run_id then
            high ← Py.getitem range 1;
            if run_id <=? high then
              l ← dict_getitem fpath_lists dsplit;
              assign_file g fpath run_id rest (<[dsplit := l ++ [fpath]]> fpath_lists)
            else assign_file g fpath run_id rest fpath_lists
          else assign_file g fpath run_id rest fpath_lists
      end
  end.

(** The loop over the files of the group, [i] being the index of the first
    file of [fs]. *)
Fixpoint assign_files (g : group_cfg) (i : Z) (fs : list string)
    (fpath_lists : gmap string (list string))
    : result (gmap string (list string)) :=
  match fs with
  | [] => OK fpath_lists
  | fpath :: rest =>
      run_id ← Py.getitem (run_ids g) i;
      fpath_lists ← assign_file g fpath run_id dsplits fpath_lists;
      assign_files g (i + 1) rest fpath_lists
  end.

(** The second loop; the configuration is mutated in place, so what was
    written before an exception stays written: the configuration is returned
    next to the outcome.
<<
    for dsplit in ['train', 'validate', 'rest']:
        if len(fpath_lists[dsplit]) == 0:
            continue
        n_files_dsplit = cfg['n_files_' + dsplit]
        fpath_lists[dsplit] = split(fpath_lists[dsplit], n_files_dsplit)
        if 'output_' + dsplit not in cfg:
            cfg['output_' + dsplit] = dict()
        cfg['output_' + dsplit][key] = fpath_lists[dsplit]
>> *)
Fixpoint chunk_buckets (key : string) (fpath_lists : gmap string (list string))
    (ds : list string) (c : cfg) : cfg * result unit :=
  match ds with
  | [] => (c, OK tt)
  | dsplit :: rest =>
      match dict_getitem fpath_lists dsplit with
      | Raise e => (c, Raise e)
      | OK l =>
          if Py.len l =? 0 then chunk_buckets key fpath_lists rest c
          else
            match (n_files ← dict_getitem (n_files_dsplit c) dsplit; split l n_files) with
            | Raise e => (c, Raise e)
            | OK chunks =>
                let out := default ∅ (output_dsplit c !! dsplit) in
                chunk_buckets key fpath_lists rest
                  {| n_files_dsplit := n_files_dsplit c;
                     groups := groups c;
                     output_dsplit := <[dsplit := <[key := chunks]> out]> (output_dsplit c) |}
            end
      end
  end.

(** [add_fpaths_for_data_split_to_cfg(cfg, key)] *)
Definition add_fpaths_for_data_split_to_cfg (c : cfg) (key : string)
    : cfg * result unit :=
  let fpath_lists : gmap string (list string) :=
    <["train" := []]> (<["validate" := []]> (<["rest" := []]> ∅)) in
  match (g ← dict_getitem (groups c) key;
         assign_files g 0 (fpaths g) fpath_lists) with
  | Raise e => (c, Raise e)
  | OK fpath_lists => chunk_buckets key fpath_lists dsplits c
  end.

(** ** file_to_hits.py *)

(** *** numpy *)

Module Np.

(** [np.where(mask)[0]]: the indices at which the mask holds, in increasing
    order; [start] is the index of the head of [mask]. *)
Fixpoint where_from (start : Z) (mask : list bool) : list Z :=
  match mask with
  | [] => []
  | b :: rest =>
      if b then start :: where_from (start + 1) rest
      else where_from (start + 1) rest
  end.

Definition where_ (mask : list bool) : list Z := where_from 0 mask.

(** [a[mask]] with a boolean mask: the two must have the same length. *)
Fixpoint select {A : Type} (a : list A) (mask : list bool) : list A :=
  match a, mask with
  | x :: a', b :: mask' => if b then x :: select a' mask' else select a' mask'
  | _, _ => []
  end.

Definition getitem_mask {A : Type} (a : list A) (mask : list bool)
    : result (list A) :=
  if bool_decide (length a = length mask) then OK (select a mask)
  else Raise IndexError.

(** [np.sum(a)] on a one-dimensional [float64] array. numpy does not add
    from left to right. Its inner loop, [DOUBLE_pairwise_sum], is
<<
    if (n < 8) {
        res = -0.0;
        for (i = 0; i < n; i++) res += a[i];
        return res;
    }
    else if (n <= PW_BLOCKSIZE) {          /* 128 */
        r[0] = a[0]; ...; r[7] = a[7];
        for (i = 8; i < n - (n % 8); i += 8) {
            r[0] += a[i + 0]; ...; r[7] += a[i + 7];
        }
        res = ((r[0] + r[1]) + (r[2] + r[3])) +
              ((r[4] + r[5]) + (r[6] + r[7]));
        for (; i < n; i++) res += a[i];
        return res;
    }
    else {
        n2 = n / 2;
        n2 -= n2 % 8;
        return pairwise_sum(a, n2) + pairwise_sum(a + n2, n - n2);
    }
>>
    and the reduction adds its result to the initial value, which is [0.0]
    for an empty array and [-0.0] otherwise, so that an array of negative
    zeros sums to [-0.0] (numpy before 1.25 starts from [0.0] in both
    places and gives [0.0] there; nothing else depends on the version).
    The loop runs once over an array that numpy need not copy, which
    includes the contiguous arrays that indexing with a mask and
    [np.multiply] make. An array it reads through its buffer, as it does a
    column that is not aligned in the records of a table, is summed in
    pieces of 8192 elements, each added to the running value; up to that
    length the result is the same. *)
Definition partial_sums : Type := f64 * f64 * f64 * f64 * f64 * f64 * f64 * f64.

(** The loop over the full blocks of eight; what is left has fewer than
    eight elements. *)
Fixpoint add_blocks (r : partial_sums) (a : list f64) : partial_sums * list f64 :=
  match a with
  | x0 :: x1 :: x2 :: x3 :: x4 :: x5 :: x6 :: x7 :: rest =>
      let '(r0, r1, r2, r3, r4, r5, r6, r7) := r in
      add_blocks (F64.add r0 x0, F64.add r1 x1, F64.add r2 x2, F64.add r3 x3,
                  F64.add r4 x4, F64.add r5 x5, F64.add r6 x6, F64.add r7 x7)
                 rest
  | _ => (r, a)
  end.

(** The first two branches: at most [PW_BLOCKSIZE] elements. *)
Definition block_sum (a : list f64) : f64 :=
  match a with
  | x0 :: x1 :: x2 :: x3 :: x4 :: x5 :: x6 :: x7 :: rest =>
      let '((r0, r1, r2, r3, r4, r5, r6, r7), tail) :=
        add_blocks (x0, x1, x2, x3, x4, x5, x6, x7) rest in
      let res := F64.add (F64.add (F64.add r0 r1) (F64.add r2 r3))
                         (F64.add (F64.add r4 r5) (F64.add r6 r7)) in
      foldl F64.add res tail
  | _ => foldl F64.add F64.neg_zero a
  end.

(** The recursion halves the array; [depth] bounds its depth, and the
    length of the array is more than enough. *)
Fixpoint pairwise_sum_to (depth : nat) (a : list f64) : f64 :=
  match depth with
  | S depth' =>
      if 128 <? Py.len a then
        let n2 := (length a / 2 - (length a / 2) mod 8)%nat in
        F64.add (pairwise_sum_to depth' (take n2 a))
                (pairwise_sum_to depth' (drop n2 a))
      else block_sum a
  | O => block_sum a
  end.

Definition pairwise_sum (a : list f64) : f64 := pairwise_sum_to (length a) a.

Definition sum (a : list f64) : f64 :=
  match a with
  | [] => F64.zero
  | _ => F64.add F64.neg_zero (pairwise_sum a)
  end.

(** [np.mean(a, dtype=np.float64)]: the sum divided by the count. On an
    empty array numpy warns and the division of zero by zero is carried
    out: no exception is raised. *)
Definition mean (a : list f64) : f64 :=
  F64.div (sum a) (F64.of_Z (Py.len a)).

(** [np.average(a, weights=w)] on one-dimensional arrays. *)
Definition average (a w : list f64) : result f64 :=
  if bool_decide (length a = length w) then
    let scl := sum w in
    if F64.eqb scl F64.zero then Raise ZeroDivisionError
    else OK (F64.div (sum (zip_with F64.mul a w)) scl)
  else Raise TypeError.

(** A two-dimensional [float64] array, held by columns: [shape0] rows, and
    as many columns as [columns] has entries, each of length [shape0]. *)
Record ndarray2 : Type := {
  shape0 : nat;
  columns : list (list f64)
}.

Definition shape1 (m : ndarray2) : nat := length (columns m).

(** [x[:, np.newaxis]]: a one-dimensional array as a single column. *)
Definition newaxis (x : list f64) : ndarray2 :=
  {| shape0 := length x; columns := [x] |}.

(** [np.concatenate([m1, m2, ...], axis=1)]: all arrays must have the same
    number of rows. *)
Fixpoint concatenate_with (m : ndarray2) (ms : list ndarray2) : result ndarray2 :=
  match ms with
  | [] => OK m
  | m' :: rest =>
      if bool_decide (shape0 m = shape0 m') then
        concatenate_with
          {| shape0 := shape0 m; columns := columns m ++ columns m' |} rest
      else Raise ValueError
  end.

Definition concatenate (ms : list ndarray2) : result ndarray2 :=
  match ms with
  | [] => Raise ValueError
  | m :: rest => concatenate_with m rest
  end.

(** [m[:, j]] *)
Definition column (m : ndarray2) (j : Z) : result (list f64) :=
  Py.getitem (columns m) j.

(** Row [i] of the array. *)
Definition row (m : ndarray2) (i : nat) : list f64 :=
  omap (fun c => c !! i) (columns m).

Definition rows (m : ndarray2) : list (list f64) :=
  row m <$> seq 0 (shape0 m).

End Np.

(** *** Event blobs *)

(** The keys of a blob: branch names, which are strings; Python lets any
    hashable value be used as a key, and the extractor uses an integer
    once. *)
Inductive pykey : Type :=
  | KStr (s : string)
  | KInt (i : Z).

#[global] Instance pykey_eq_dec : EqDecision pykey.
Proof. solve_decision. Defined.

#[global] Instance pykey_countable : Countable pykey :=
  inj_countable'
    (fun k => match k with KStr s => inl s | KInt i => inr i end)
    (fun x => match x with inl s => KStr s | inr i => KInt i end)
    (fun k => match k with KStr _ => eq_refl | KInt _ => eq_refl end).

(** What a blob holds under a key:
    - a table ([Hits], [McHits], [McTracks], [EventInfo]): the names of its
      columns ([dtype.names]) and its records, each giving a value to every
      column name;
    - the header object, of which the extractor reads [start_run.run_id];
    - a plain two-dimensional array ([RawHeader]);
    - a nested blob. *)
#[warnings="-register-all"]
Inductive value : Type :=
  | VTable (names : list string) (records : list (string -> f64))
  | VHeader (run_id : f64)
  | VArray (a : list (list f64))
  | VBlob (b : gmap pykey value).

Abbreviation blob := (gmap pykey value) (only parsing).

(** [event_blob[key]] *)
Definition blob_getitem (event_blob : blob) (key : pykey) : result value :=
  match event_blob !! key with
  | Some v => OK v
  | None => Raise KeyError
  end.

(** [v[name]] where [v] is expected to be a blob itself; on any other kind
    of value the expression the extractor builds on top of it raises. *)
Definition value_getitem (v : value) (key : pykey) : result value :=
  match v with
  | VBlob b => blob_getitem b key
  | _ => Raise TypeError
  end.

(** [t.dtype.names] *)
Definition dtype_names (t : value) : result (list string) :=
  match t with
  | VTable names _ => OK names
  | _ => Raise AttributeError
  end.

(** [t.<name>]: a column of a table. *)
Definition getattr (t : value) (name : string) : result (list f64) :=
  match t with
  | VTable names records =>
      if bool_decide (name ∈ names) then OK ((fun r => r name) <$> records)
      else Raise AttributeError
  | _ => Raise AttributeError
  end.

(** [t[i].<name>]: a field of the record at index [i]. *)
Definition record_field (t : value) (i : Z) (name : string) : result f64 :=
  match t with
  | VTable names records =>
      r ← Py.getitem records i;
      if bool_decide (name ∈ names) then OK (r name) else Raise AttributeError
  | _ => Raise TypeError
  end.

(** [t[lo:]] *)
Definition slice_from (t : value) (lo : Z) : result value :=
  match t with
  | VTable names records =>
      OK (VTable names (Py.slice records lo (Py.len records)))
  | VArray a => OK (VArray (Py.slice a lo (Py.len a)))
  | _ => Raise TypeError
  end.

(** [t.shape[0]] *)
Definition shape_0 (t : value) : result Z :=
  match t with
  | VTable _ records => OK (Py.len records)
  | VArray a => OK (Py.len a)
  | _ => Raise AttributeError
  end.

(** [t.__array__[mask]]: [__array__] is a method of the table, which the
    expression does not call but subscripts; a method has no items, and
    the subscription raises [TypeError], whatever the table and the mask. *)
Definition array_getitem_mask (t : value) (mask : list bool) : result value :=
  Raise TypeError.

(** [h.start_run.run_id] *)
Definition start_run_run_id (h : value) : result f64 :=
  match h with
  | VHeader run_id => OK run_id
  | _ => Raise AttributeError
  end.

(** [a[0][0]] *)
Definition getitem_0_0 (a : value) : result f64 :=
  match a with
  | VArray a => r ← Py.getitem a 0; Py.getitem r 0
  | VTable names records =>
      r ← Py.getitem records 0;
      name ← Py.getitem names 0;
      OK (r name)
  | VBlob b => Raise KeyError
  | VHeader _ => Raise TypeError
  end.

(** *** The calibration service *)

(** [kp.Geometry]: of the detector geometry the extractor uses [apply],
    which takes a hit table and gives back a calibrated one. *)
Record Geometry : Type := { apply : value -> result value }.

(** Computations that may call the calibration service: the arguments of
    the calls made, in order, next to the outcome. *)
Definition Traced (A : Type) : Type := list value * result A.

#[global] Instance traced_bind : MBind Traced := fun A B k c =>
  match c with
  | (calls, OK a) => let '(calls', r) := k a in (calls ++ calls', r)
  | (calls, Raise e) => (calls, Raise e)
  end.

#[global] Instance traced_ret : MRet Traced := fun A a => ([], OK a).

Definition lift {A : Type} (r : result A) : Traced A := ([], r).

Definition calls {A : Type} (c : Traced A) : list value := c.1.
Definition outcome {A : Type} (c : Traced A) : result A := c.2.

(** [geo.apply(hits)]; [geo] may be [None]. *)
Definition geo_apply (geo : option Geometry) (hits : value) : Traced value :=
  match geo with
  | None => ([], Raise AttributeError)
  | Some g => ([hits], apply g hits)
  end.

(** *** The cuts *)

(** The values of the [data_cuts] dict: flags and limits. *)
Inductive cut : Type :=
  | CutBool (b : bool)
  | CutNum (x : f64).

(** [c is True] *)
Definition is_True (c : cut) : bool :=
  match c with
  | CutBool b => b
  | CutNum _ => false
  end.

(** *** The extractor *)

(** [get_primary_track_index(event_blob)]:
<<
    bjorken_y_array = event_blob['McTracks'].bjorkeny
    primary_index = np.where(bjorken_y_array != 0.0)[0][0]
    return primary_index
>> *)
Definition get_primary_track_index (event_blob : blob) : result Z :=
  bjorken_y_array ← (t ← blob_getitem event_blob (KStr "McTracks");
                     getattr t "bjorkeny");
  primary_index ←
    Py.getitem (Np.where_ ((fun y => F64.neqb y F64.zero) <$> bjorken_y_array)) 0;
  OK primary_index.

(** [get_time_residual_nu_interaction_mean_triggered_hits(time_interaction,
    hits_time, triggered)]:
<<
    hits_time_triggered = hits_time[triggered == 1]
    t_mean_triggered = np.mean(hits_time_triggered, dtype=np.float64)
    time_residual_vertex = t_mean_triggered - time_interaction
    return time_residual_vertex
>> *)
Definition get_time_residual_nu_interaction_mean_triggered_hits
    (time_interaction : f64) (hits_time triggered : list f64) : result f64 :=
  hits_time_triggered ←
    Np.getitem_mask hits_time ((fun t => F64.eqb t F64.one) <$> triggered);
  let t_mean_triggered := Np.mean hits_time_triggered in
  let time_residual_vertex := F64.sub t_mean_triggered time_interaction in
  OK time_residual_vertex.

(** The test that decides on the sixth column:
<<
    do4d[0] is True and do4d[1] == 'channel_id' or do4d[1] == 'xzt-c'
>> *)
Definition wants_channel_id (do4d : bool * string) : bool :=
  (do4d.1 && bool_decide (do4d.2 = "channel_id"))
  || bool_decide (do4d.2 = "xzt-c").

(** [get_hits(event_blob, geo, do_mc_hits, data_cuts, do4d)]:
<<
    hits = event_blob['Hits'] if do_mc_hits is False else event_blob['McHits']

    if 'pos_x' not in event_blob['Hits'].dtype.names: # check if blob already calibrated
        hits = geo.apply(hits)

    if data_cuts['triggered'] is True:
        hits = hits.__array__[hits.triggered.astype(bool)]

    pos_x, pos_y, pos_z = hits.pos_x, hits.pos_y, hits.pos_z
    hits_time = hits.time
    triggered = hits.triggered

    ax = np.newaxis
    event_hits = np.concatenate([pos_x[:, ax], pos_y[:, ax], pos_z[:, ax], hits_time[:, ax], triggered[:, ax]], axis=1)

    if do4d[0] is True and do4d[1] == 'channel_id' or do4d[1] == 'xzt-c':
        event_hits = np.concatenate([event_hits, hits.channel_id[:, ax]], axis=1)

    return event_hits
>> *)
Definition get_hits (event_blob : blob) (geo : option Geometry)
    (do_mc_hits : bool) (data_cuts : gmap string cut) (do4d : bool * string)
    : Traced Np.ndarray2 :=
  hits ← lift (if negb do_mc_hits then blob_getitem event_blob (KStr "Hits")
               else blob_getitem event_blob (KStr "McHits"));
  names ← lift (t ← blob_getitem event_blob (KStr "Hits"); dtype_names t);
  hits ← (if bool_decide ("pos_x" ∉ names) then geo_apply geo hits
          else mret hits);
  lift (
    triggered_cut ← dict_getitem data_cuts "triggered";
    hits ← (if is_True triggered_cut then
              triggered ← getattr hits "triggered";
              array_getitem_mask hits (F64.truthy <$> triggered)
            else OK hits);
    pos_x ← getattr hits "pos_x";
    pos_y ← getattr hits "pos_y";
    pos_z ← getattr hits "pos_z";
    hits_time ← getattr hits "time";
    triggered ← getattr hits "triggered";
    event_hits ← Np.concatenate [Np.newaxis pos_x; Np.newaxis pos_y;
                                 Np.newaxis pos_z; Np.newaxis hits_time;
                                 Np.newaxis triggered];
    if wants_channel_id do4d then
      channel_id ← getattr hits "channel_id";
      Np.concatenate [event_hits; Np.newaxis channel_id]
    else OK event_hits).

(** [event_blob['McTracks'][i].<name>] *)
Definition mc_track_field (event_blob : blob) (i : Z) (name : string)
    : result f64 :=
  t ← blob_getitem event_blob (KStr "McTracks");
  record_field t i name.

(** [event_blob['McTracks'][1:].<name>] *)
Definition mc_tracks_from_1 (event_blob : blob) (name : string)
    : result (list f64) :=
  t ← blob_getitem event_blob (KStr "McTracks");
  t ← slice_from t 1;
  getattr t name.

(** [event_blob[4]['McTracks'][1:].energy] *)
Definition blob_4_mc_tracks_from_1_energy (event_blob : blob)
    : result (list f64) :=
  b ← blob_getitem event_blob (KInt 4);
  t ← value_getitem b (KStr "McTracks");
  t ← slice_from t 1;
  getattr t "energy".

(** The first lines of [get_tracks]:
<<
    event_id = event_blob['EventInfo'].event_id[0]
    if 'Header' in event_blob:
        run_id = event_blob['Header'].start_run.run_id.astype('float32')
    else:
        run_id = event_blob['RawHeader'][0][0].astype('float32')
>> *)
Definition event_id_and_run_id (event_blob : blob) : result (f64 * f64) :=
  event_id ← (t ← blob_getitem event_blob (KStr "EventInfo");
              ids ← getattr t "event_id";
              Py.getitem ids 0);
  run_id ← (if bool_decide (is_Some (event_blob !! KStr "Header")) then
              h ← blob_getitem event_blob (KStr "Header");
              r ← start_run_run_id h;
              OK (F64.astype_float32 r)
            else
              a ← blob_getitem event_blob (KStr "RawHeader");
              r ← getitem_0_0 a;
              OK (F64.astype_float32 r));
  OK (event_id, run_id).

(** The ['muon'] branch of [get_tracks]:
<<
    particle_type = event_blob['McTracks'][1].type
    is_cc = event_blob['McTracks'][1].is_cc
    bjorkeny = event_blob['McTracks'][1].bjorkeny
    time_interaction = event_blob['McTracks'][1].time
    n_muons = event_blob['McTracks'].shape[0] - 1
    energy = np.sum(event_blob['McTracks'].energy)
    dir_x, dir_y, dir_z = event_blob['McTracks'][1].dir_x, event_blob['McTracks'][1].dir_y, event_blob['McTracks'][1].dir_z
    vertex_pos_x = np.average(event_blob['McTracks'][1:].pos_x, weights=event_blob[4]['McTracks'][1:].energy)
    vertex_pos_y = np.average(event_blob['McTracks'][1:].pos_y, weights=event_blob[4]['McTracks'][1:].energy)
    vertex_pos_z = np.average(event_blob['McTracks'][1:].pos_z, weights=event_blob[4]['McTracks'][1:].energy)
    track = [event_id, particle_type, energy, is_cc, bjorkeny, dir_x, dir_y, dir_z, time_interaction, run_id,
             vertex_pos_x, vertex_pos_y, vertex_pos_z, n_muons]
>> *)
Definition muon_track (event_blob : blob) (event_id run_id : f64)
    : result (list f64) :=
  particle_type ← mc_track_field event_blob 1 "type";
  is_cc ← mc_track_field event_blob 1 "is_cc";
  bjorkeny ← mc_track_field event_blob 1 "bjorkeny";
  time_interaction ← mc_track_field event_blob 1 "time";
  n_muons ← (t ← blob_getitem event_blob (KStr "McTracks");
             n ← shape_0 t;
             OK (n - 1));
  energy ← (t ← blob_getitem event_blob (KStr "McTracks");
            e ← getattr t "energy";
            OK (Np.sum e));
  dir_x ← mc_track_field event_blob 1 "dir_x";
  dir_y ← mc_track_field event_blob 1 "dir_y";
  dir_z ← mc_track_field event_blob 1 "dir_z";
  vertex_pos_x ← (a ← mc_tracks_from_1 event_blob "pos_x";
                  w ← blob_4_mc_tracks_from_1_energy event_blob;
                  Np.average a w);
  vertex_pos_y ← (a ← mc_tracks_from_1 event_blob "pos_y";
                  w ← blob_4_mc_tracks_from_1_energy event_blob;
                  Np.average a w);
  vertex_pos_z ← (a ← mc_tracks_from_1 event_blob "pos_z";
                  w ← blob_4_mc_tracks_from_1_energy event_blob;
                  Np.average a w);
  OK [event_id; particle_type; energy; is_cc; bjorkeny; dir_x; dir_y; dir_z;
      time_interaction; run_id; vertex_pos_x; vertex_pos_y; vertex_pos_z;
      F64.of_Z n_muons].

(** The ['neutrino'] branch of [get_tracks]:
<<
    p = get_primary_track_index(event_blob)
    particle_type = event_blob['McTracks'][p].type
    energy = event_blob['McTracks'][p].energy
    is_cc = event_blob['McTracks'][p].is_cc
    bjorkeny = event_blob['McTracks'][p].bjorkeny
    dir_x, dir_y, dir_z = event_blob['McTracks'][p].dir_x, event_blob['McTracks'][p].dir_y, event_blob['McTracks'][p].dir_z
    time_interaction = event_blob['McTracks'][p].time
    vertex_pos_x, vertex_pos_y, vertex_pos_z = event_blob['McTracks'][p].pos_x, event_blob['McTracks'][p].pos_y, \
                                               event_blob['McTracks'][p].pos_z
    hits_time, triggered = event_hits[:, 3], event_hits[:, 4]
    time_residual_vertex = get_time_residual_nu_interaction_mean_triggered_hits(time_interaction, hits_time, triggered)
    track = [event_id, particle_type, energy, is_cc, bjorkeny, dir_x, dir_y, dir_z, time_interaction, run_id,
             vertex_pos_x, vertex_pos_y, vertex_pos_z, time_residual_vertex]
>> *)
Definition neutrino_track (event_blob : blob) (event_hits : Np.ndarray2)
    (event_id run_id : f64) : result (list f64) :=
  p ← get_primary_track_index event_blob;
  particle_type ← mc_track_field event_blob p "type";
  energy ← mc_track_field event_blob p "energy";
  is_cc ← mc_track_field event_blob p "is_cc";
  bjorkeny ← mc_track_field event_blob p "bjorkeny";
  dir_x ← mc_track_field event_blob p "dir_x";
  dir_y ← mc_track_field event_blob p "dir_y";
  dir_z ← mc_track_field event_blob p "dir_z";
  time_interaction ← mc_track_field event_blob p "time";
  vertex_pos_x ← mc_track_field event_blob p "pos_x";
  vertex_pos_y ← mc_track_field event_blob p "pos_y";
  vertex_pos_z ← mc_track_field event_blob p "pos_z";
  hits_time ← Np.column event_hits 3;
  triggered ← Np.column event_hits 4;
  time_residual_vertex ←
    get_time_residual_nu_interaction_mean_triggered_hits
      time_interaction hits_time triggered;
  OK [event_id; particle_type; energy; is_cc; bjorkeny; dir_x; dir_y; dir_z;
      time_interaction; run_id; vertex_pos_x; vertex_pos_y; vertex_pos_z;
      time_residual_vertex].

(** [get_tracks(event_blob, file_particle_type, event_hits, prod_ident)]:
    the header lines, then
<<
    if file_particle_type == 'undefined':
        particle_type = 0
        track = [event_id, run_id, particle_type]
    elif file_particle_type == 'muon':
        ...
    elif file_particle_type == 'neutrino':
        ...
    else:
        raise ValueError('The file_particle_type "', str(file_particle_type), '" is not known.')

    if prod_ident is not None: track.append(prod_ident)
    event_track = np.array(track, dtype=np.float64)
    return event_track
>> *)
Definition get_tracks (event_blob : blob) (file_particle_type : string)
    (event_hits : Np.ndarray2) (prod_ident : option Z) : result (list f64) :=
  '(event_id, run_id) ← event_id_and_run_id event_blob;
  track ← (if bool_decide (file_particle_type = "undefined") then
             let particle_type := F64.of_Z 0 in
             OK [event_id; run_id; particle_type]
           else if bool_decide (file_particle_type = "muon") then
             muon_track event_blob event_id run_id
           else if bool_decide (file_particle_type = "neutrino") then
             neutrino_track event_blob event_hits event_id run_id
           else Raise ValueError);
  let track := match prod_ident with
               | Some p => track ++ [F64.of_Z p]
               | None => track
               end in
  OK track.

(** [get_event_data(event_blob, file_particle_type, geo, do_mc_hits,
    data_cuts, do4d, prod_ident)]:
<<
    event_hits = get_hits(event_blob, geo, do_mc_hits, data_cuts, do4d)
    event_track = get_tracks(event_blob, file_particle_type, event_hits, prod_ident)
    return event_hits, event_track
>> *)
Definition get_event_data (event_blob : blob) (file_particle_type : string)
    (geo : option Geometry) (do_mc_hits : bool) (data_cuts : gmap string cut)
    (do4d : bool * string) (prod_ident : option Z)
    : Traced (Np.ndarray2 * list f64) :=
  event_hits ← get_hits event_blob geo do_mc_hits data_cuts do4d;
  event_track ← lift (get_tracks event_blob file_particle_type event_hits prod_ident);
  mret (event_hits, event_track).

(** ** Notions used in the statements *)

(** The column of a field over a list of records, and the names of the
    columns of the hit matrix and of the truth fields of a track. *)
Definition field_column (records : list (string -> f64)) (name : string)
    : list f64 :=
  (fun r => r name) <$> records.

Definition hit_columns : list string :=
  ["pos_x"; "pos_y"; "pos_z"; "time"; "triggered"].

Definition track_fields : list string :=
  ["type"; "energy"; "is_cc"; "bjorkeny"; "dir_x"; "dir_y"; "dir_z"; "time";
   "pos_x"; "pos_y"; "pos_z"].

(** [y != 0.0] *)
Definition nonzero (y : f64) : bool := F64.neqb y F64.zero.

(** The hit matrix of a list of records. *)
Definition hit_matrix (records : list (string -> f64)) (with_channel_id : bool)
    : Np.ndarray2 :=
  {| Np.shape0 := length records;
     Np.columns := field_column records <$>
                     (hit_columns ++ if with_channel_id then ["channel_id"] else []) |}.

(** ** Sample data *)

(** Ten files with run ids 1 to 10; train is runs 1 to 6, validate 7 to 8,
    rest 9 to 10. *)
Definition ten_files : group_cfg := {|
  fpaths := ["f1"; "f2"; "f3"; "f4"; "f5"; "f6"; "f7"; "f8"; "f9"; "f10"];
  run_ids := [1; 2; 3; 4; 5; 6; 7; 8; 9; 10];
  run_ids_dsplit :=
    <["train" := [1; 6]]> (<["validate" := [7; 8]]> (<["rest" := [9; 10]]> ∅))
|}.

Definition plan_cfg (n_train : Z) : cfg := {|
  n_files_dsplit :=
    <["train" := n_train]> (<["validate" := 1]> (<["rest" := 1]> ∅));
  groups := <["muon" := ten_files]> ∅;
  output_dsplit := ∅
|}.

(** Two files on disk, of three events and of one event. *)
Definition two_files : filesystem :=
  <["a.h5" := <["y" := [<["run_id" := 7]> ∅; <["run_id" := 7]> ∅; <["run_id" := 7]> ∅]]> ∅]>
  (<["b.h5" := <["y" := [<["run_id" := 9]> ∅]]> ∅]> ∅).

(** A record with the given fields; the other fields read as zero. *)
Definition record_of (fields : list (string * f64)) : string -> f64 :=
  fun name => default F64.zero ((list_to_map fields : gmap string f64) !! name).

Definition hit (x y z t trig ch : Z) : string -> f64 :=
  record_of [("pos_x", F64.of_Z x); ("pos_y", F64.of_Z y); ("pos_z", F64.of_Z z);
             ("time", F64.of_Z t); ("triggered", F64.of_Z trig);
             ("channel_id", F64.of_Z ch); ("dom_id", F64.of_Z 1)].

Definition calibrated_names : list string :=
  ["pos_x"; "pos_y"; "pos_z"; "time"; "triggered"; "channel_id"; "dom_id"].

Definition raw_names : list string :=
  ["time"; "triggered"; "channel_id"; "dom_id"].

(** Three hits, the second one not triggered. *)
Definition three_hits : list (string -> f64) :=
  [hit 1 2 3 100 1 5; hit 4 5 6 110 0 6; hit 7 8 9 120 1 7].

(** No triggered hit. *)
Definition untriggered_hits : list (string -> f64) :=
  [hit 1 2 3 100 0 5; hit 4 5 6 110 0 6].

Definition track (type energy is_cc : Z) (bjorkeny : f64) (time pos : Z)
    : string -> f64 :=
  record_of [("type", F64.of_Z type); ("energy", F64.of_Z energy);
             ("is_cc", F64.of_Z is_cc); ("bjorkeny", bjorkeny);
             ("dir_x", F64.of_Z 0); ("dir_y", F64.of_Z 0); ("dir_z", F64.of_Z 1);
             ("time", F64.of_Z time); ("pos_x", F64.of_Z pos);
             ("pos_y", F64.of_Z (pos + 1)); ("pos_z", F64.of_Z (pos + 2))].

Definition track_names : list string :=
  track_fields ++ ["id"].

Definition quarter : f64 := F64.div (F64.of_Z 1) (F64.of_Z 4).

Definition event_info (event_id : Z) : value :=
  VTable ["event_id"] [record_of [("event_id", F64.of_Z event_id)]].

(** A calibrated event: the combined hits carry positions. The simulated
    hits of the same event do not. *)
Definition calibrated_blob (hits : list (string -> f64)) (tracks : list (string -> f64))
    : blob :=
  <[KStr "Hits" := VTable calibrated_names hits]>
  (<[KStr "McHits" := VTable raw_names hits]>
  (<[KStr "McTracks" := VTable track_names tracks]>
  (<[KStr "EventInfo" := event_info 5]>
  (<[KStr "Header" := VHeader (F64.of_Z 100)]> ∅)))).

(** An event that is not calibrated yet. *)
Definition raw_blob (hits : list (string -> f64)) : blob :=
  <[KStr "Hits" := VTable raw_names hits]>
  (<[KStr "McHits" := VTable raw_names hits]> ∅).

(** A calibration that adds the three position columns. *)
Definition sample_geo : Geometry := {|
  apply := fun t =>
    match t with
    | VTable names records => OK (VTable (["pos_x"; "pos_y"; "pos_z"] ++ names) records)
    | _ => Raise TypeError
    end
|}.

Definition sample_cuts (triggered : bool) : gmap string cut :=
  <["triggered" := CutBool triggered]> ∅.

(** A neutrino event: the second track is the primary one. *)
Definition neutrino_tracks : list (string -> f64) :=
  [track 13 3 0 F64.zero 0 10; track 14 20 1 quarter 50 20;
   track 13 7 0 quarter 60 30].

(** A neutrino event without a primary track. *)
Definition no_primary_tracks : list (string -> f64) :=
  [track 13 3 0 F64.zero 0 10; track 13 7 0 F64.zero 60 30].

(** A bundle of two muons behind the empty neutrino track. *)
Definition muon_tracks : list (string -> f64) :=
  [track 0 0 0 F64.zero 0 0; track 13 10 1 F64.zero 5 10;
   track 13 30 1 F64.zero 5 30].

(** The hit matrices of the sample events with the channel column. *)
Definition three_hits_with_channel : Np.ndarray2 :=
  {| Np.shape0 := 3;
     Np.columns := field_column three_hits <$> (hit_columns ++ ["channel_id"]) |}.

(** Nine triggered hits whose times do not add up exactly: the first is at
    [2^53], the others at 1. *)
Definition nine_hits : list (string -> f64) :=
  hit 0 0 0 (2 ^ 53) 1 0 :: replicate 8 (hit 0 0 0 1 1 0).

Definition nine_hits_matrix : Np.ndarray2 :=
  {| Np.shape0 := 9; Np.columns := field_column nine_hits <$> hit_columns |}.

Definition untriggered_hits_matrix : Np.ndarray2 :=
  {| Np.shape0 := 2;
     Np.columns := field_column untriggered_hits <$> hit_columns |}.

(** ** make_data_split.py, continued *)

(** *** The number of events of one file *)

(** [get_number_of_evts(file, dataset_key)]:
<<
    f = h5py.File(file, 'r')
    dset = f[dataset_key]
    n_evts = dset.shape[0]
    f.close()
    return n_evts
>> *)
Definition get_number_of_evts (fs : filesystem) (file dataset_key : string)
    : result Z :=
  f ← h5py_File fs file;
  dset ← dict_getitem f dataset_key;
  let n_evts := Py.len dset in
  OK n_evts.

(** *** Writing the list files *)

(** [make_dsplit_list_files] is the one function whose errors go beyond
    those of [exn]: it reads a local variable that may not be bound, and
    converts a float to an [int]. *)
Inductive error : Type :=
  | Builtin (e : exn)
  | UnboundLocalError
  | OverflowError.

Inductive completion (A : Type) : Type :=
  | Returns (a : A)
  | Raises (e : error).
Arguments Returns {A} a.
Arguments Raises {A} e.

Definition builtin {A : Type} (r : result A) : completion A :=
  match r with
  | OK a => Returns a
  | Raise e => Raises (Builtin e)
  end.

(** [str(i)] on an [int], and the line feed. *)
Definition str (i : Z) : string := pretty i.

Definition newline : string := String (Ascii.ascii_of_nat 10) "".

(** [int(x)] on a float: the integer part of a finite value. *)
Definition int (x : f64) : completion Z :=
  match x with
  | S754_zero _ => Returns 0
  | S754_infinity _ => Raises OverflowError
  | S754_nan => Raises (Builtin ValueError)
  | S754_finite s m e =>
      let magnitude := if 0 <=? e then Zpos m * 2 ^ e else Zpos m / 2 ^ (- e) in
      Returns (if s then - magnitude else magnitude)
  end.

(** [d[key]] on a dict kept as the list of its items, in insertion order. *)
Fixpoint items_getitem {V : Type} (d : list (string * V)) (key : string)
    : result V :=
  match d with
  | [] => Raise KeyError
  | (k, v) :: d' => if bool_decide (k = key) then OK v else items_getitem d' key
  end.

(** The part of the configuration dict that [make_dsplit_list_files] reads.
    The function relies on the order of the keys of each [output_<dsplit>]
    dict, which is the order of their insertion: such a dict is the list of
    its items. *)
Record list_cfg : Type := {
  output_file_folder : option string;
  output_file_name : option string;
  output_items : gmap string (list (string * list (list string)))
}.

(** [cfg[key]] for one of the two string options. *)
Definition cfg_getitem (v : option string) : result string :=
  match v with
  | Some s => OK s
  | None => Raise KeyError
  end.

(** What the function sees and changes outside of itself: the paths that
    exist on disk when it is called, which [os.path.exists] tests; the
    arguments of the calls to [os.makedirs], in order; the text files it
    writes, by path; the arguments of the calls to [print], in order; and
    the key [output_lists] of the configuration dict, when present. Calls to
    the operating system are taken to succeed, and what [os.makedirs] does
    to the disk, where it creates the directory and the missing ones above
    it, is left to it: the call is recorded. *)
Inductive print_arg : Type :=
  | PStr (s : string)
  | PInt (i : Z).

Record world : Type := {
  dirs : gset string;
  makedirs_calls : list string;
  texts : gmap string string;
  stdout : list (list print_arg);
  output_lists : option (list string)
}.

(** The two local variables that live across iterations: [keys], unbound
    until first assigned, and the array [final_number_of_events]. *)
Record locals : Type := {
  keys : option (list string);
  final_number_of_events : list f64
}.

(** Statements run on the world and the locals; what was done before an
    exception stays done. *)
Definition Writer (A : Type) : Type :=
  world * locals -> (world * locals) * completion A.

#[global] Instance writer_bind : MBind Writer := fun A B k c s =>
  match c s with
  | (s', Returns a) => k a s'
  | (s', Raises e) => (s', Raises e)
  end.

#[global] Instance writer_ret : MRet Writer := fun A a s => (s, Returns a).

Definition complete {A : Type} (c : completion A) : Writer A := fun s => (s, c).

Definition local {A : Type} (f : locals -> A) : Writer A :=
  fun s => (s, Returns (f s.2)).

Definition set_world (f : world -> world) : Writer unit :=
  fun s => ((f s.1, s.2), Returns tt).

Definition set_locals (f : locals -> locals) : Writer unit :=
  fun s => ((s.1, f s.2), Returns tt).

(** [for x in l: body] *)
Fixpoint for_each {A : Type} (l : list A) (body : A -> Writer unit) : Writer unit :=
  match l with
  | [] => mret tt
  | x :: l' => body x ;; for_each l' body
  end.

(** [print(...)]: one line of output, kept as the arguments printed. *)
Definition print (args : list print_arg) : Writer unit :=
  set_world (fun w => {| dirs := dirs w; makedirs_calls := makedirs_calls w;
                         texts := texts w; stdout := stdout w ++ [args];
                         output_lists := output_lists w |}).

(** [open(path, 'w')] and [f_out.write(s)] on the file opened at [path]. *)
Definition open_w (path : string) : Writer unit :=
  set_world (fun w => {| dirs := dirs w; makedirs_calls := makedirs_calls w;
                         texts := <[path := ""]> (texts w);
                         stdout := stdout w; output_lists := output_lists w |}).

Definition write (path s : string) : Writer unit :=
  set_world (fun w => {| dirs := dirs w; makedirs_calls := makedirs_calls w;
                         texts := <[path := default "" (texts w !! path) +:+ s]> (texts w);
                         stdout := stdout w; output_lists := output_lists w |}).

(** [if not os.path.exists(path): os.makedirs(path)] *)
Definition makedirs_unless_exists (path : string) : Writer unit :=
  set_world (fun w =>
    {| dirs := dirs w;
       makedirs_calls := if bool_decide (path ∈ dirs w) then makedirs_calls w
                         else makedirs_calls w ++ [path];
       texts := texts w; stdout := stdout w; output_lists := output_lists w |}).

(** The name [keys], read. *)
Definition read_keys : Writer (list string) :=
  ks ← local keys;
  match ks with
  | Some l => mret l
  | None => complete (Raises UnboundLocalError)
  end.

(** The body of the loop over the files of one chunk:
<<
    final_number_of_events[j] += get_number_of_evts(fpath)
    f_out.write(fpath + '\n')
>> *)
Definition count_and_write (fs : filesystem) (f_out : string) (j : Z)
    (fpath : string) : Writer unit :=
  counts ← local final_number_of_events;
  count ← complete (builtin (Py.getitem counts j));
  n_evts ← complete (builtin (get_number_of_evts fs fpath "y"));
  set_locals (fun l => {| keys := keys l;
                          final_number_of_events :=
                            <[Z.to_nat j := F64.add count (F64.of_Z n_evts)]>
                              (final_number_of_events l) |});;
  write f_out (fpath +:+ newline).

(** The body of the loop over the input groups, for list file [i]:
<<
    keys = list(imput_groups_dict.keys())
    for fpath in imput_groups_dict[keys[j]][i]:
        ...
>> *)
Definition write_group (fs : filesystem) (f_out : string)
    (imput_groups_dict : list (string * list (list string))) (i j : Z)
    : Writer unit :=
  set_locals (fun l => {| keys := Some (imput_groups_dict.*1);
                          final_number_of_events := final_number_of_events l |});;
  ks ← read_keys;
  key ← complete (builtin (Py.getitem ks j));
  chunks ← complete (builtin (items_getitem imput_groups_dict key));
  chunk ← complete (builtin (Py.getitem chunks i));
  for_each chunk (count_and_write fs f_out j).

(** The body of the loop over the list files of one set:
<<
    fpath_output = cfg['output_file_folder'] + '/conc_list_files/' + cfg['output_file_name'] + '_' + dsplit + '_' + str(i) + '.txt'
    if 'output_lists' not in cfg:
        cfg['output_lists'] = list()
    cfg['output_lists'].append(fpath_output)
    with open(fpath_output, 'w') as f_out:
        for j in range(len(imput_groups_dict)):
            ...
>> *)
Definition write_list_file (fs : filesystem) (c : list_cfg) (dsplit : string)
    (imput_groups_dict : list (string * list (list string))) (i : Z)
    : Writer unit :=
  folder ← complete (builtin (cfg_getitem (output_file_folder c)));
  name ← complete (builtin (cfg_getitem (output_file_name c)));
  let fpath_output :=
    folder +:+ "/conc_list_files/" +:+ name +:+ "_" +:+ dsplit +:+ "_"
      +:+ str i +:+ ".txt" in
  set_world (fun w => {| dirs := dirs w; makedirs_calls := makedirs_calls w;
                         texts := texts w; stdout := stdout w;
                         output_lists :=
                           Some (default [] (output_lists w) ++ [fpath_output]) |});;
  open_w fpath_output;;
  for_each (Py.range (Py.len imput_groups_dict))
    (write_group fs fpath_output imput_groups_dict i).

(** The body of the loop over the sets:
<<
    if 'output_' + dsplit not in cfg:
        continue
    print(dsplit,"set:")
    first_key = list(cfg['output_' + dsplit].keys())[0]
    n_output_files = len(cfg['output_' + dsplit][first_key])
    imput_groups_dict = cfg['output_' + dsplit]
    final_number_of_events = np.zeros(len(imput_groups_dict))
    for i in range(n_output_files):
        ...
    for i in range(len(imput_groups_dict)):
        print(keys[i],":",int(final_number_of_events[i]))
    print("----------------------------------------------")
>> *)
Definition write_dsplit (fs : filesystem) (c : list_cfg) (dsplit : string)
    : Writer unit :=
  match output_items c !! dsplit with
  | None => mret tt
  | Some imput_groups_dict =>
      print [PStr dsplit; PStr "set:"];;
      first_key ← complete (builtin (Py.getitem (imput_groups_dict.*1) 0));
      first_chunks ← complete (builtin (items_getitem imput_groups_dict first_key));
      let n_output_files := Py.len first_chunks in
      set_locals (fun l => {| keys := keys l;
                              final_number_of_events :=
                                replicate (length imput_groups_dict) F64.zero |});;
      for_each (Py.range n_output_files)
        (write_list_file fs c dsplit imput_groups_dict);;
      for_each (Py.range (Py.len imput_groups_dict)) (fun i =>
        ks ← read_keys;
        key ← complete (builtin (Py.getitem ks i));
        counts ← local final_number_of_events;
        count ← complete (builtin (Py.getitem counts i));
        n ← complete (int count);
        print [PStr key; PStr ":"; PInt n]);;
      print [PStr "----------------------------------------------"]
  end.

(** [make_dsplit_list_files(cfg)]:
<<
    if not os.path.exists(cfg['output_file_folder'] + '/conc_list_files'):
        os.makedirs(cfg['output_file_folder'] + '/conc_list_files')

    print()
    print()
    print("In an run-by-run MC the run_id's might not be continuous.")
    print("Here are the actual numbers in the split sets:")
    print("----------------------------------------------")

    for dsplit in ['train', 'validate', 'rest']:
        ...
>>
    The function starts with its locals unbound and returns nothing: it is
    run for what it does to the world. *)
Definition make_dsplit_list_files (fs : filesystem) (c : list_cfg) (w : world)
    : world * completion unit :=
  let body : Writer unit :=
    folder ← complete (builtin (cfg_getitem (output_file_folder c)));
    makedirs_unless_exists (folder +:+ "/conc_list_files");;
    print [];;
    print [];;
    print [PStr "In an run-by-run MC the run_id's might not be continuous."];;
    print [PStr "Here are the actual numbers in the split sets:"];;
    print [PStr "----------------------------------------------"];;
    for_each dsplits (write_dsplit fs c) in
  let '((w', _), r) :=
    body (w, {| keys := None; final_number_of_events := [] |}) in
  (w', r).

(** ** Notions used in the further statements *)

(** Whether a run id lies in the range configured for a bucket, and the
    files of a group that do, in the order of the group's file list. *)
Definition in_range (g : group_cfg) (dsplit : string) (run_id : Z) : bool :=
  match run_ids_dsplit g !! dsplit with
  | Some (low :: high :: _) => (low <=? run_id) && (run_id <=? high)
  | _ => false
  end.

Definition files_in_range (g : group_cfg) (dsplit : string)
    (files : list string) (ids : list Z) : list string :=
  (filter (fun p => in_range g dsplit p.2 = true) (zip files ids)).*1.

Definition bucket_files (g : group_cfg) (dsplit : string) : list string :=
  files_in_range g dsplit (fpaths g) (run_ids g).

(** Every configured range has its two bounds. *)
Definition ranges_ok (g : group_cfg) : Prop :=
  forall dsplit range,
    run_ids_dsplit g !! dsplit = Some range -> (2 <= length range)%nat.

(** The file lists the planner starts from. *)
Definition empty_fpath_lists : gmap string (list string) :=
  <["train" := []]> (<["validate" := []]> (<["rest" := []]> ∅)).

(** [cfg['output_' + dsplit][key]] *)
Definition output_chunks (c : cfg) (dsplit key : string)
    : option (list (list string)) :=
  output_dsplit c !! dsplit ≫= fun o => o !! key.

(** A file the inventory can read: it exists, has the dataset, the dataset
    has a first record, and that record has the run id column. [run_id] is
    what the inventory reads from it. *)
Definition first_run_id (fs : filesystem) (dataset_key run_id_col_name : string)
    (fpath : string) (run_id : Z) : Prop :=
  exists f row rest,
    fs !! fpath = Some f
    /\ f !! dataset_key = Some (row :: rest)
    /\ row !! run_id_col_name = Some run_id.

Definition readable (fs : filesystem) (dataset_key run_id_col_name : string)
    (fpath : string) : Prop :=
  exists run_id, first_run_id fs dataset_key run_id_col_name fpath run_id.

(** The fields of a record that make up its row of the hit matrix. *)
Definition hit_row (with_channel_id : bool) (r : string -> f64) : list f64 :=
  r <$> (hit_columns ++ if with_channel_id then ["channel_id"] else []).

(** The production identifier as the tail of a track vector. *)
Definition prod_ident_tail (prod_ident : option Z) : list f64 :=
  match prod_ident with
  | Some p => [F64.of_Z p]
  | None => []
  end.

(** [np.average(a, weights=w)] when it is defined. *)
Definition weighted_mean (a w : list f64) : f64 :=
  F64.div (Np.sum (zip_with F64.mul a w)) (Np.sum w).

(** The path of list file [i] of a set, the lines one chunk of files
    contributes, and the text of list file [i]: the lines of chunk [i] of
    every group, in the order of the groups. *)
Definition list_file_path (folder name dsplit : string) (i : Z) : string :=
  folder +:+ "/conc_list_files/" +:+ name +:+ "_" +:+ dsplit +:+ "_"
    +:+ str i +:+ ".txt".

Definition chunk_lines (chunk : list string) : string :=
  foldr (fun fpath s => (fpath +:+ newline) +:+ s) "" chunk.

Definition list_file_text (groups : list (string * list (list string)))
    (i : nat) : string :=
  foldr (fun g s => chunk_lines (default [] (g.2 !! i)) +:+ s) "" groups.

(** The number of list files of a set is the number of chunks of its first
    group; the files of a group that are listed are those of its first
    chunks, up to that number. *)
Definition n_output_files (groups : list (string * list (list string))) : nat :=
  match groups with
  | [] => 0%nat
  | (_, chunks) :: _ => length chunks
  end.

Definition listed_files (n : nat) (chunks : list (list string)) : list string :=
  concat (take n chunks).

(** The number of events of a file, where [get_number_of_evts] returns. *)
Definition has_events (fs : filesystem) (fpath : string) : Prop :=
  exists n, get_number_of_evts fs fpath "y" = OK n.

Definition n_evts (fs : filesystem) (fpath : string) : Z :=
  match get_number_of_evts fs fpath "y" with
  | OK n => n
  | Raise _ => 0
  end.

(** The float that counts the events of [files], starting from [c]. *)
Definition count_files (fs : filesystem) (c : f64) (files : list string) : f64 :=
  foldl (fun c fpath => F64.add c (F64.of_Z (n_evts fs fpath))) c files.

Definition events_listed (fs : filesystem) (n : nat) (chunks : list (list string))
    : Z :=
  sum_Z (n_evts fs <$> listed_files n chunks).

(** A group with a chunk [i] whose files have the dataset. *)
Definition chunk_at (fs : filesystem) (i : nat)
    (g : string * list (list string)) : Prop :=
  exists chunk, g.2 !! i = Some chunk /\ Forall (has_events fs) chunk.

(** A set the writer can handle: the keys of its groups are distinct, the
    first group has a chunk, no group has fewer chunks than the first, every
    listed file has the dataset, and a group lists fewer than [2^53]
    events. *)
Definition regular (fs : filesystem)
    (groups : list (string * list (list string))) : Prop :=
  NoDup groups.*1
  /\ (1 <= n_output_files groups)%nat
  /\ Forall (fun g =>
       (n_output_files groups <= length g.2)%nat
       /\ Forall (has_events fs) (listed_files (n_output_files groups) g.2)
       /\ events_listed fs (n_output_files groups) g.2 < 2 ^ 53) groups.

(** A group whose chunks are what [split] makes of its files for the count
    [n], with files the writer can count. *)
Definition split_by (fs : filesystem) (n : Z)
    (g : string * list (list string)) : Prop :=
  exists files,
    split files n = OK g.2
    /\ Forall (has_events fs) files
    /\ sum_Z (n_evts fs <$> files) < 2 ^ 53.

(** What a regular set adds to the world: its list files, their paths at
    the end of [output_lists], and the lines printed. *)
Definition written_texts (folder name dsplit : string)
    (groups : list (string * list (list string))) (t : gmap string string)
    : gmap string string :=
  foldl (fun t i => <[list_file_path folder name dsplit (Z.of_nat i) :=
                        list_file_text groups i]> t)
        t (seq 0 (n_output_files groups)).

Definition written_paths (folder name dsplit : string)
    (groups : list (string * list (list string))) : list string :=
  (fun i => list_file_path folder name dsplit (Z.of_nat i))
    <$> seq 0 (n_output_files groups).

Definition printed_lines (fs : filesystem) (dsplit : string)
    (groups : list (string * list (list string))) : list (list print_arg) :=
  [PStr dsplit; PStr "set:"]
  :: ((fun g => [PStr g.1; PStr ":";
                 PInt (events_listed fs (n_output_files groups) g.2)]) <$> groups)
  ++ [[PStr "----------------------------------------------"]].

(** The counts of the groups after [i] list files. *)
Definition counts_after (fs : filesystem)
    (groups : list (string * list (list string))) (i : nat) : list f64 :=
  (fun g => count_files fs F64.zero (listed_files i g.2)) <$> groups.

(** The world after the directory is made sure of and the heading is
    printed, what one set adds to a world, and the world after several
    sets. *)
Definition heading : list (list print_arg) :=
  [ []; [];
    [PStr "In an run-by-run MC the run_id's might not be continuous."];
    [PStr "Here are the actual numbers in the split sets:"];
    [PStr "----------------------------------------------"] ].

Definition set_written (fs : filesystem) (c : list_cfg) (folder name : string)
    (w : world) (dsplit : string) : world :=
  match output_items c !! dsplit with
  | None => w
  | Some groups =>
      {| dirs := dirs w; makedirs_calls := makedirs_calls w;
         texts := written_texts folder name dsplit groups (texts w);
         stdout := stdout w ++ printed_lines fs dsplit groups;
         output_lists :=
           Some (default [] (output_lists w) ++ written_paths folder name dsplit groups) |}
  end.

Definition headed (folder : string) (w : world) : world :=
  {| dirs := dirs w;
     makedirs_calls := if bool_decide (folder +:+ "/conc_list_files" ∈ dirs w)
                       then makedirs_calls w
                       else makedirs_calls w ++ [folder +:+ "/conc_list_files"];
     texts := texts w;
     stdout := stdout w ++ heading;
     output_lists := output_lists w |}.

Definition sets_written (fs : filesystem) (c : list_cfg) (folder name : string)
    (w : world) (sets : list string) : world :=
  foldl (set_written fs c folder name) w sets.

(** A group with more files than run ids. *)
Definition short_group : group_cfg := {|
  fpaths := ["f1"; "f2"];
  run_ids := [1];
  run_ids_dsplit := <["train" := [1; 5]]> ∅
|}.

Definition short_cfg : cfg := {|
  n_files_dsplit := <["train" := 1]> ∅;
  groups := <["muon" := short_group]> ∅;
  output_dsplit := ∅
|}.

(** A group whose train and validate ranges share the run 2. *)
Definition overlap_group : group_cfg := {|
  fpaths := ["f1"; "f2"; "f3"];
  run_ids := [1; 2; 3];
  run_ids_dsplit := <["train" := [1; 2]]> (<["validate" := [2; 3]]> ∅)
|}.

Definition overlap_cfg : cfg := {|
  n_files_dsplit := <["train" := 1]> (<["validate" := 1]> ∅);
  groups := <["muon" := overlap_group]> ∅;
  output_dsplit := ∅
|}.


(** The ten files of the muon group, planned after a neutrino group whose
    two train chunks are in the configuration already. *)
Definition frame_cfg (n_train : Z) : cfg := {|
  n_files_dsplit :=
    <["train" := n_train]> (<["validate" := 1]> (<["rest" := 1]> ∅));
  groups := <["muon" := ten_files]> ∅;
  output_dsplit := <["train" := <["neutrino" := [["n1"]; ["n2"]]]> ∅]> ∅
|}.

(** A file without events, next to the two sample files. *)
Definition three_files : filesystem := <["empty.h5" := <["y" := []]> ∅]> two_files.

(** A muon event whose truth-track table holds the empty neutrino track
    only. *)
Definition sentinel_only_tracks : list (string -> f64) :=
  [track 0 0 0 F64.zero 0 0].

(** The muon event with a copy of its blob under the integer key 4. *)
Definition muon_blob_with_key_4 : blob :=
  <[KInt 4 := VBlob (calibrated_blob three_hits muon_tracks)]>
    (calibrated_blob three_hits muon_tracks).

(** Two groups whose files are split over two list files of the training
    set, a configuration whose only chunk list is empty, and a world with
    nothing in it. *)
Definition list_cfg_two_groups : list_cfg :=
  {| output_file_folder := Some "out";
     output_file_name := Some "set";
     output_items :=
       <["train" := [("a", [ ["a.h5"]; ["b.h5"] ]);
                     ("b", [ ["b.h5"]; [] ])] ]> ∅ |}.

Definition list_cfg_no_chunk : list_cfg :=
  {| output_file_folder := Some "out";
     output_file_name := Some "set";
     output_items := <["train" := [("a", [])] ]> ∅ |}.

Definition empty_world : world :=
  {| dirs := ∅; makedirs_calls := []; texts := ∅; stdout := [];
     output_lists := None |}.

(** * Properties *)

(** ** The chunk partitioner *)

Section Split.

Context {A : Type}.
Implicit Types (a : list A) (n k m : Z).

Lemma chunk_start_0 k m : 0 <= m -> chunk_start k m 0 = 0.
Proof. unfold chunk_start. lia. Qed.

Lemma chunk_start_step k m (i : Z) :
  chunk_start k m (i + 1) - chunk_start k m i = if i <? m then k + 1 else k.
Proof. unfold chunk_start. destruct (Z.ltb_spec i m); lia. Qed.

Lemma chunk_start_mono k m (i j : Z) :
  0 <= k -> i <= j -> chunk_start k m i <= chunk_start k m j.
Proof. unfold chunk_start. nia. Qed.

Lemma chunk_start_last a n :
  1 <= n ->
  chunk_start (Py.len a / n) (Py.len a mod n) n = Py.len a.
Proof.
  intros Hn. unfold chunk_start.
  pose proof (Z.mod_pos_bound (Py.len a) n ltac:(lia)) as Hm.
  pose proof (Z.div_mod (Py.len a) n ltac:(lia)) as Hd.
  rewrite Z.min_r by lia. lia.
Qed.

Lemma divmod_nonneg a n :
  1 <= n -> 0 <= Py.len a / n /\ 0 <= Py.len a mod n < n.
Proof.
  intros Hn. split.
  - apply Z.div_pos; unfold Py.len; lia.
  - apply Z.mod_pos_bound. lia.
Qed.

(** A slice between two positions inside the list. *)
Lemma slice_inside a lo hi :
  0 <= lo -> lo <= hi -> hi <= Py.len a ->
  Py.slice a lo hi = take (Z.to_nat (hi - lo)) (drop (Z.to_nat lo) a).
Proof.
  intros H0 H1 H2. unfold Py.slice, Py.slice_index.
  destruct (Z.ltb_spec lo 0), (Z.ltb_spec hi 0); try lia.
  rewrite !Z.min_l by lia. reflexivity.
Qed.

(** Consecutive pieces cut at increasing positions add up to a prefix. *)
Lemma concat_pieces (b : nat -> nat) (c : nat) a :
  b 0%nat = 0%nat ->
  (forall i, (i < c)%nat -> (b i <= b (S i))%nat) ->
  concat ((fun i => take (b (S i) - b i) (drop (b i) a)) <$> seq 0 c)
  = take (b c) a.
Proof.
  intros Hb0 Hmono. induction c as [|c IH].
  - simpl. rewrite Hb0. reflexivity.
  - rewrite seq_S, fmap_app, concat_app. simpl.
    rewrite IH by (intros; apply Hmono; lia).
    rewrite app_nil_r, take_take_drop.
    f_equal. specialize (Hmono c). lia.
Qed.

Lemma split_chunks a n :
  1 <= n ->
  split a n
  = OK (chunk a (Py.len a / n) (Py.len a mod n) <$> seq 0 (Z.to_nat n)).
Proof.
  intros Hn. unfold split, Py.divmod.
  destruct (Z.eqb_spec n 0) as [|_]; [lia|]. cbn.
  f_equal. unfold Py.range, seqZ. rewrite <- list_fmap_compose.
  apply list_fmap_ext. intros j i Hi. cbn.
  apply lookup_seq in Hi as [-> Hi].
  destruct (divmod_nonneg a n Hn) as [Hk Hm].
  replace (Z.of_nat (0 + j)%nat + 0) with (Z.of_nat j) by lia.
  fold (chunk_start (Py.len a / n) (Py.len a mod n) (Z.of_nat j)).
  fold (chunk_start (Py.len a / n) (Py.len a mod n) (Z.of_nat j + 1)).
  unfold chunk. apply slice_inside.
  - rewrite <- (chunk_start_0 (Py.len a / n) (Py.len a mod n)) by lia.
    apply chunk_start_mono; lia.
  - apply chunk_start_mono; lia.
  - rewrite <- (chunk_start_last a n Hn) at 3.
    apply chunk_start_mono; lia.
Qed.

Lemma length_chunk a n (i : nat) :
  1 <= n -> Z.of_nat i < n ->
  Py.len (chunk a (Py.len a / n) (Py.len a mod n) i)
  = if Z.of_nat i <? Py.len a mod n then Py.len a / n + 1 else Py.len a / n.
Proof.
  intros Hn Hi. unfold chunk, Py.len at 1.
  destruct (divmod_nonneg a n Hn) as [Hk Hm].
  pose proof (chunk_start_step (Py.len a / n) (Py.len a mod n) (Z.of_nat i)) as Hs.
  pose proof (chunk_start_mono (Py.len a / n) (Py.len a mod n) 0 (Z.of_nat i) Hk ltac:(lia)) as H0.
  pose proof (chunk_start_mono (Py.len a / n) (Py.len a mod n) (Z.of_nat i + 1) n Hk ltac:(lia)) as H1.
  rewrite chunk_start_0 in H0 by lia. rewrite chunk_start_last in H1 by lia.
  rewrite length_take, length_drop.
  destruct (Z.of_nat i <? Py.len a mod n); unfold Py.len in *; lia.
Qed.

Lemma concat_chunks a n :
  1 <= n ->
  concat (chunk a (Py.len a / n) (Py.len a mod n) <$> seq 0 (Z.to_nat n)) = a.
Proof.
  intros Hn. destruct (divmod_nonneg a n Hn) as [Hk Hm].
  set (k := Py.len a / n) in *. set (m := Py.len a mod n) in *.
  set (b := fun i : nat => Z.to_nat (chunk_start k m (Z.of_nat i))).
  assert (Hb : forall i : nat, (b i <= b (S i))%nat).
  { intros i. unfold b. apply Z2Nat.inj_le.
    - rewrite <- (chunk_start_0 k m) by lia. apply chunk_start_mono; lia.
    - rewrite <- (chunk_start_0 k m) by lia. apply chunk_start_mono; lia.
    - apply chunk_start_mono; lia. }
  transitivity (concat ((fun i => take (b (S i) - b i) (drop (b i) a))
                          <$> seq 0 (Z.to_nat n))).
  - f_equal. apply list_fmap_ext. intros j i _. unfold chunk, b.
    f_equal. rewrite Z2Nat.inj_sub.
    + f_equal. f_equal. f_equal. lia.
    + rewrite <- (chunk_start_0 k m) by lia. apply chunk_start_mono; lia.
  - rewrite concat_pieces.
    + apply take_ge. unfold b. rewrite Z2Nat.id by lia.
      subst k m. rewrite chunk_start_last by lia. unfold Py.len. lia.
    + unfold b. simpl. rewrite chunk_start_0 by lia. reflexivity.
    + intros; apply Hb.
Qed.

Lemma sum_chunk_sizes (chunks : list (list A)) :
  sum_Z (chunk_sizes chunks) = Py.len (concat chunks).
Proof.
  induction chunks as [|c chunks IH]; [reflexivity|].
  change (Py.len c + sum_Z (chunk_sizes chunks) = Py.len (c ++ concat chunks)).
  rewrite IH. unfold Py.len. rewrite length_app. lia.
Qed.

End Split.

Example split_7_3 :
  split [1; 2; 3; 4; 5; 6; 7] 3 = OK [[1; 2; 3]; [4; 5]; [6; 7]].
Proof. reflexivity. Qed.

Example split_2_4 : split [1; 2] 4 = OK [[1]; [2]; []; []].
Proof. reflexivity. Qed.

Example split_empty_list : split (@nil Z) 2 = OK [[]; []].
Proof. reflexivity. Qed.

(** C1. For a chunk count [n >= 1], [split a n] computes
    [k, m = divmod(len(a), n)] and returns [n] chunks, chunk [i] being the
    piece of [a] of size [k + 1] (for [i < m]) or [k] (for [i >= m]) that
    starts where chunk [i - 1] ends; the chunks concatenated in order are
    [a], any two sizes differ by at most one, and the sizes add up to
    [len(a)]. *)
Theorem split_partition {A : Type} (a : list A) (n : Z) :
  1 <= n ->
  exists k m chunks,
    Py.divmod (Py.len a) n = OK (k, m)
    /\ split a n = OK chunks
    /\ Py.len chunks = n
    /\ (forall (i : nat) c, chunks !! i = Some c ->
          c = take (Z.to_nat (Py.len c)) (drop (Z.to_nat (chunk_start k m (Z.of_nat i))) a)
          /\ Py.len c = if Z.of_nat i <? m then k + 1 else k)
    /\ concat chunks = a
    /\ (forall c1 c2, c1 ∈ chunks -> c2 ∈ chunks ->
          Z.abs (Py.len c1 - Py.len c2) <= 1)
    /\ sum_Z (chunk_sizes chunks) = Py.len a.
Proof.
  intros Hn.
  exists (Py.len a / n), (Py.len a mod n),
    (chunk a (Py.len a / n) (Py.len a mod n) <$> seq 0 (Z.to_nat n)).
  assert (Hsize : forall (i : nat) c,
    (chunk a (Py.len a / n) (Py.len a mod n) <$> seq 0 (Z.to_nat n)) !! i = Some c ->
    c = chunk a (Py.len a / n) (Py.len a mod n) i
    /\ Py.len c = if Z.of_nat i <? Py.len a mod n
                  then Py.len a / n + 1 else Py.len a / n).
  { intros i c Hc. rewrite list_lookup_fmap in Hc.
    destruct (seq 0 (Z.to_nat n) !! i) as [j|] eqn:Hj; [|discriminate].
    apply lookup_seq in Hj as [-> Hi]. injection Hc as <-. split; [reflexivity|].
    apply length_chunk; lia. }
  repeat split.
  - unfold Py.divmod. destruct (Z.eqb_spec n 0); [lia|reflexivity].
  - apply split_chunks, Hn.
  - unfold Py.len. rewrite length_fmap, length_seq. lia.
  - destruct (Hsize i c H) as [Hc Hl]. rewrite Hl, Hc at 1. unfold chunk.
    rewrite chunk_start_step. reflexivity.
  - apply Hsize, H.
  - apply concat_chunks, Hn.
  - intros c1 c2 [i1 H1]%list_elem_of_lookup [i2 H2]%list_elem_of_lookup.
    apply Hsize in H1 as [_ ->], H2 as [_ ->].
    destruct (Z.of_nat i1 <? _), (Z.of_nat i2 <? _); lia.
  - rewrite sum_chunk_sizes, concat_chunks by apply Hn. reflexivity.
Qed.

Lemma split_partition_witness :
  1 <= 3 /\
  exists k m chunks,
    Py.divmod (Py.len [10; 20; 30; 40; 50; 60; 70]) 3 = OK (k, m)
    /\ split [10; 20; 30; 40; 50; 60; 70] 3 = OK chunks
    /\ Py.len chunks = 3
    /\ (forall (i : nat) c, chunks !! i = Some c ->
          c = take (Z.to_nat (Py.len c))
                (drop (Z.to_nat (chunk_start k m (Z.of_nat i)))
                      [10; 20; 30; 40; 50; 60; 70])
          /\ Py.len c = if Z.of_nat i <? m then k + 1 else k)
    /\ concat chunks = [10; 20; 30; 40; 50; 60; 70]
    /\ (forall c1 c2, c1 ∈ chunks -> c2 ∈ chunks ->
          Z.abs (Py.len c1 - Py.len c2) <= 1)
    /\ sum_Z (chunk_sizes chunks) = Py.len [10; 20; 30; 40; 50; 60; 70].
Proof.
  split; [lia|]. apply (split_partition [10; 20; 30; 40; 50; 60; 70] 3). lia.
Defined.

(** C9. For a chunk count [n >= 1], [split a n] returns exactly [n] chunks
    whose concatenation is [a], also when [n] exceeds [len(a)]: then chunk
    [i] holds the one element [a[i]] for [i < len(a)], and the remaining
    [n - len(a)] chunks are empty. *)
Theorem split_more_chunks_than_elements {A : Type} (a : list A) (n : Z) :
  1 <= n ->
  exists chunks,
    split a n = OK chunks
    /\ Py.len chunks = n
    /\ concat chunks = a
    /\ (Py.len a < n ->
          (forall (i : nat) x, a !! i = Some x -> chunks !! i = Some [x])
          /\ (forall i : nat, Py.len a <= Z.of_nat i < n -> chunks !! i = Some [])).
Proof.
  intros Hn.
  exists (chunk a (Py.len a / n) (Py.len a mod n) <$> seq 0 (Z.to_nat n)).
  split; [apply split_chunks, Hn|].
  split; [unfold Py.len; rewrite length_fmap, length_seq; lia|].
  split; [apply concat_chunks, Hn|].
  intros Hlt.
  assert (Hk : Py.len a / n = 0) by (apply Z.div_small; unfold Py.len in *; lia).
  assert (Hm : Py.len a mod n = Py.len a) by (apply Z.mod_small; unfold Py.len in *; lia).
  rewrite Hk, Hm. split.
  - intros i x Hx. pose proof (lookup_lt_Some _ _ _ Hx) as Hi.
    rewrite list_lookup_fmap, lookup_seq_lt by (unfold Py.len in *; lia).
    simpl. f_equal. unfold chunk, chunk_start, Py.len.
    replace (Z.to_nat _) with 1%nat by lia.
    replace (Z.to_nat _) with i by lia.
    rewrite <- (take_drop_middle _ _ _ Hx) at 1.
    rewrite drop_app_length' by (rewrite length_take; lia). reflexivity.
  - intros i Hi.
    rewrite list_lookup_fmap, lookup_seq_lt by lia.
    simpl. f_equal. unfold chunk, chunk_start, Py.len in *.
    replace (Z.to_nat _) with 0%nat by lia. reflexivity.
Qed.

Lemma split_more_chunks_than_elements_witness :
  1 <= 4 /\ Py.len [7; 8] < 4 /\
  exists chunks,
    split [7; 8] 4 = OK chunks
    /\ Py.len chunks = 4
    /\ concat chunks = [7; 8]
    /\ (forall (i : nat) x, [7; 8] !! i = Some x -> chunks !! i = Some [x])
    /\ (forall i : nat, Py.len [7; 8] <= Z.of_nat i < 4 -> chunks !! i = Some []).
Proof.
  split; [lia|]. split; [reflexivity|].
  destruct (split_more_chunks_than_elements [7; 8] 4 ltac:(lia))
    as (chunks & Hs & Hl & Hc & Hi).
  exists chunks. repeat split; try assumption; apply Hi; reflexivity.
Defined.

Example split_zero : split [1; 2] 0 = Raise ZeroDivisionError.
Proof. reflexivity. Qed.

Example split_negative : split [1; 2; 3] (-2) = OK [].
Proof. reflexivity. Qed.

Lemma range_nonpositive (n : Z) : n <= 0 -> Py.range n = [].
Proof.
  intros Hn. unfold Py.range, seqZ.
  replace (Z.to_nat n) with 0%nat by lia. reflexivity.
Qed.

(** C3, as stated, fails: a negative chunk count raises nothing; the
    partitioner returns an empty list of chunks. *)
Lemma split_negative_count_returns :
  -1 <= 0
  /\ split ["a.h5"; "b.h5"; "c.h5"] (-1) = OK []
  /\ ~ (forall (a : list string) (n : Z),
          n <= 0 -> split a n = Raise InvalidCountError).
Proof.
  split; [lia|]. split; [reflexivity|].
  intros H. specialize (H ["a.h5"; "b.h5"; "c.h5"] (-1) ltac:(lia)).
  discriminate H.
Qed.

(** C3, amended. For the chunk count 0, [split] fails with the division by
    zero of [divmod], the [InvalidCountError] of the design, before any
    chunk is cut; for a negative chunk count it raises nothing and returns
    the empty list of chunks. *)
Theorem split_nonpositive_count {A : Type} (a : list A) (n : Z) :
  n <= 0 ->
  Py.divmod (Py.len a) n
    = (if n =? 0 then Raise InvalidCountError
       else OK (Py.len a / n, Py.len a mod n))
  /\ split a n = (if n =? 0 then Raise InvalidCountError else OK []).
Proof.
  intros Hn. unfold split, Py.divmod, InvalidCountError.
  destruct (Z.eqb_spec n 0) as [->|Hne]; [split; reflexivity|].
  split; [reflexivity|]. cbn. rewrite range_nonpositive by lia. reflexivity.
Qed.

Lemma split_nonpositive_count_witness :
  0 <= 0 /\
  Py.divmod (Py.len ["a.h5"; "b.h5"]) 0
    = (if 0 =? 0 then Raise InvalidCountError
       else OK (Py.len ["a.h5"; "b.h5"] / 0, Py.len ["a.h5"; "b.h5"] mod 0))
  /\ split ["a.h5"; "b.h5"] 0
     = (if 0 =? 0 then Raise InvalidCountError else OK []).
Proof.
  split; [lia|]. apply (split_nonpositive_count ["a.h5"; "b.h5"] 0). lia.
Defined.

(** ** The planner's use of the partitioner *)

(** A bucket that received at least one file and is configured with the
    chunk count 0 makes the planner fail with the partitioner's error, and
    the configuration keeps the outputs it had. *)
Lemma chunk_buckets_zero_count key fpath_lists dsplit rest c l :
  fpath_lists !! dsplit = Some l ->
  l <> [] ->
  n_files_dsplit c !! dsplit = Some 0 ->
  chunk_buckets key fpath_lists (dsplit :: rest) c = (c, Raise InvalidCountError).
Proof.
  intros Hl Hne Hn. simpl. unfold dict_getitem. rewrite Hl, Hn.
  destruct l as [|x l]; [congruence|]. reflexivity.
Qed.

(** A bucket that received no file is skipped before its chunk count is
    read: the count 0 raises nothing there. *)
Lemma chunk_buckets_empty_bucket key fpath_lists dsplit rest c :
  fpath_lists !! dsplit = Some [] ->
  chunk_buckets key fpath_lists (dsplit :: rest) c
  = chunk_buckets key fpath_lists rest c.
Proof. intros Hl. simpl. unfold dict_getitem. rewrite Hl. reflexivity. Qed.

Example plan_two_train_chunks :
  let '(c, r) := add_fpaths_for_data_split_to_cfg (plan_cfg 2) "muon" in
  r = OK tt
  /\ (output_dsplit c !! "train") ≫= (fun o => o !! "muon")
     = Some [["f1"; "f2"; "f3"]; ["f4"; "f5"; "f6"]]
  /\ (output_dsplit c !! "validate") ≫= (fun o => o !! "muon")
     = Some [["f7"; "f8"]]
  /\ (output_dsplit c !! "rest") ≫= (fun o => o !! "muon")
     = Some [["f9"; "f10"]].
Proof. vm_compute. repeat split. Qed.

Example plan_zero_train_chunks :
  let '(c, r) := add_fpaths_for_data_split_to_cfg (plan_cfg 0) "muon" in
  r = Raise InvalidCountError /\ output_dsplit c = ∅.
Proof. vm_compute. repeat split. Qed.

(** ** The inventory collector *)

Example inventory_two_files :
  get_number_of_evts_and_run_ids two_files ["a.h5"; "b.h5"] "y" "run_id"
  = OK (4, F64.of_Z 2, [7; 9]).
Proof. vm_compute. reflexivity. Qed.

Example inventory_missing_file :
  get_number_of_evts_and_run_ids two_files ["a.h5"; "c.h5"] "y" "run_id"
  = Raise OSError.
Proof. vm_compute. reflexivity. Qed.

(** C8, as stated, fails: on an empty file list the division of the event
    total by the file count is a division of two [int]s by zero, which
    Python raises. *)
Lemma inventory_empty_directory_raises :
  get_number_of_evts_and_run_ids ∅ [] "y" "run_id" = Raise ZeroDivisionError
  /\ is_OK (get_number_of_evts_and_run_ids ∅ [] "y" "run_id") = false.
Proof. split; reflexivity. Qed.

(** C8, amended. For an empty input file list the loop reads no file, and
    the mean-events-per-file computation divides zero by zero: the collector
    raises [ZeroDivisionError] and returns nothing, whatever is on disk. *)
Theorem inventory_empty_list (fs : filesystem) (dataset_key run_id_col_name : string) :
  collect_files fs dataset_key run_id_col_name [] 0 [] = OK (0, [])
  /\ int_truediv 0 (Py.len (@nil string)) = Raise ZeroDivisionError
  /\ get_number_of_evts_and_run_ids fs [] dataset_key run_id_col_name
     = Raise ZeroDivisionError.
Proof. repeat split. Qed.

(** The quotient of two [int]s is rounded once: [(2**53 + 1) / 3] is exactly
    [3002399751580331.0], where dividing the operands as floats gives
    [3002399751580330.5]. *)
Example int_truediv_rounds_once :
  int_truediv (2 ^ 53 + 1) 3 = OK (F64.of_Z 3002399751580331)
  /\ F64.div (F64.of_Z (2 ^ 53 + 1)) (F64.of_Z 3)
     = S754_finite false 6004799503160661 (-1)
  /\ int_truediv 7 2 = OK (S754_finite false 7881299347898368 (-51))
  /\ int_truediv 0 (-5) = OK F64.neg_zero.
Proof. vm_compute. repeat split. Qed.

(** ** Floating point *)

(** *** Integers as floats *)

Lemma digits2_pos_iter (m k : positive) :
  digits2_pos (Pos.iter xO m k) = (digits2_pos m + k)%positive.
Proof.
  induction k as [|k IH] using Pos.peano_ind.
  - cbn. rewrite Pos.add_1_r. reflexivity.
  - rewrite Pos.iter_succ. cbn [digits2_pos]. rewrite IH, Pos.add_succ_r. reflexivity.
Qed.

Lemma shl_align_lt (m : positive) (e : Z) (k : positive) :
  shl_align m e (e - Zpos k) = (Pos.iter xO m k, e - Zpos k).
Proof.
  unfold shl_align. replace (e - Zpos k - e) with (Zneg k) by lia. reflexivity.
Qed.

Lemma shl_align_ge (m : positive) (e e' : Z) :
  e <= e' -> shl_align m e e' = (m, e).
Proof.
  intros H. unfold shl_align. destruct (e' - e) eqn:He; try reflexivity. lia.
Qed.

Lemma binary_round_aux_exact (prec emax : Z) (s : bool) (mz : positive) (ez : Z) :
  Zpos (digits2_pos mz) = prec ->
  3 - emax - prec <= ez <= emax - prec ->
  binary_round_aux prec emax s (Zpos mz) ez loc_Exact = S754_finite s mz ez.
Proof.
  intros Hd He.
  assert (Hf : fexp prec emax (Zdigits2 (Zpos mz) + ez) - ez = 0).
  { unfold fexp, emin. cbn [Zdigits2]. rewrite Hd. lia. }
  unfold binary_round_aux, shr_fexp. rewrite Hf.
  cbn [shr shr_record_of_loc shr_m loc_of_shr_record round_nearest_even].
  rewrite Hf. cbn [shr shr_record_of_loc shr_m].
  destruct (Z.leb_spec ez (emax - prec)); [reflexivity|lia].
Qed.

Lemma binary_round_small (prec emax : Z) (s : bool) (m : positive) (e : Z)
    (k : positive) :
  Zpos (digits2_pos m) + Zpos k = prec ->
  3 - emax - prec <= e - Zpos k <= emax - prec ->
  binary_round prec emax s m e = S754_finite s (Pos.iter xO m k) (e - Zpos k).
Proof.
  intros Hd He. unfold binary_round.
  assert (Hf : fexp prec emax (Zpos (digits2_pos m) + e) = e - Zpos k)
    by (unfold fexp, emin; lia).
  rewrite Hf, shl_align_lt.
  apply binary_round_aux_exact; [|exact He].
  rewrite digits2_pos_iter. lia.
Qed.

Lemma iter_pos_iter {A : Type} (f : A -> A) (n : positive) (x : A) :
  SpecFloat.iter_pos f n x = Pos.iter f x n.
Proof.
  revert x. induction n as [n IH|n IH|]; intros x; cbn [SpecFloat.iter_pos Pos.iter].
  - rewrite !IH, <- !Pos.iter_swap. reflexivity.
  - rewrite !IH. reflexivity.
  - reflexivity.
Qed.

Lemma shr_shifted (p k : positive) :
  SpecFloat.iter_pos shr_1 k {| shr_m := Zpos (Pos.iter xO p k); shr_r := false; shr_s := false |}
  = {| shr_m := Zpos p; shr_r := false; shr_s := false |}.
Proof.
  rewrite iter_pos_iter.
  induction k as [|k IH] using Pos.peano_ind.
  - reflexivity.
  - rewrite Pos.iter_succ_r, Pos.iter_succ. cbn [shr_1 orb]. exact IH.
Qed.

(** Rounding a [prec + k]-bit mantissa whose [k] low bits are zero. *)
Lemma binary_round_shifted (prec emax : Z) (s : bool) (p : positive) (e : Z)
    (k : positive) :
  Zpos (digits2_pos p) = prec ->
  3 - emax - prec <= e + Zpos k <= emax - prec ->
  binary_round prec emax s (Pos.iter xO p k) e = S754_finite s p (e + Zpos k).
Proof.
  intros Hd He. unfold binary_round.
  assert (Hf : fexp prec emax (Zpos (digits2_pos (Pos.iter xO p k)) + e) = e + Zpos k).
  { rewrite digits2_pos_iter. unfold fexp, emin. lia. }
  rewrite Hf, shl_align_ge by lia.
  unfold binary_round_aux, shr_fexp. cbn [Zdigits2]. rewrite Hf.
  replace (e + Zpos k - e) with (Zpos k) by lia.
  cbn [shr shr_record_of_loc]. rewrite shr_shifted.
  cbn [shr_m loc_of_shr_record round_nearest_even Zdigits2].
  assert (Hf' : fexp prec emax (Zpos (digits2_pos p) + (e + Zpos k)) - (e + Zpos k) = 0)
    by (unfold fexp, emin; lia).
  rewrite Hf'. cbn [shr shr_m].
  destruct (Z.leb_spec (e + Zpos k) (emax - prec)); [reflexivity|lia].
Qed.

Lemma round_to_finite (prec emax : Z) (s : bool) (m : positive) (e : Z) :
  F64.round_to prec emax (S754_finite s m e) = binary_round prec emax s m e.
Proof. destruct s; reflexivity. Qed.

Lemma digits2_pos_bound (m : positive) (n : Z) :
  Zpos m < 2 ^ n -> 0 <= n -> Zpos (digits2_pos m) <= n.
Proof.
  revert n. induction m as [m IH|m IH|]; intros n Hm Hn; cbn [digits2_pos].
  - destruct (Z.eq_dec n 0) as [->|]; [cbn in Hm; lia|].
    assert (Zpos m < 2 ^ (n - 1)).
    { assert (2 ^ n = 2 * 2 ^ (n - 1))
        by (rewrite <- Z.pow_succ_r by lia; f_equal; lia).
      lia. }
    specialize (IH (n - 1) ltac:(assumption) ltac:(lia)). lia.
  - destruct (Z.eq_dec n 0) as [->|]; [cbn in Hm; lia|].
    assert (Zpos m < 2 ^ (n - 1)).
    { assert (2 ^ n = 2 * 2 ^ (n - 1))
        by (rewrite <- Z.pow_succ_r by lia; f_equal; lia).
      lia. }
    specialize (IH (n - 1) ltac:(assumption) ltac:(lia)). lia.
  - destruct (Z.eq_dec n 0) as [->|]; [cbn in Hm; lia|]. lia.
Qed.

(** A mantissa shifted left by [k] bits. *)
Lemma iter_xO_value (p k : positive) :
  Zpos (Pos.iter xO p k) = Zpos p * 2 ^ Zpos k.
Proof.
  induction k as [|k IH] using Pos.peano_ind.
  - cbn. lia.
  - rewrite Pos.iter_succ, Pos2Z.inj_succ, Z.pow_succ_r by lia.
    rewrite Pos2Z.inj_xO, IH. lia.
Qed.

Lemma iter_xO_add (p a b : positive) :
  Pos.iter xO (Pos.iter xO p a) b = Pos.iter xO p (a + b).
Proof. rewrite Pos.add_comm, Pos.iter_add. reflexivity. Qed.

(** The binary64 value of a positive integer below [2^53], and every way of
    writing the integer with a scaled mantissa, round to the same float. *)
Lemma of_Z_pos (p : positive) :
  Zpos (digits2_pos p) <= 53 ->
  F64.of_Z (Zpos p)
  = match 53 - Zpos (digits2_pos p) with
    | Zpos k => S754_finite false (Pos.iter xO p k) (- Zpos k)
    | _ => S754_finite false p 0
    end.
Proof.
  intros Hd. unfold F64.of_Z, F64.prec, F64.emax, binary_normalize.
  destruct (53 - Zpos (digits2_pos p)) as [|k|k] eqn:Hk; [|
    |lia].
  - unfold binary_round.
    assert (Hf : fexp 53 1024 (Zpos (digits2_pos p) + 0) = 0)
      by (unfold fexp, emin; lia).
    rewrite Hf, shl_align_ge by lia.
    apply binary_round_aux_exact; lia.
  - rewrite (binary_round_small 53 1024 false p 0 k) by lia. reflexivity.
Qed.

Lemma binary_round_scaled (p k : positive) :
  Zpos (digits2_pos p) <= 53 -> Zpos k <= 53 ->
  binary_round 53 1024 false (Pos.iter xO p k) (- Zpos k) = F64.of_Z (Zpos p).
Proof.
  intros Hd Hk. rewrite of_Z_pos by exact Hd.
  destruct (53 - Zpos (digits2_pos p)) as [|j|j] eqn:Hj; [| |lia].
  - (* a 53-bit integer *)
    rewrite (binary_round_shifted 53 1024 false p (- Zpos k) k) by lia.
    f_equal. lia.
  - destruct (Z.compare_spec (Zpos k) (Zpos j)) as [Heq|Hlt|Hgt].
    + injection Heq as ->.
      unfold binary_round.
      assert (Hf : fexp 53 1024 (Zpos (digits2_pos (Pos.iter xO p j)) + - Zpos j)
                   = - Zpos j)
        by (rewrite digits2_pos_iter; unfold fexp, emin; lia).
      rewrite Hf, shl_align_ge by lia.
      apply binary_round_aux_exact; [rewrite digits2_pos_iter|]; lia.
    + rewrite (binary_round_small 53 1024 false (Pos.iter xO p k) (- Zpos k)
                 (j - k)%positive);
        [|rewrite digits2_pos_iter; lia|lia].
      rewrite iter_xO_add. f_equal; [f_equal|]; lia.
    + replace k with (j + (k - j))%positive at 1 by lia.
      rewrite <- iter_xO_add.
      rewrite (binary_round_shifted 53 1024 false (Pos.iter xO p j) (- Zpos k)
                 (k - j)%positive);
        [|rewrite digits2_pos_iter; lia|lia].
      f_equal. lia.
Qed.

Lemma digits2_pos_le (p q : positive) :
  (p <= q)%positive -> (digits2_pos p <= digits2_pos q)%positive.
Proof.
  revert q. induction p as [p IH|p IH|]; intros [q|q|] H; cbn [digits2_pos];
    try lia; specialize (IH q); lia.
Qed.

(** Adding the binary64 values of two counts is exact below [2^53]. *)
Lemma add_of_Z (a b : Z) :
  0 <= a -> 0 <= b -> a + b < 2 ^ 53 ->
  F64.add (F64.of_Z a) (F64.of_Z b) = F64.of_Z (a + b).
Proof.
  intros Ha Hb Hab.
  destruct a as [|p|p]; [|destruct b as [|q|q]|]; try lia.
  - destruct b as [|q|q]; [reflexivity| |lia].
    change (0 + Zpos q) with (Zpos q).
    rewrite of_Z_pos by (apply digits2_pos_bound; lia).
    destruct (53 - Zpos (digits2_pos q)); reflexivity.
  - rewrite Z.add_0_r.
    rewrite of_Z_pos by (apply digits2_pos_bound; lia).
    destruct (53 - Zpos (digits2_pos p)); reflexivity.
  - assert (Hs : Zpos (digits2_pos (p + q)) <= 53)
      by (apply digits2_pos_bound; lia).
    assert (Hp : Zpos (digits2_pos p) <= 53).
    { pose proof (digits2_pos_le p (p + q)%positive ltac:(lia)). lia. }
    assert (Hq : Zpos (digits2_pos q) <= 53).
    { pose proof (digits2_pos_le q (p + q)%positive ltac:(lia)). lia. }
    assert (Hscaled : forall k : positive, Zpos k <= 53 ->
      binary_normalize 53 1024
        (Zpos (Pos.iter xO p k) + Zpos (Pos.iter xO q k)) (- Zpos k) false
      = F64.of_Z (Zpos p + Zpos q)).
    { intros k Hk.
      replace (Zpos (Pos.iter xO p k) + Zpos (Pos.iter xO q k))
        with (Zpos (Pos.iter xO (p + q)%positive k))
        by (rewrite !iter_xO_value; lia).
      exact (binary_round_scaled (p + q)%positive k Hs Hk). }
    rewrite (of_Z_pos p Hp), (of_Z_pos q Hq).
    unfold F64.add, SFadd, F64.prec, F64.emax.
    destruct (53 - Zpos (digits2_pos p)) as [|i|i] eqn:Hi;
      destruct (53 - Zpos (digits2_pos q)) as [|j|j] eqn:Hj; try lia.
    + cbn [Z.min Z.compare]. rewrite !shl_align_ge by lia.
      cbn [fst cond_Zopp]. reflexivity.
    + replace (Z.min 0 (- Zpos j)) with (0 - Zpos j) by lia.
      rewrite shl_align_lt, shl_align_ge by lia. cbn [fst cond_Zopp].
      replace (0 - Zpos j) with (- Zpos j) by lia. apply Hscaled. lia.
    + replace (Z.min (- Zpos i) 0) with (0 - Zpos i) by lia.
      rewrite shl_align_lt. replace (0 - Zpos i) with (- Zpos i) by lia.
      rewrite shl_align_ge by lia. cbn [fst cond_Zopp]. apply Hscaled. lia.
    + destruct (Z.compare_spec (Zpos i) (Zpos j)) as [Heq|Hlt|Hgt].
      * injection Heq as ->. rewrite Z.min_id, !shl_align_ge by lia.
        cbn [fst cond_Zopp]. apply Hscaled. lia.
      * replace (Z.min (- Zpos i) (- Zpos j)) with (- Zpos i - Zpos (j - i)) by lia.
        rewrite shl_align_lt.
        replace (- Zpos i - Zpos (j - i)) with (- Zpos j) by lia.
        rewrite shl_align_ge by lia. cbn [fst cond_Zopp].
        rewrite iter_xO_add. replace (i + (j - i))%positive with j by lia.
        apply Hscaled. lia.
      * replace (Z.min (- Zpos i) (- Zpos j)) with (- Zpos j - Zpos (i - j)) by lia.
        rewrite shl_align_lt.
        replace (- Zpos j - Zpos (i - j)) with (- Zpos i) by lia.
        rewrite shl_align_ge by lia. cbn [fst cond_Zopp].
        rewrite iter_xO_add. replace (j + (i - j))%positive with i by lia.
        apply Hscaled. lia.
Qed.

(** *** Sums of whole numbers *)

(** Below [2^53] whole numbers are added without rounding, so that numpy's
    order of summation does not show in their sum. *)
Lemma add_neg_zero (x : f64) : F64.add F64.neg_zero x = x.
Proof. destruct x as [[]|[]| |]; reflexivity. Qed.

Lemma sum_Z_nonneg (zs : list Z) : Forall (fun z => 0 <= z) zs -> 0 <= sum_Z zs.
Proof.
  induction 1 as [|z zs Hz _ IH]; [cbn; lia|].
  change (sum_Z (z :: zs)) with (z + sum_Z zs). lia.
Qed.

Lemma sum_Z_app (l1 l2 : list Z) : sum_Z (l1 ++ l2) = sum_Z l1 + sum_Z l2.
Proof.
  induction l1 as [|z l1 IH]; [reflexivity|].
  change (z + sum_Z (l1 ++ l2) = z + sum_Z l1 + sum_Z l2). lia.
Qed.

Lemma foldl_add_of_Z (zs : list Z) : forall s : Z,
  0 <= s -> Forall (fun z => 0 <= z) zs -> s + sum_Z zs < 2 ^ 53 ->
  foldl F64.add (F64.of_Z s) (F64.of_Z <$> zs) = F64.of_Z (s + sum_Z zs).
Proof.
  induction zs as [|z zs IH]; intros s Hs Hzs Hb.
  - cbn. rewrite Z.add_0_r. reflexivity.
  - apply Forall_cons in Hzs as [Hz Hzs].
    pose proof (sum_Z_nonneg zs Hzs) as Hpos.
    change (sum_Z (z :: zs)) with (z + sum_Z zs) in *.
    cbn [fmap list_fmap foldl]. rewrite add_of_Z by lia.
    rewrite IH by (try assumption; lia). f_equal. lia.
Qed.

Ltac nonneg_heads :=
  repeat match goal with
         | H : Forall _ (_ :: _) |- _ => apply Forall_cons in H as [? H]
         end.

Lemma add_blocks_of_Z (n : nat) : forall (zs : list Z) (r0 r1 r2 r3 r4 r5 r6 r7 : Z),
  (length zs <= n)%nat ->
  0 <= r0 -> 0 <= r1 -> 0 <= r2 -> 0 <= r3 ->
  0 <= r4 -> 0 <= r5 -> 0 <= r6 -> 0 <= r7 ->
  Forall (fun z => 0 <= z) zs ->
  r0 + r1 + r2 + r3 + r4 + r5 + r6 + r7 + sum_Z zs < 2 ^ 53 ->
  exists (q0 q1 q2 q3 q4 q5 q6 q7 : Z) (tail : list Z),
    Np.add_blocks (F64.of_Z r0, F64.of_Z r1, F64.of_Z r2, F64.of_Z r3,
                   F64.of_Z r4, F64.of_Z r5, F64.of_Z r6, F64.of_Z r7)
                  (F64.of_Z <$> zs)
    = ((F64.of_Z q0, F64.of_Z q1, F64.of_Z q2, F64.of_Z q3,
        F64.of_Z q4, F64.of_Z q5, F64.of_Z q6, F64.of_Z q7), F64.of_Z <$> tail)
    /\ 0 <= q0 /\ 0 <= q1 /\ 0 <= q2 /\ 0 <= q3
    /\ 0 <= q4 /\ 0 <= q5 /\ 0 <= q6 /\ 0 <= q7
    /\ Forall (fun z => 0 <= z) tail
    /\ q0 + q1 + q2 + q3 + q4 + q5 + q6 + q7 + sum_Z tail
       = r0 + r1 + r2 + r3 + r4 + r5 + r6 + r7 + sum_Z zs.
Proof.
  induction n as [|n IH]; intros zs r0 r1 r2 r3 r4 r5 r6 r7 Hn
    H0 H1 H2 H3 H4 H5 H6 H7 Hzs Hb.
  - destruct zs; [|cbn in Hn; lia].
    exists r0, r1, r2, r3, r4, r5, r6, r7, []. repeat split; auto.
  - destruct zs as [|z0 [|z1 [|z2 [|z3 [|z4 [|z5 [|z6 [|z7 rest]]]]]]]];
      try (match goal with
           | |- context [Np.add_blocks _ (F64.of_Z <$> ?l)] =>
               exists r0, r1, r2, r3, r4, r5, r6, r7, l
           end;
           split; [reflexivity|]; repeat split; auto; fail).
    nonneg_heads.
    pose proof (sum_Z_nonneg rest Hzs) as Hpos.
    change (sum_Z (z0 :: z1 :: z2 :: z3 :: z4 :: z5 :: z6 :: z7 :: rest))
      with (z0 + (z1 + (z2 + (z3 + (z4 + (z5 + (z6 + (z7 + sum_Z rest)))))))) in *.
    cbn [fmap list_fmap Np.add_blocks].
    rewrite !add_of_Z by lia.
    destruct (IH rest (r0 + z0) (r1 + z1) (r2 + z2) (r3 + z3)
                (r4 + z4) (r5 + z5) (r6 + z6) (r7 + z7))
      as (q0 & q1 & q2 & q3 & q4 & q5 & q6 & q7 & tail & Heq & Hq);
      try lia; [cbn in Hn; lia|exact Hzs|].
    exists q0, q1, q2, q3, q4, q5, q6, q7, tail. split; [exact Heq|].
    destruct Hq as (? & ? & ? & ? & ? & ? & ? & ? & ? & Hsum).
    repeat split; auto. lia.
Qed.

Lemma block_sum_of_Z (zs : list Z) :
  zs <> [] -> Forall (fun z => 0 <= z) zs -> sum_Z zs < 2 ^ 53 ->
  Np.block_sum (F64.of_Z <$> zs) = F64.of_Z (sum_Z zs).
Proof.
  intros Hne Hzs Hb.
  assert (Hshort : forall z l, zs = z :: l ->
            foldl F64.add F64.neg_zero (F64.of_Z <$> zs) = F64.of_Z (sum_Z zs)).
  { intros z l ->. apply Forall_cons in Hzs as [Hz Hl].
    cbn [fmap list_fmap foldl]. rewrite add_neg_zero.
    apply foldl_add_of_Z; assumption. }
  destruct zs as [|z0 [|z1 [|z2 [|z3 [|z4 [|z5 [|z6 [|z7 rest]]]]]]]];
    [contradiction|..]; try (exact (Hshort _ _ eq_refl)).
  clear Hshort. nonneg_heads.
  pose proof (sum_Z_nonneg rest Hzs) as Hpos.
  change (sum_Z (z0 :: z1 :: z2 :: z3 :: z4 :: z5 :: z6 :: z7 :: rest))
    with (z0 + (z1 + (z2 + (z3 + (z4 + (z5 + (z6 + (z7 + sum_Z rest)))))))) in *.
  cbn [fmap list_fmap Np.block_sum].
  destruct (add_blocks_of_Z (length rest) rest z0 z1 z2 z3 z4 z5 z6 z7)
    as (q0 & q1 & q2 & q3 & q4 & q5 & q6 & q7 & tail & -> & Hq);
    try lia; [exact Hzs|].
  destruct Hq as (? & ? & ? & ? & ? & ? & ? & ? & Htail & Hsum).
  pose proof (sum_Z_nonneg tail Htail) as Hpos'.
  rewrite !add_of_Z by lia.
  rewrite foldl_add_of_Z by (try assumption; lia).
  f_equal. lia.
Qed.

Lemma pairwise_sum_of_Z (depth : nat) : forall zs : list Z,
  zs <> [] -> Forall (fun z => 0 <= z) zs -> sum_Z zs < 2 ^ 53 ->
  Np.pairwise_sum_to depth (F64.of_Z <$> zs) = F64.of_Z (sum_Z zs).
Proof.
  induction depth as [|depth IH]; intros zs Hne Hzs Hb;
    [apply block_sum_of_Z; assumption|].
  cbn [Np.pairwise_sum_to]. unfold Py.len. rewrite length_fmap.
  destruct (Z.ltb_spec 128 (Z.of_nat (length zs))) as [Hlong|_];
    [|apply block_sum_of_Z; assumption].
  set (n2 := (length zs / 2 - (length zs / 2) mod 8)%nat).
  assert (Hn2 : (0 < n2 < length zs)%nat).
  { unfold n2.
    pose proof (Nat.div_mod_eq (length zs) 2).
    pose proof (Nat.mod_upper_bound (length zs) 2 ltac:(lia)).
    pose proof (Nat.mod_upper_bound (length zs / 2) 8 ltac:(lia)).
    lia. }
  rewrite <- fmap_take, <- fmap_drop.
  pose proof (take_drop n2 zs) as Hsplit.
  assert (Htake : Forall (fun z => 0 <= z) (take n2 zs)) by (apply Forall_take, Hzs).
  assert (Hdrop : Forall (fun z => 0 <= z) (drop n2 zs)) by (apply Forall_drop, Hzs).
  pose proof (sum_Z_nonneg _ Htake). pose proof (sum_Z_nonneg _ Hdrop).
  assert (Hsum : sum_Z (take n2 zs) + sum_Z (drop n2 zs) = sum_Z zs)
    by (rewrite <- sum_Z_app, Hsplit; reflexivity).
  rewrite !IH; try assumption; try lia.
  - rewrite add_of_Z by lia. f_equal. exact Hsum.
  - intros Hnil. apply (f_equal length) in Hnil. rewrite length_drop in Hnil.
    change (length (@nil Z)) with 0%nat in Hnil. lia.
  - intros Hnil. apply (f_equal length) in Hnil. rewrite length_take in Hnil.
    change (length (@nil Z)) with 0%nat in Hnil. lia.
Qed.

Lemma sum_of_Z (zs : list Z) :
  Forall (fun z => 0 <= z) zs -> sum_Z zs < 2 ^ 53 ->
  Np.sum (F64.of_Z <$> zs) = F64.of_Z (sum_Z zs).
Proof.
  intros Hzs Hb. destruct zs as [|z zs]; [reflexivity|].
  change (Np.sum (F64.of_Z <$> z :: zs))
    with (F64.add F64.neg_zero (Np.pairwise_sum (F64.of_Z <$> z :: zs))).
  rewrite add_neg_zero. apply pairwise_sum_of_Z; [discriminate|assumption..].
Qed.

(** The depth given to the recursion is enough: a greater one changes
    nothing. *)
Lemma pairwise_sum_depth (d : nat) : forall (d' : nat) (a : list f64),
  (length a <= d)%nat -> (length a <= d')%nat ->
  Np.pairwise_sum_to d a = Np.pairwise_sum_to d' a.
Proof.
  induction d as [|d IH]; intros d' a Hd Hd'.
  - destruct a; [|cbn in Hd; lia]. destruct d'; reflexivity.
  - destruct d' as [|d']; [destruct a; [reflexivity|cbn in Hd'; lia]|].
    cbn [Np.pairwise_sum_to]. unfold Py.len.
    destruct (Z.ltb_spec 128 (Z.of_nat (length a))) as [Hlong|_]; [|reflexivity].
    pose proof (Nat.div_mod_eq (length a) 2).
    pose proof (Nat.mod_upper_bound (length a) 2 ltac:(lia)).
    pose proof (Nat.mod_upper_bound (length a / 2) 8 ltac:(lia)).
    f_equal; apply IH; rewrite ?length_take, ?length_drop; lia.
Qed.

(** *** The quotient of two counts *)

(** Below [2^53] both counts are floats, and Python's quotient of the two
    integers is the quotient of the two floats. *)
Lemma of_Z_mantissa (p : positive) :
  Zpos (digits2_pos p) <= 53 ->
  exists (m : positive) (k : Z),
    F64.of_Z (Zpos p) = S754_finite false m (- k)
    /\ 0 <= k
    /\ Zpos m = Zpos p * 2 ^ k
    /\ Zpos (digits2_pos m) = 53
    /\ Zpos (digits2_pos p) = 53 - k.
Proof.
  intros Hd. rewrite (of_Z_pos p Hd).
  destruct (53 - Zpos (digits2_pos p)) as [|k|k] eqn:Hk; [| |lia].
  - exists p, 0. repeat split; lia.
  - exists (Pos.iter xO p k), (Zpos k).
    rewrite iter_xO_value, digits2_pos_iter. repeat split; lia.
Qed.

Lemma div_eucl_div_mod (a b : Z) : Z.div_eucl a b = (a / b, a mod b).
Proof. unfold Z.div, Z.modulo. destruct (Z.div_eucl a b). reflexivity. Qed.

Lemma new_location_scaled (m r k : Z) :
  0 < m -> 0 <= r < m -> 0 <= k ->
  new_location (m * 2 ^ k) (r * 2 ^ k) = new_location m r.
Proof.
  intros Hm Hr Hk.
  destruct (Z.eq_dec k 0) as [->|Hk0]; [rewrite !Z.mul_1_r; reflexivity|].
  assert (Hc : 2 ^ k = 2 * 2 ^ (k - 1))
    by (rewrite <- Z.pow_succ_r by lia; f_equal; lia).
  assert (Hc0 : 0 < 2 ^ k) by (apply Z.pow_pos_nonneg; lia).
  assert (Heven : Z.even (m * 2 ^ k) = true).
  { rewrite Hc, Z.even_mul, Z.even_mul. cbn. apply orb_true_r. }
  assert (Hcmp : (2 * (r * 2 ^ k) ?= m * 2 ^ k) = (2 * r ?= m)).
  { replace (2 * (r * 2 ^ k)) with (2 * r * 2 ^ k) by lia.
    symmetry. apply Zmult_compare_compat_r. lia. }
  assert (Hzero : (r * 2 ^ k =? 0) = (r =? 0)).
  { destruct (Z.eqb_spec r 0) as [->|Hr0]; [reflexivity|].
    apply Z.eqb_neq. nia. }
  unfold new_location.
  change IntDef.Z.even with Z.even. rewrite Heven.
  destruct (Z.even m) eqn:Hm2;
    unfold new_location_even, new_location_odd;
    change IntDef.Z.eqb with Z.eqb; change IntDef.Z.compare with Z.compare;
    change IntDef.Z.mul with Z.mul; change IntDef.Z.add with Z.add;
    rewrite Hzero, Hcmp; [reflexivity|].
  destruct (Z.eqb_spec r 0) as [_|Hr0]; [reflexivity|].
  f_equal.
  assert (Hodd : 2 * r <> m).
  { intros <-. rewrite Z.even_mul in Hm2. discriminate Hm2. }
  destruct (Z.compare_spec (2 * r) m) as [|Hlt|Hgt]; [contradiction| |].
  - destruct (Z.compare_spec (2 * r + 1) m); try reflexivity. lia.
  - destruct (Z.compare_spec (2 * r + 1) m); try reflexivity; lia.
Qed.

Lemma div_core_scaled (p1 p2 m1 m2 : positive) (k1 k2 : Z) :
  0 <= k1 -> 0 <= k2 ->
  Zpos m1 = Zpos p1 * 2 ^ k1 -> Zpos m2 = Zpos p2 * 2 ^ k2 ->
  Zpos (digits2_pos m1) = 53 -> Zpos (digits2_pos m2) = 53 ->
  Zpos (digits2_pos p1) = 53 - k1 -> Zpos (digits2_pos p2) = 53 - k2 ->
  SFdiv_core_binary 53 1024 (Zpos m1) (- k1) (Zpos m2) (- k2)
  = SFdiv_core_binary 53 1024 (Zpos p1) 0 (Zpos p2) 0.
Proof.
  intros Hk1 Hk2 Hm1 Hm2 Hd1 Hd2 Hp1 Hp2.
  unfold SFdiv_core_binary. cbn [Zdigits2]. rewrite Hd1, Hd2, Hp1, Hp2.
  set (D := 53 - k1 - (53 - k2)).
  assert (HD : -52 <= D <= 52).
  { pose proof (Pos2Z.is_pos (digits2_pos p1)).
    pose proof (Pos2Z.is_pos (digits2_pos p2)). unfold D. lia. }
  assert (He : fexp 53 1024 D = D - 53) by (unfold fexp, emin; lia).
  replace (53 + - k1 - (53 + - k2)) with D by (unfold D; lia).
  replace (53 - k1 + 0 - (53 - k2 + 0)) with D by (unfold D; lia).
  rewrite He.
  change (IntDef.Z.min (D - 53) (- k1 - - k2)) with (Z.min (D - 53) (- k1 - - k2)).
  change (IntDef.Z.min (D - 53) (0 - 0)) with (Z.min (D - 53) (0 - 0)).
  replace (Z.min (D - 53) (- k1 - - k2)) with (D - 53) by (unfold D; lia).
  replace (Z.min (D - 53) (0 - 0)) with (D - 53) by lia.
  replace (- k1 - - k2 - (D - 53)) with 53 by (unfold D; lia).
  destruct (0 - 0 - (D - 53)) as [|s|s] eqn:Hs; [lia| |lia].
  change (IntDef.Z.shiftl (Zpos m1) 53) with (Z.shiftl (Zpos m1) 53).
  change (IntDef.Z.shiftl (Zpos p1) (Zpos s)) with (Z.shiftl (Zpos p1) (Zpos s)).
  change IntDef.Z.div_eucl with Z.div_eucl.
  rewrite !Z.shiftl_mul_pow2 by lia. rewrite !div_eucl_div_mod.
  assert (Hnum : Zpos m1 * 2 ^ 53 = Zpos p1 * 2 ^ Zpos s * 2 ^ k2).
  { rewrite Hm1, <- !Z.mul_assoc, <- !Z.pow_add_r by lia.
    f_equal. f_equal. unfold D in Hs. lia. }
  assert (Hc : 0 < 2 ^ k2) by (apply Z.pow_pos_nonneg; lia).
  rewrite Hnum, Hm2.
  rewrite Z.div_mul_cancel_r by lia.
  rewrite Z.mul_mod_distr_r by lia.
  rewrite new_location_scaled; [reflexivity|lia| |lia].
  apply Z.mod_pos_bound. lia.
Qed.

Lemma int_truediv_small (a b : Z) :
  0 <= a < 2 ^ 53 -> 0 < b < 2 ^ 53 ->
  int_truediv a b = OK (F64.div (F64.of_Z a) (F64.of_Z b)).
Proof.
  intros Ha Hb. unfold int_truediv.
  destruct (Z.eqb_spec b 0) as [|_]; [lia|].
  destruct b as [|q|q]; try lia.
  destruct (of_Z_mantissa q ltac:(apply digits2_pos_bound; lia))
    as (m2 & k2 & Hq & Hk2 & Hm2 & Hd2 & Hp2).
  destruct a as [|p|p]; try lia.
  - cbn [Z.eqb]. rewrite Hq. reflexivity.
  - cbn [Z.eqb Z.ltb Z.compare Z.abs Z.to_pos].
    destruct (of_Z_mantissa p ltac:(apply digits2_pos_bound; lia))
      as (m1 & k1 & Hp & Hk1 & Hm1 & Hd1 & Hp1).
    rewrite Hp, Hq. unfold F64.div, SFdiv, F64.prec, F64.emax.
    rewrite (div_core_scaled p q m1 m2 k1 k2) by assumption.
    reflexivity.
Qed.

(** ** The hit assembler *)

Lemma outcome_bind {A B : Type} (c : Traced A) (k : A -> Traced B) :
  outcome (c ≫= k) = outcome c ≫= (fun a => outcome (k a)).
Proof.
  destruct c as [l [a|e]]; [|reflexivity].
  unfold outcome. cbn. destruct (k a). reflexivity.
Qed.

Lemma bind_OK_inv {A B : Type} (r : result A) (k : A -> result B) b :
  r ≫= k = OK b -> exists a, r = OK a /\ k a = OK b.
Proof. destruct r as [a|e]; [eauto|discriminate]. Qed.

Lemma getattr_OK_inv t name col :
  getattr t name = OK col ->
  exists names records,
    t = VTable names records /\ name ∈ names /\ col = field_column records name.
Proof.
  destruct t as [names records| | |]; try discriminate. cbn.
  case_bool_decide; [|discriminate]. intros [= <-]. eauto.
Qed.

(** What [get_hits] returns is built from one table, the selected one,
    calibrated where needed; and it returns only with the cut off. *)
Lemma get_hits_inv event_blob geo do_mc_hits data_cuts do4d m :
  outcome (get_hits event_blob geo do_mc_hits data_cuts do4d) = OK m ->
  exists triggered_cut (names : list string) records,
    data_cuts !! "triggered" = Some triggered_cut
    /\ is_True triggered_cut = false
    /\ (wants_channel_id do4d = true -> "channel_id" ∈ names)
    /\ m = {| Np.shape0 := length records;
              Np.columns :=
                field_column records <$>
                  (hit_columns ++ if wants_channel_id do4d then ["channel_id"] else []) |}.
Proof.
  unfold get_hits. intros H.
  rewrite outcome_bind in H. apply bind_OK_inv in H as (sel & _ & H).
  rewrite outcome_bind in H. apply bind_OK_inv in H as (tnames & _ & H).
  rewrite outcome_bind in H. apply bind_OK_inv in H as (hits & _ & H).
  unfold lift, outcome in H. cbn [snd] in H.
  apply bind_OK_inv in H as (triggered_cut & Hcut & H).
  unfold dict_getitem in Hcut.
  destruct (data_cuts !! "triggered") as [c|] eqn:Hc; [|discriminate].
  injection Hcut as ->.
  apply bind_OK_inv in H as (hits' & Hmask & H).
  apply bind_OK_inv in H as (pos_x & Hx & H).
  apply getattr_OK_inv in Hx as (names & records & -> & _ & ->).
  assert (Htrig : is_True triggered_cut = false).
  { destruct (is_True triggered_cut); [|reflexivity].
    apply bind_OK_inv in Hmask as (tr & _ & Hmask). discriminate Hmask. }
  exists triggered_cut, names, records. split; [reflexivity|]. split; [exact Htrig|].
  apply bind_OK_inv in H as (pos_y & Hy & H).
  apply getattr_OK_inv in Hy as (? & ? & [= <- <-] & _ & ->).
  apply bind_OK_inv in H as (pos_z & Hz & H).
  apply getattr_OK_inv in Hz as (? & ? & [= <- <-] & _ & ->).
  apply bind_OK_inv in H as (hits_time & Ht & H).
  apply getattr_OK_inv in Ht as (? & ? & [= <- <-] & _ & ->).
  apply bind_OK_inv in H as (triggered & Hg & H).
  apply getattr_OK_inv in Hg as (? & ? & [= <- <-] & _ & ->).
  apply bind_OK_inv in H as (event_hits & He & H).
  cbn in He. unfold field_column in He. rewrite !length_fmap in He.
  rewrite !bool_decide_true in He by reflexivity. injection He as <-.
  destruct (wants_channel_id do4d).
  - apply bind_OK_inv in H as (channel_id & Hch & H).
    apply getattr_OK_inv in Hch as (? & ? & [= <- <-] & Hin & ->).
    cbn in H. unfold field_column in H. rewrite !length_fmap in H.
    rewrite !bool_decide_true in H by reflexivity. injection H as <-.
    split; [auto|]. reflexivity.
  - injection H as <-. split; [discriminate|]. reflexivity.
Qed.

(** On a calibrated event whose combined hit table has the six columns,
    [get_hits] with the cut off returns the matrix of the records of the
    table, without a call to the calibration service. *)
Lemma get_hits_calibrated (event_blob : blob) (geo : option Geometry)
    (data_cuts : gmap string cut) (do4d : bool * string)
    (names : list string) (records : list (string -> f64)) (c : cut) :
  event_blob !! KStr "Hits" = Some (VTable names records) ->
  Forall (fun name => name ∈ names) (hit_columns ++ ["channel_id"]) ->
  data_cuts !! "triggered" = Some c ->
  is_True c = false ->
  get_hits event_blob geo false data_cuts do4d
  = ([], OK (hit_matrix records (wants_channel_id do4d))).
Proof.
  intros Hhits Hnames Hcut Hoff. cbn in Hnames.
  repeat match goal with
         | H : Forall _ (_ :: _) |- _ => apply Forall_cons in H as [? H]
         end.
  unfold get_hits, blob_getitem, dict_getitem. cbn [negb].
  rewrite Hhits, Hcut.
  unfold lift, mbind, traced_bind, mret, traced_ret. cbn [result_bind dtype_names].
  rewrite bool_decide_false by auto. cbn [app].
  assert (Hassemble : forall recs : list (string -> f64),
      (pos_x ← getattr (VTable names recs) "pos_x";
       pos_y ← getattr (VTable names recs) "pos_y";
       pos_z ← getattr (VTable names recs) "pos_z";
       hits_time ← getattr (VTable names recs) "time";
       triggered ← getattr (VTable names recs) "triggered";
       event_hits ← Np.concatenate [Np.newaxis pos_x; Np.newaxis pos_y;
                                    Np.newaxis pos_z; Np.newaxis hits_time;
                                    Np.newaxis triggered];
       if wants_channel_id do4d then
         channel_id ← getattr (VTable names recs) "channel_id";
         Np.concatenate [event_hits; Np.newaxis channel_id]
       else OK event_hits)
      = OK (hit_matrix recs (wants_channel_id do4d))).
  { intros recs. cbn [getattr].
    rewrite (bool_decide_true _ H), (bool_decide_true _ H0), (bool_decide_true _ H1),
      (bool_decide_true _ H2), (bool_decide_true _ H3), (bool_decide_true _ H4).
    cbn. rewrite !length_fmap, !bool_decide_true by reflexivity.
    destruct (wants_channel_id do4d); cbn.
    - rewrite ?length_fmap, ?bool_decide_true by reflexivity. reflexivity.
    - reflexivity. }
  f_equal. rewrite Hoff. apply Hassemble.
Qed.

(** With the cut on, the same event gets no matrix: the subscription of
    [__array__] raises [TypeError], once the triggered column is read. *)
Lemma get_hits_cut_on (event_blob : blob) (geo : option Geometry)
    (data_cuts : gmap string cut) (do4d : bool * string)
    (names : list string) (records : list (string -> f64)) (c : cut) :
  event_blob !! KStr "Hits" = Some (VTable names records) ->
  "pos_x" ∈ names -> "triggered" ∈ names ->
  data_cuts !! "triggered" = Some c ->
  is_True c = true ->
  get_hits event_blob geo false data_cuts do4d = ([], Raise TypeError).
Proof.
  intros Hhits Hx Ht Hcut Hon.
  unfold get_hits, blob_getitem, dict_getitem. cbn [negb].
  rewrite Hhits, Hcut.
  unfold lift, mbind, traced_bind, mret, traced_ret. cbn [result_bind dtype_names].
  rewrite bool_decide_false by auto. cbn [app].
  rewrite Hon. cbn [getattr]. rewrite (bool_decide_true _ Ht). reflexivity.
Qed.

Lemma hit_matrix_time_triggered records with_channel_id :
  Np.column (hit_matrix records with_channel_id) 3 = OK (field_column records "time")
  /\ Np.column (hit_matrix records with_channel_id) 4
     = OK (field_column records "triggered").
Proof. split; reflexivity. Qed.

Lemma wants_channel_id_enabled (b : bool) (s : string) :
  b = true \/ s <> "xzt-c" ->
  wants_channel_id (b, s)
  = b && (bool_decide (s = "channel_id") || bool_decide (s = "xzt-c")).
Proof.
  intros H. unfold wants_channel_id. cbn.
  destruct b; cbn; [reflexivity|].
  destruct H as [H|H]; [discriminate|].
  rewrite bool_decide_false by exact H. reflexivity.
Qed.

Example hits_five_columns :
  get_hits (calibrated_blob three_hits []) None false (sample_cuts false) (true, "time")
  = ([], OK {| Np.shape0 := 3;
               Np.columns := field_column three_hits <$> hit_columns |}).
Proof. vm_compute. reflexivity. Qed.

Example hits_channel_id_column :
  get_hits (calibrated_blob three_hits []) None false (sample_cuts false) (true, "channel_id")
  = ([], OK {| Np.shape0 := 3;
               Np.columns := field_column three_hits <$> (hit_columns ++ ["channel_id"]) |}).
Proof. vm_compute. reflexivity. Qed.

Example hits_channel_id_without_4d :
  get_hits (calibrated_blob three_hits []) None false (sample_cuts false) (false, "channel_id")
  = ([], OK {| Np.shape0 := 3;
               Np.columns := field_column three_hits <$> hit_columns |}).
Proof. vm_compute. reflexivity. Qed.

(** With the extra dimension ['xzt-c'] the test holds whatever the first
    component is: [False and ... or True]. *)
Example hits_xzt_c_without_4d :
  Np.shape1 <$> outcome (get_hits (calibrated_blob three_hits []) None false
                           (sample_cuts false) (false, "xzt-c"))
  = OK 6%nat.
Proof. vm_compute. reflexivity. Qed.




(** *** Calibration *)

Example hits_calibrated_on_the_fly :
  calls (get_hits (raw_blob three_hits) (Some sample_geo) false
           (sample_cuts false) (false, "time"))
  = [VTable raw_names three_hits]
  /\ outcome (get_hits (raw_blob three_hits) (Some sample_geo) false
                (sample_cuts false) (false, "time"))
     = OK {| Np.shape0 := 3; Np.columns := field_column three_hits <$> hit_columns |}.
Proof. split; vm_compute; reflexivity. Qed.

Example hits_without_geometry :
  get_hits (raw_blob three_hits) None false (sample_cuts false) (false, "time")
  = ([], Raise AttributeError).
Proof. vm_compute. reflexivity. Qed.

(** C5, as stated, fails: with the simulated hits selected, which carry no
    positions, and a combined hit table that does, the calibration service
    is not called, and the extraction fails on the missing column. *)
Lemma simulated_hits_not_calibrated :
  blob_getitem (calibrated_blob three_hits []) (KStr "McHits")
    = OK (VTable raw_names three_hits)
  /\ ("pos_x" ∉ raw_names)
  /\ get_hits (calibrated_blob three_hits []) (Some sample_geo) true
       (sample_cuts false) (false, "time")
     = ([], Raise AttributeError).
Proof.
  split; [reflexivity|]. split; [|vm_compute; reflexivity].
  unfold raw_names. rewrite !elem_of_cons, elem_of_nil.
  intros [H|[H|[H|[H|[]]]]]; discriminate H.
Qed.

(** C5, amended. The hit assembler calls the calibration service exactly
    when the combined hit table [Hits] of the blob lacks the column pos_x,
    whichever table is selected; it calls it once, on the selected table
    (the simulated hits when the flag is set, the combined hits otherwise);
    when [Hits] has the column, the geometry plays no part in the result. *)
Theorem calibration_follows_hits_table (event_blob : blob) (g : Geometry)
    (do_mc_hits : bool) (data_cuts : gmap string cut) (do4d : bool * string)
    (selected : value) (names : list string) (records : list (string -> f64)) :
  event_blob !! KStr (if do_mc_hits then "McHits" else "Hits") = Some selected ->
  event_blob !! KStr "Hits" = Some (VTable names records) ->
  calls (get_hits event_blob (Some g) do_mc_hits data_cuts do4d)
    = (if bool_decide ("pos_x" ∈ names) then [] else [selected])
  /\ ("pos_x" ∈ names ->
        get_hits event_blob (Some g) do_mc_hits data_cuts do4d
        = get_hits event_blob None do_mc_hits data_cuts do4d).
Proof.
  intros Hsel Hhits. unfold get_hits.
  assert (Hs : (if negb do_mc_hits then blob_getitem event_blob (KStr "Hits")
                else blob_getitem event_blob (KStr "McHits")) = OK selected).
  { unfold blob_getitem. destruct do_mc_hits; cbn; rewrite Hsel; reflexivity. }
  rewrite Hs. unfold blob_getitem. rewrite Hhits.
  unfold calls, lift, geo_apply, mbind, traced_bind, mret, traced_ret.
  cbn [result_bind dtype_names].
  destruct (decide ("pos_x" ∈ names)) as [Hin|Hin].
  - rewrite bool_decide_false by (intros Hn; exact (Hn Hin)).
    rewrite (bool_decide_true _ Hin). split; reflexivity.
  - rewrite (bool_decide_true _ Hin). rewrite (bool_decide_false _ Hin).
    split; [|intros Hin'; destruct (Hin Hin')].
    destruct (apply g selected); reflexivity.
Qed.

Lemma calibration_follows_hits_table_witness :
  calibrated_blob three_hits [] !! KStr (if true then "McHits" else "Hits")
    = Some (VTable raw_names three_hits)
  /\ calibrated_blob three_hits [] !! KStr "Hits"
     = Some (VTable calibrated_names three_hits)
  /\ calls (get_hits (calibrated_blob three_hits []) (Some sample_geo) true
              (sample_cuts false) (false, "time"))
     = (if bool_decide ("pos_x" ∈ calibrated_names) then []
        else [VTable raw_names three_hits])
  /\ ("pos_x" ∈ calibrated_names ->
        get_hits (calibrated_blob three_hits []) (Some sample_geo) true
          (sample_cuts false) (false, "time")
        = get_hits (calibrated_blob three_hits []) None true
            (sample_cuts false) (false, "time")).
Proof.
  assert (H1 : calibrated_blob three_hits [] !! KStr (if true then "McHits" else "Hits")
               = Some (VTable raw_names three_hits)) by reflexivity.
  assert (H2 : calibrated_blob three_hits [] !! KStr "Hits"
               = Some (VTable calibrated_names three_hits)) by reflexivity.
  split; [exact H1|]. split; [exact H2|].
  exact (calibration_follows_hits_table _ sample_geo true (sample_cuts false)
           (false, "time") _ _ _ H1 H2).
Defined.

(** *** The triggered-only cut *)

Example hits_triggered_only :
  get_hits (calibrated_blob three_hits []) None false (sample_cuts true) (false, "time")
  = ([], Raise TypeError).
Proof. vm_compute. reflexivity. Qed.

(** C10. The code misses what the claim says. The cut is written as
    [hits.__array__[hits.triggered.astype(bool)]], which subscripts the
    method [__array__] instead of the table: on an event whose hit table
    has the position and triggered columns, [get_hits] with the cut enabled
    raises [TypeError], after reading the triggered column and before
    assembling anything; and with the cut enabled no choice of table or
    geometry makes it return a matrix. *)
Theorem triggered_cut_type_error (event_blob : blob) (geo : option Geometry)
    (data_cuts : gmap string cut) (do4d : bool * string)
    (names : list string) (records : list (string -> f64)) :
  event_blob !! KStr "Hits" = Some (VTable names records) ->
  "pos_x" ∈ names -> "triggered" ∈ names ->
  data_cuts !! "triggered" = Some (CutBool true) ->
  get_hits event_blob geo false data_cuts do4d = ([], Raise TypeError)
  /\ forall geo' do_mc_hits m,
       outcome (get_hits event_blob geo' do_mc_hits data_cuts do4d) <> OK m.
Proof.
  intros Hhits Hx Ht Hcut. split.
  - exact (get_hits_cut_on event_blob geo data_cuts do4d names records
             (CutBool true) Hhits Hx Ht Hcut eq_refl).
  - intros geo' do_mc_hits m H.
    apply get_hits_inv in H as (c & _ & _ & Hc & Hoff & _).
    rewrite Hcut in Hc. injection Hc as <-. discriminate Hoff.
Qed.

Lemma triggered_cut_type_error_witness :
  calibrated_blob three_hits [] !! KStr "Hits"
    = Some (VTable calibrated_names three_hits)
  /\ "pos_x" ∈ calibrated_names
  /\ "triggered" ∈ calibrated_names
  /\ sample_cuts true !! "triggered" = Some (CutBool true)
  /\ get_hits (calibrated_blob three_hits []) None false (sample_cuts true)
       (true, "channel_id")
     = ([], Raise TypeError)
  /\ forall geo' do_mc_hits m,
       outcome (get_hits (calibrated_blob three_hits []) geo' do_mc_hits
                  (sample_cuts true) (true, "channel_id")) <> OK m.
Proof.
  assert (H1 : calibrated_blob three_hits [] !! KStr "Hits"
               = Some (VTable calibrated_names three_hits)) by reflexivity.
  assert (H2 : "pos_x" ∈ calibrated_names)
    by (apply (bool_decide_unpack _); vm_compute; exact I).
  assert (H3 : "triggered" ∈ calibrated_names)
    by (apply (bool_decide_unpack _); vm_compute; exact I).
  assert (H4 : sample_cuts true !! "triggered" = Some (CutBool true)) by reflexivity.
  split; [exact H1|]. split; [exact H2|]. split; [exact H3|]. split; [exact H4|].
  exact (triggered_cut_type_error _ None (sample_cuts true) (true, "channel_id")
           _ _ H1 H2 H3 H4).
Defined.

(** ** The track assembler *)

Section Tracks.

Variables (event_blob : blob) (names : list string)
          (records : list (string -> f64)).
Hypothesis mc_tracks : event_blob !! KStr "McTracks" = Some (VTable names records).

Lemma bind_OK_id {A : Type} (r : result A) : r ≫= (fun a => OK a) = r.
Proof. destruct r; reflexivity. Qed.

(** The indices [np.where] returns start with the first position at which
    the mask holds. *)
Lemma where_first (start : Z) (mask : list bool) (p : Z) :
  Py.getitem (Np.where_from start mask) 0 = OK p ->
  exists i : nat,
    p = start + Z.of_nat i
    /\ mask !! i = Some true
    /\ forall j : nat, (j < i)%nat -> mask !! j = Some false.
Proof.
  revert start. induction mask as [|b mask IH]; intros start H.
  - discriminate H.
  - destruct b.
    + injection H as <-. exists 0%nat. split; [lia|]. split; [reflexivity|]. lia.
    + cbn [Np.where_from] in H. apply IH in H as (i & -> & Hi & Hlt).
      exists (S i). split; [lia|]. split; [exact Hi|].
      intros [|j] Hj; [reflexivity|]. apply Hlt. lia.
Qed.

Lemma where_none (start : Z) (mask : list bool) :
  Forall (fun b => b = false) mask ->
  Py.getitem (Np.where_from start mask) 0 = Raise IndexError.
Proof.
  intros H. revert start. induction H as [|b mask -> _ IH]; intros start.
  - reflexivity.
  - apply IH.
Qed.

Lemma where_some (start : Z) (mask : list bool) :
  Exists (fun b => b = true) mask ->
  exists p, Py.getitem (Np.where_from start mask) 0 = OK p.
Proof.
  intros H. revert start. induction H as [b mask ->|b mask _ IH]; intros start.
  - eexists. reflexivity.
  - destruct b; [eexists; reflexivity|]. apply IH.
Qed.

Lemma primary_index_unfold :
  "bjorkeny" ∈ names ->
  get_primary_track_index event_blob
  = Py.getitem (Np.where_ (nonzero <$> field_column records "bjorkeny")) 0.
Proof.
  intros Hin. unfold get_primary_track_index, blob_getitem.
  rewrite mc_tracks. cbn [mbind result_bind getattr].
  rewrite (bool_decide_true _ Hin). cbn [mbind result_bind].
  change (fun y : f64 => F64.neqb y F64.zero) with nonzero.
  unfold field_column. apply bind_OK_id.
Qed.

(** The index returned is that of the first record with a nonzero
    bjorkeny. *)
Lemma primary_index_first (p : Z) :
  get_primary_track_index event_blob = OK p ->
  exists (i : nat) r,
    p = Z.of_nat i
    /\ records !! i = Some r
    /\ nonzero (r "bjorkeny") = true
    /\ forall (j : nat) r', (j < i)%nat -> records !! j = Some r' ->
         nonzero (r' "bjorkeny") = false.
Proof.
  intros H.
  assert (Hin : "bjorkeny" ∈ names).
  { unfold get_primary_track_index, blob_getitem in H. rewrite mc_tracks in H.
    cbn in H. case_bool_decide; [assumption|discriminate]. }
  rewrite (primary_index_unfold Hin) in H.
  apply where_first in H as (i & -> & Hi & Hlt).
  unfold field_column in Hi, Hlt.
  rewrite !list_lookup_fmap in Hi.
  destruct (records !! i) as [r|] eqn:Hr; [|discriminate].
  exists i, r. split; [lia|]. split; [exact Hr|].
  split; [injection Hi as Hi; exact Hi|].
  intros j r' Hj Hr'. specialize (Hlt j Hj).
  rewrite !list_lookup_fmap, Hr' in Hlt. injection Hlt as Hlt. exact Hlt.
Qed.

Lemma primary_index_missing :
  "bjorkeny" ∈ names ->
  Forall (fun r => nonzero (r "bjorkeny") = false) records ->
  get_primary_track_index event_blob = Raise PrimaryNotFoundError.
Proof.
  intros Hin H. rewrite (primary_index_unfold Hin). apply where_none.
  unfold field_column. rewrite !Forall_fmap. exact H.
Qed.

Lemma primary_index_found :
  "bjorkeny" ∈ names ->
  Exists (fun r => nonzero (r "bjorkeny") = true) records ->
  exists p, get_primary_track_index event_blob = OK p.
Proof.
  intros Hin H. rewrite (primary_index_unfold Hin). apply where_some.
  unfold field_column. rewrite !Exists_fmap. exact H.
Qed.

(** Reading a field of the record at a valid index. *)
Lemma mc_track_field_at (i : nat) r (name : string) :
  records !! i = Some r ->
  mc_track_field event_blob (Z.of_nat i) name
  = if bool_decide (name ∈ names) then OK (r name) else Raise AttributeError.
Proof.
  intros Hr. unfold mc_track_field, blob_getitem. rewrite mc_tracks. cbn.
  unfold Py.getitem. destruct (Z.ltb_spec (Z.of_nat i) 0) as [|_]; [lia|].
  destruct (Z.ltb_spec (Z.of_nat i) 0) as [|_]; [lia|].
  rewrite Nat2Z.id, Hr. reflexivity.
Qed.

(** The track of a neutrino event, once the primary index is known. *)
Lemma neutrino_track_at (event_hits : Np.ndarray2) (event_id run_id : f64)
    (i : nat) r :
  get_primary_track_index event_blob = OK (Z.of_nat i) ->
  records !! i = Some r ->
  Forall (fun name => name ∈ names) track_fields ->
  neutrino_track event_blob event_hits event_id run_id
  = (hits_time ← Np.column event_hits 3;
     triggered ← Np.column event_hits 4;
     time_residual_vertex ←
       get_time_residual_nu_interaction_mean_triggered_hits
         (r "time") hits_time triggered;
     OK [event_id; r "type"; r "energy"; r "is_cc"; r "bjorkeny";
         r "dir_x"; r "dir_y"; r "dir_z"; r "time"; run_id;
         r "pos_x"; r "pos_y"; r "pos_z"; time_residual_vertex]).
Proof.
  intros Hp Hr Hnames. unfold neutrino_track. rewrite Hp. cbn [mbind result_bind].
  rewrite !(mc_track_field_at i r _ Hr).
  unfold track_fields in Hnames.
  repeat match goal with
         | H : Forall _ (_ :: _) |- _ => apply Forall_cons in H as [? H]
         end.
  rewrite !bool_decide_true by assumption. reflexivity.
Qed.

Lemma get_tracks_neutrino (event_hits : Np.ndarray2) (prod_ident : option Z) :
  get_tracks event_blob "neutrino" event_hits prod_ident
  = ('(event_id, run_id) ← event_id_and_run_id event_blob;
     track ← neutrino_track event_blob event_hits event_id run_id;
     OK (match prod_ident with
         | Some p => track ++ [F64.of_Z p]
         | None => track
         end)).
Proof. reflexivity. Qed.

Lemma get_tracks_muon (event_hits : Np.ndarray2) (prod_ident : option Z) :
  get_tracks event_blob "muon" event_hits prod_ident
  = ('(event_id, run_id) ← event_id_and_run_id event_blob;
     track ← muon_track event_blob event_id run_id;
     OK (match prod_ident with
         | Some p => track ++ [F64.of_Z p]
         | None => track
         end)).
Proof. reflexivity. Qed.

End Tracks.

Ltac bind_inv H :=
  let a := fresh "x" in
  let Ha := fresh "Hx" in
  apply bind_OK_inv in H as (a & Ha & H).

Ltac field_step H :=
  let a := fresh "x" in
  let Ha := fresh "Hf" in
  apply bind_OK_inv in H as (a & Ha & H);
  match type of Ha with
  | (if bool_decide ?P then _ else _) = OK _ =>
      destruct (bool_decide P); [injection Ha as Ha|discriminate Ha]
  end.

Example undefined_event_track :
  get_tracks (calibrated_blob three_hits []) "undefined" three_hits_with_channel None
  = OK [F64.of_Z 5; F64.of_Z 100; F64.of_Z 0].
Proof. vm_compute. reflexivity. Qed.

Example unknown_particle_type :
  get_tracks (calibrated_blob three_hits []) "electron" three_hits_with_channel None
  = Raise ValueError.
Proof. vm_compute. reflexivity. Qed.

Example neutrino_event_track :
  get_tracks (calibrated_blob three_hits neutrino_tracks) "neutrino"
    three_hits_with_channel (Some 3)
  = OK [F64.of_Z 5; F64.of_Z 14; F64.of_Z 20; F64.of_Z 1; quarter;
        F64.of_Z 0; F64.of_Z 0; F64.of_Z 1; F64.of_Z 50; F64.of_Z 100;
        F64.of_Z 20; F64.of_Z 21; F64.of_Z 22; F64.of_Z 60; F64.of_Z 3].
Proof. vm_compute. reflexivity. Qed.

Example neutrino_without_primary :
  get_tracks (calibrated_blob three_hits no_primary_tracks) "neutrino"
    three_hits_with_channel None
  = Raise PrimaryNotFoundError.
Proof. vm_compute. reflexivity. Qed.



(** *** The time residual *)

Lemma select_none {A : Type} (a : list A) (mask : list bool) :
  Forall (fun b => b = false) mask -> Np.select a mask = [].
Proof.
  intros H. revert a. induction H as [|b mask -> _ IH]; intros [|x a]; cbn; auto.
Qed.

Lemma select_all (a triggered : list f64) :
  length a = length triggered ->
  Forall (fun t => t = F64.one) triggered ->
  Np.select a ((fun t => F64.eqb t F64.one) <$> triggered) = a.
Proof.
  intros Hlen H. revert a Hlen.
  induction H as [|t triggered -> _ IH]; intros [|x a] Hlen; try discriminate Hlen.
  - reflexivity.
  - cbn [fmap list_fmap Np.select].
    change (F64.eqb F64.one F64.one) with true. cbn iota.
    f_equal. apply IH. cbn in Hlen. congruence.
Qed.

Lemma mean_empty : Np.mean [] = F64.nan.
Proof. reflexivity. Qed.

Lemma sub_nan (x : f64) : F64.sub F64.nan x = F64.nan.
Proof. reflexivity. Qed.

Example neutrino_without_triggered_hits :
  outcome (get_event_data (calibrated_blob untriggered_hits neutrino_tracks)
             "neutrino" None false (sample_cuts false) (false, "time") None)
  = OK ({| Np.shape0 := 2;
           Np.columns := field_column untriggered_hits <$> hit_columns |},
        [F64.of_Z 5; F64.of_Z 14; F64.of_Z 20; F64.of_Z 1; quarter;
         F64.of_Z 0; F64.of_Z 0; F64.of_Z 1; F64.of_Z 50; F64.of_Z 100;
         F64.of_Z 20; F64.of_Z 21; F64.of_Z 22; F64.nan]).
Proof. vm_compute. reflexivity. Qed.

(** The track of a neutrino event whose primary record and hit columns are
    known. *)
Lemma neutrino_track_returns (event_blob : blob) (event_hits : Np.ndarray2)
    (names : list string) (records : list (string -> f64))
    (event_id run_id : f64) (i : nat) (r : string -> f64)
    (hits_time triggered : list f64) :
  event_blob !! KStr "McTracks" = Some (VTable names records) ->
  Forall (fun name => name ∈ names) track_fields ->
  get_primary_track_index event_blob = OK (Z.of_nat i) ->
  records !! i = Some r ->
  Np.column event_hits 3 = OK hits_time ->
  Np.column event_hits 4 = OK triggered ->
  length hits_time = length triggered ->
  neutrino_track event_blob event_hits event_id run_id
  = OK [event_id; r "type"; r "energy"; r "is_cc"; r "bjorkeny";
        r "dir_x"; r "dir_y"; r "dir_z"; r "time"; run_id;
        r "pos_x"; r "pos_y"; r "pos_z";
        F64.sub (Np.mean (Np.select hits_time
                            ((fun t => F64.eqb t F64.one) <$> triggered)))
                (r "time")].
Proof.
  intros Hmc Hnames Hp Hr Htime Htrig Hlen.
  rewrite (neutrino_track_at _ _ _ Hmc event_hits event_id run_id i r Hp Hr Hnames).
  rewrite Htime, Htrig. cbn [mbind result_bind].
  unfold get_time_residual_nu_interaction_mean_triggered_hits, Np.getitem_mask.
  rewrite bool_decide_true by (rewrite length_fmap; exact Hlen).
  reflexivity.
Qed.

(** Without a hit whose flag equals 1 the mean is taken over nothing, and
    the residual is not-a-number whatever the interaction time. *)
Lemma residual_without_triggered_hits (hits_time triggered : list f64)
    (time_interaction : f64) :
  Forall (fun t => F64.eqb t F64.one = false) triggered ->
  F64.sub (Np.mean (Np.select hits_time
                      ((fun t => F64.eqb t F64.one) <$> triggered)))
          time_interaction
  = F64.nan.
Proof.
  intros Hnone. rewrite select_none by (rewrite Forall_fmap; exact Hnone).
  rewrite mean_empty. apply sub_nan.
Qed.

Lemma track_fields_bjorkeny (names : list string) :
  Forall (fun name => name ∈ names) track_fields -> "bjorkeny" ∈ names.
Proof.
  unfold track_fields. rewrite Forall_forall. intros H.
  apply H. rewrite !elem_of_cons. auto.
Qed.

(** A calibrated neutrino event none of whose hits has the flag 1 is
    extracted, with the cut off, without an exception and with a
    not-a-number residual. *)
Lemma neutrino_event_without_triggered_hits (event_blob : blob)
    (geo : option Geometry) (data_cuts : gmap string cut)
    (do4d : bool * string) (prod_ident : option Z) (c : cut)
    (hit_names : list string) (hits : list (string -> f64))
    (names : list string) (records : list (string -> f64))
    (event_id run_id : f64) :
  event_blob !! KStr "Hits" = Some (VTable hit_names hits) ->
  Forall (fun name => name ∈ hit_names) (hit_columns ++ ["channel_id"]) ->
  data_cuts !! "triggered" = Some c ->
  is_True c = false ->
  event_id_and_run_id event_blob = OK (event_id, run_id) ->
  event_blob !! KStr "McTracks" = Some (VTable names records) ->
  Forall (fun name => name ∈ names) track_fields ->
  Exists (fun r => nonzero (r "bjorkeny") = true) records ->
  Forall (fun h => F64.eqb (h "triggered") F64.one = false) hits ->
  exists event_hits track,
    get_event_data event_blob "neutrino" geo false data_cuts do4d prod_ident
      = ([], OK (event_hits, track))
    /\ track !! 13%nat = Some F64.nan.
Proof.
  intros Hhits Hcols Hcut Hoff Hid Hmc Hnames Hex Hnone.
  destruct (primary_index_found _ _ _ Hmc (track_fields_bjorkeny _ Hnames) Hex)
    as [p Hp].
  destruct (primary_index_first _ _ _ Hmc p Hp) as (i & r & -> & Hr & _ & _).
  destruct (hit_matrix_time_triggered hits (wants_channel_id do4d)) as [Htime Htrig].
  pose proof (neutrino_track_returns _ _ _ _ event_id run_id i r _ _
                Hmc Hnames Hp Hr Htime Htrig) as Htrack.
  rewrite residual_without_triggered_hits in Htrack.
  2: { unfold field_column. rewrite Forall_fmap. exact Hnone. }
  specialize (Htrack ltac:(unfold field_column; rewrite !length_fmap; reflexivity)).
  unfold get_event_data.
  rewrite (get_hits_calibrated _ geo _ do4d _ _ c Hhits Hcols Hcut Hoff).
  unfold lift, mbind, traced_bind, mret, traced_ret.
  rewrite get_tracks_neutrino, Hid. cbn [mbind result_bind]. rewrite Htrack.
  eexists _, _. split; [reflexivity|].
  destruct prod_ident; reflexivity.
Qed.

(** numpy's order of summation shows where the additions round: from left
    to right every 1 is lost against [2^53]; numpy adds the eight ones of
    the first block in pairs before they meet it. *)
Example sum_of_nine :
  Np.sum (field_column nine_hits "time") = F64.of_Z (2 ^ 53 + 8)
  /\ foldl F64.add F64.zero (field_column nine_hits "time") = F64.of_Z (2 ^ 53).
Proof. split; vm_compute; reflexivity. Qed.

Lemma mean_of_Z (times : list Z) :
  Forall (fun t => 0 <= t) times -> sum_Z times < 2 ^ 53 ->
  Np.mean (F64.of_Z <$> times)
  = F64.div (F64.of_Z (sum_Z times)) (F64.of_Z (Py.len times)).
Proof.
  intros Hpos Hb. unfold Np.mean. rewrite sum_of_Z by assumption.
  unfold Py.len. rewrite length_fmap. reflexivity.
Qed.

(** C7. On a neutrino event with a primary track and a hit matrix of at
    least five columns, [get_tracks] returns a vector whose last truth entry,
    time_residual_vertex, is the mean time of the hits whose triggered flag
    equals 1 minus the time of the primary track, the mean being numpy's:
    the sum numpy computes, divided by the count. When no hit is triggered
    nothing is raised and that entry is not-a-number. When every flag is 1
    the mean is that of all the hit times. When the times of the triggered
    hits are whole numbers that add up to less than [2^53], numpy's sum is
    their sum, and the entry is their arithmetic mean, rounded once, minus
    the time of the primary track. *)
Theorem neutrino_time_residual (event_blob : blob) (event_hits : Np.ndarray2)
    (prod_ident : option Z) (names : list string)
    (records : list (string -> f64)) (event_id run_id : f64)
    (hits_time triggered : list f64) :
  event_id_and_run_id event_blob = OK (event_id, run_id) ->
  event_blob !! KStr "McTracks" = Some (VTable names records) ->
  Forall (fun name => name ∈ names) track_fields ->
  Exists (fun r => nonzero (r "bjorkeny") = true) records ->
  Np.column event_hits 3 = OK hits_time ->
  Np.column event_hits 4 = OK triggered ->
  length hits_time = length triggered ->
  exists track (i : nat) r,
    get_tracks event_blob "neutrino" event_hits prod_ident = OK track
    /\ get_primary_track_index event_blob = OK (Z.of_nat i)
    /\ records !! i = Some r
    /\ track !! 8%nat = Some (r "time")
    /\ track !! 13%nat
       = Some (F64.sub
                 (Np.mean (Np.select hits_time
                             ((fun t => F64.eqb t F64.one) <$> triggered)))
                 (r "time"))
    /\ (Forall (fun t => F64.eqb t F64.one = false) triggered ->
          track !! 13%nat = Some F64.nan)
    /\ (forall times : list Z,
          Np.select hits_time ((fun t => F64.eqb t F64.one) <$> triggered)
            = F64.of_Z <$> times ->
          Forall (fun t => 0 <= t) times -> sum_Z times < 2 ^ 53 ->
          track !! 13%nat
          = Some (F64.sub
                    (F64.div (F64.of_Z (sum_Z times)) (F64.of_Z (Py.len times)))
                    (r "time")))
    /\ (Forall (fun t => t = F64.one) triggered ->
          track !! 13%nat = Some (F64.sub (Np.mean hits_time) (r "time"))).
Proof.
  intros Hid Hmc Hnames Hex Htime Htrig Hlen.
  destruct (primary_index_found _ _ _ Hmc (track_fields_bjorkeny _ Hnames) Hex)
    as [p Hp].
  destruct (primary_index_first _ _ _ Hmc p Hp) as (i & r & -> & Hr & _ & _).
  pose proof (neutrino_track_returns _ event_hits _ _ event_id run_id i r _ _
                Hmc Hnames Hp Hr Htime Htrig Hlen) as Htrack.
  eexists _, i, r. split.
  { rewrite get_tracks_neutrino, Hid. cbn [mbind result_bind].
    rewrite Htrack. reflexivity. }
  split; [exact Hp|]. split; [exact Hr|].
  split; [destruct prod_ident; reflexivity|].
  split; [destruct prod_ident; reflexivity|].
  split; [|split].
  - intros Hnone.
    rewrite <- (residual_without_triggered_hits hits_time triggered (r "time") Hnone).
    destruct prod_ident; reflexivity.
  - intros times Hsel Hpos Hb.
    rewrite <- (mean_of_Z times Hpos Hb), <- Hsel.
    destruct prod_ident; reflexivity.
  - intros Hall.
    replace (Np.mean hits_time)
      with (Np.mean (Np.select hits_time
                       ((fun t => F64.eqb t F64.one) <$> triggered)))
      by (rewrite (select_all hits_time triggered Hlen Hall); reflexivity).
    destruct prod_ident; reflexivity.
Qed.

(** Three events: nine triggered hits, whose times numpy adds up to
    [2^53 + 8]; three hits, two of them triggered, at 100 and 120, with the
    interaction at 50; and no triggered hit. *)
Lemma neutrino_time_residual_witness :
  (event_id_and_run_id (calibrated_blob nine_hits neutrino_tracks)
     = OK (F64.of_Z 5, F64.of_Z 100)
   /\ calibrated_blob nine_hits neutrino_tracks !! KStr "McTracks"
      = Some (VTable track_names neutrino_tracks)
   /\ Forall (fun name => name ∈ track_names) track_fields
   /\ Exists (fun r => nonzero (r "bjorkeny") = true) neutrino_tracks
   /\ Np.column nine_hits_matrix 3 = OK (field_column nine_hits "time")
   /\ Np.column nine_hits_matrix 4 = OK (field_column nine_hits "triggered")
   /\ length (field_column nine_hits "time")
      = length (field_column nine_hits "triggered")
   /\ exists track,
        get_tracks (calibrated_blob nine_hits neutrino_tracks) "neutrino"
          nine_hits_matrix None = OK track
        /\ track !! 13%nat
           = Some (F64.sub (F64.div (F64.of_Z (2 ^ 53 + 8)) (F64.of_Z 9))
                           (F64.of_Z 50)))
  /\ (Np.column three_hits_with_channel 3 = OK (field_column three_hits "time")
      /\ Np.column three_hits_with_channel 4 = OK (field_column three_hits "triggered")
      /\ Np.select (field_column three_hits "time")
           ((fun t => F64.eqb t F64.one) <$> field_column three_hits "triggered")
         = F64.of_Z <$> [100; 120]
      /\ Forall (fun t => 0 <= t) [100; 120]
      /\ sum_Z [100; 120] < 2 ^ 53
      /\ exists track,
           get_tracks (calibrated_blob three_hits neutrino_tracks) "neutrino"
             three_hits_with_channel None = OK track
           /\ track !! 13%nat = Some (F64.of_Z 60))
  /\ (Np.column untriggered_hits_matrix 3 = OK (field_column untriggered_hits "time")
      /\ Np.column untriggered_hits_matrix 4
         = OK (field_column untriggered_hits "triggered")
      /\ Forall (fun t => F64.eqb t F64.one = false)
           (field_column untriggered_hits "triggered")
      /\ exists track,
           get_tracks (calibrated_blob untriggered_hits neutrino_tracks) "neutrino"
             untriggered_hits_matrix None = OK track
           /\ track !! 13%nat = Some F64.nan).
Proof.
  assert (H1 : forall hits,
            event_id_and_run_id (calibrated_blob hits neutrino_tracks)
            = OK (F64.of_Z 5, F64.of_Z 100)) by (intros hits; vm_compute; reflexivity).
  assert (H2 : forall hits,
            calibrated_blob hits neutrino_tracks !! KStr "McTracks"
            = Some (VTable track_names neutrino_tracks)) by reflexivity.
  assert (H3 : Forall (fun name => name ∈ track_names) track_fields)
    by (apply (bool_decide_unpack _); vm_compute; exact I).
  assert (H4 : Exists (fun r => nonzero (r "bjorkeny") = true) neutrino_tracks)
    by (apply Exists_cons_tl, Exists_cons_hd; vm_compute; reflexivity).
  assert (Hprimary : forall hits,
            get_primary_track_index (calibrated_blob hits neutrino_tracks) = OK 1)
    by (intros hits; vm_compute; reflexivity).
  split; [|split].
  - assert (H5 : Np.column nine_hits_matrix 3 = OK (field_column nine_hits "time"))
      by reflexivity.
    assert (H6 : Np.column nine_hits_matrix 4 = OK (field_column nine_hits "triggered"))
      by reflexivity.
    assert (H7 : length (field_column nine_hits "time")
                 = length (field_column nine_hits "triggered")) by reflexivity.
    split; [exact (H1 nine_hits)|]. split; [exact (H2 nine_hits)|].
    repeat (split; [assumption|]).
    destruct (neutrino_time_residual _ nine_hits_matrix None _ _ _ _ _ _
                (H1 nine_hits) (H2 nine_hits) H3 H4 H5 H6 H7)
      as (track & i & r & Ht & Hp & Hr & _ & Hres & _).
    exists track. split; [exact Ht|].
    assert (Hi : i = 1%nat)
      by (rewrite Hprimary in Hp; injection Hp as Hp; lia).
    subst i. injection Hr as <-. rewrite Hres. vm_compute. reflexivity.
  - assert (H5 : Np.column three_hits_with_channel 3
                 = OK (field_column three_hits "time")) by reflexivity.
    assert (H6 : Np.column three_hits_with_channel 4
                 = OK (field_column three_hits "triggered")) by reflexivity.
    assert (H7 : length (field_column three_hits "time")
                 = length (field_column three_hits "triggered")) by reflexivity.
    assert (H8 : Np.select (field_column three_hits "time")
                   ((fun t => F64.eqb t F64.one) <$> field_column three_hits "triggered")
                 = F64.of_Z <$> [100; 120]) by (vm_compute; reflexivity).
    assert (H9 : Forall (fun t => 0 <= t) [100; 120]) by (repeat constructor; lia).
    assert (H10 : sum_Z [100; 120] < 2 ^ 53) by (vm_compute; reflexivity).
    repeat (split; [assumption|]).
    destruct (neutrino_time_residual _ three_hits_with_channel None _ _ _ _ _ _
                (H1 three_hits) (H2 three_hits) H3 H4 H5 H6 H7)
      as (track & i & r & Ht & Hp & Hr & _ & _ & _ & Hmean & _).
    exists track. split; [exact Ht|].
    assert (Hi : i = 1%nat)
      by (rewrite Hprimary in Hp; injection Hp as Hp; lia).
    subst i. injection Hr as <-.
    rewrite (Hmean [100; 120] H8 H9 H10). vm_compute. reflexivity.
  - assert (H5 : Np.column untriggered_hits_matrix 3
                 = OK (field_column untriggered_hits "time")) by reflexivity.
    assert (H6 : Np.column untriggered_hits_matrix 4
                 = OK (field_column untriggered_hits "triggered")) by reflexivity.
    assert (H7 : length (field_column untriggered_hits "time")
                 = length (field_column untriggered_hits "triggered")) by reflexivity.
    assert (H8 : Forall (fun t => F64.eqb t F64.one = false)
                   (field_column untriggered_hits "triggered"))
      by (repeat constructor).
    repeat (split; [assumption|]).
    destruct (neutrino_time_residual _ untriggered_hits_matrix None _ _ _ _ _ _
                (H1 untriggered_hits) (H2 untriggered_hits) H3 H4 H5 H6 H7)
      as (track & i & r & Ht & _ & _ & _ & _ & Hnan & _).
    exists track. split; [exact Ht|exact (Hnan H8)].
Defined.

(** *** Muon bundles *)

Example muon_event_raises :
  get_tracks (calibrated_blob three_hits muon_tracks) "muon"
    three_hits_with_channel None
  = Raise KeyError.
Proof. vm_compute. reflexivity. Qed.

(** Had the blob a copy of itself under the integer key 4, the muon branch
    would return what its comments describe: the summed energy 0 + 10 + 30,
    the vertex [(10 * 10 + 30 * 30) / (10 + 30) = 25] and two muons. *)
Example muon_event_with_key_4 :
  get_tracks (<[KInt 4 := VBlob (calibrated_blob three_hits muon_tracks)]>
                (calibrated_blob three_hits muon_tracks))
    "muon" three_hits_with_channel None
  = OK [F64.of_Z 5; F64.of_Z 13; F64.of_Z 40; F64.of_Z 1; F64.zero;
        F64.of_Z 0; F64.of_Z 0; F64.of_Z 1; F64.of_Z 5; F64.of_Z 100;
        F64.of_Z 25; F64.of_Z 26; F64.of_Z 27; F64.of_Z 2].
Proof. vm_compute. reflexivity. Qed.

(** C6 does not hold of the code. On every muon event whose blob is keyed
    by branch names only, [event_blob[4]] in the weights of the vertex
    average raises [KeyError]: with a well-formed header and truth-track
    table of at least two rows, [get_tracks] assembles no track vector. *)
Theorem muon_track_key_error (event_blob : blob) (event_hits : Np.ndarray2)
    (prod_ident : option Z) (names : list string)
    (records : list (string -> f64)) (event_id run_id : f64) :
  event_id_and_run_id event_blob = OK (event_id, run_id) ->
  event_blob !! KStr "McTracks" = Some (VTable names records) ->
  Forall (fun name => name ∈ names) track_fields ->
  (2 <= length records)%nat ->
  event_blob !! KInt 4 = None ->
  get_tracks event_blob "muon" event_hits prod_ident = Raise KeyError.
Proof.
  intros Hid Hmc Hnames Hlen H4.
  destruct (lookup_lt_is_Some_2 records 1 ltac:(lia)) as [r Hr].
  rewrite get_tracks_muon, Hid. cbn [mbind result_bind].
  unfold muon_track. change 1 with (Z.of_nat 1).
  rewrite !(mc_track_field_at _ _ _ Hmc 1 r _ Hr).
  unfold mc_tracks_from_1, blob_4_mc_tracks_from_1_energy, blob_getitem.
  rewrite Hmc, H4.
  unfold track_fields in Hnames.
  repeat match goal with
         | H : Forall _ (_ :: _) |- _ => apply Forall_cons in H as [? H]
         end.
  cbn [mbind result_bind shape_0 getattr slice_from].
  rewrite !bool_decide_true by assumption. reflexivity.
Qed.

Lemma muon_track_key_error_witness :
  event_id_and_run_id (calibrated_blob three_hits muon_tracks)
    = OK (F64.of_Z 5, F64.of_Z 100)
  /\ calibrated_blob three_hits muon_tracks !! KStr "McTracks"
     = Some (VTable track_names muon_tracks)
  /\ Forall (fun name => name ∈ track_names) track_fields
  /\ (2 <= length muon_tracks)%nat
  /\ calibrated_blob three_hits muon_tracks !! KInt 4 = None
  /\ get_tracks (calibrated_blob three_hits muon_tracks) "muon"
       three_hits_with_channel None
     = Raise KeyError.
Proof.
  assert (H1 : event_id_and_run_id (calibrated_blob three_hits muon_tracks)
               = OK (F64.of_Z 5, F64.of_Z 100)) by (vm_compute; reflexivity).
  assert (H2 : calibrated_blob three_hits muon_tracks !! KStr "McTracks"
               = Some (VTable track_names muon_tracks)) by reflexivity.
  assert (H3 : Forall (fun name => name ∈ track_names) track_fields)
    by (apply (bool_decide_unpack _); vm_compute; exact I).
  assert (H4 : (2 <= length muon_tracks)%nat) by (cbn; lia).
  assert (H5 : calibrated_blob three_hits muon_tracks !! KInt 4 = None) by reflexivity.
  repeat (split; [assumption|]).
  exact (muon_track_key_error _ three_hits_with_channel None _ _ _ _ H1 H2 H3 H4 H5).
Defined.

(** * Further properties *)

(** ** More on the chunk partitioner *)

(** X1. For a chunk count between 1 and the length of the list no chunk is
    empty, and for a larger count some chunk is. *)
Theorem split_no_empty_chunk {A : Type} (a : list A) (n : Z) :
  1 <= n ->
  exists chunks,
    split a n = OK chunks
    /\ (Forall (fun c => c <> []) chunks <-> n <= Py.len a).
Proof.
  intros Hn. eexists. split; [apply split_chunks, Hn|].
  pose proof (Z.div_mod (Py.len a) n ltac:(lia)) as Hdm.
  destruct (divmod_nonneg a n Hn) as [Hk Hm].
  rewrite Forall_fmap, Forall_forall. split.
  - intros Hall. destruct (Z.le_gt_cases n (Py.len a)) as [|Hlt]; [assumption|].
    exfalso. apply (Hall (Z.to_nat (n - 1))).
    + apply elem_of_seq. lia.
    + cbn. apply nil_length_inv, Nat2Z.inj.
      change (Py.len (chunk a (Py.len a / n) (Py.len a mod n) (Z.to_nat (n - 1))) = 0).
      rewrite length_chunk by lia.
      assert (Py.len a / n = 0) as -> by (apply Z.div_small; unfold Py.len in *; lia).
      assert (Py.len a mod n = Py.len a) as ->
        by (apply Z.mod_small; unfold Py.len in *; lia).
      destruct (Z.ltb_spec (Z.of_nat (Z.to_nat (n - 1))) (Py.len a)); [lia|reflexivity].
  - intros Hle i Hi%elem_of_seq. cbn. intros Hnil.
    apply (f_equal Py.len) in Hnil. rewrite length_chunk in Hnil by lia.
    assert (1 <= Py.len a / n) by (apply Z.div_le_lower_bound; lia).
    change (Py.len []) with 0 in Hnil.
    destruct (Z.of_nat i <? Py.len a mod n); lia.
Qed.

Lemma split_no_empty_chunk_witness :
  1 <= 2
  /\ exists chunks,
       split [10; 20; 30] 2 = OK chunks
       /\ (Forall (fun c => c <> []) chunks <-> 2 <= Py.len [10; 20; 30]).
Proof. split; [lia|]. apply (split_no_empty_chunk [10; 20; 30] 2). lia. Defined.

(** ** The bucket assigner *)

Lemma getitem_of_nat {A : Type} (a : list A) (k : nat) :
  Py.getitem a (Z.of_nat k)
  = match a !! k with Some x => OK x | None => Raise IndexError end.
Proof.
  unfold Py.getitem.
  assert ((Z.of_nat k <? 0) = false) as -> by (apply Z.ltb_ge; lia).
  assert ((Z.of_nat k <? 0) = false) as -> by (apply Z.ltb_ge; lia).
  rewrite Nat2Z.id. reflexivity.
Qed.

Section Buckets.

Variable g : group_cfg.
Hypothesis Hranges : ranges_ok g.

(** One file: it is appended to the buckets whose range holds its run id. *)
Lemma assign_file_ok fpath run_id ds (lists : gmap string (list string)) :
  NoDup ds ->
  (forall d, d ∈ ds -> is_Some (lists !! d)) ->
  exists lists',
    assign_file g fpath run_id ds lists = OK lists'
    /\ forall d,
         lists' !! d
         = if bool_decide (d ∈ ds) && in_range g d run_id
           then (fun l => l ++ [fpath]) <$> lists !! d
           else lists !! d.
Proof.
  intros Hnd. revert lists.
  induction Hnd as [|d0 ds Hd0 Hnd IH]; intros lists Hkeys.
  { exists lists. split; [reflexivity|]. intros d. reflexivity. }
  assert (Hskip : in_range g d0 run_id = false ->
    exists lists',
      assign_file g fpath run_id ds lists = OK lists'
      /\ forall d,
           lists' !! d
           = if bool_decide (d ∈ d0 :: ds) && in_range g d run_id
             then (fun l => l ++ [fpath]) <$> lists !! d
             else lists !! d).
  { intros Hout.
    destruct (IH lists) as (lists' & Hl & Hspec).
    { intros d Hd. apply Hkeys. right. exact Hd. }
    exists lists'. split; [exact Hl|]. intros d. rewrite Hspec.
    destruct (decide (d = d0)) as [->|Hne].
    - rewrite Hout, !andb_false_r. reflexivity.
    - rewrite (bool_decide_ext (d ∈ d0 :: ds) (d ∈ ds)); [reflexivity|].
      rewrite elem_of_cons. tauto. }
  cbn [assign_file].
  destruct (run_ids_dsplit g !! d0) as [range|] eqn:Hr.
  2: { apply Hskip. unfold in_range. rewrite Hr. reflexivity. }
  pose proof (Hranges _ _ Hr) as Hlen.
  destruct range as [|low [|high range]]; cbn in Hlen; try lia.
  assert (Hin : in_range g d0 run_id = (low <=? run_id) && (run_id <=? high))
    by (unfold in_range; rewrite Hr; reflexivity).
  change (Py.getitem (low :: high :: range) 0) with (OK low).
  change (Py.getitem (low :: high :: range) 1) with (OK high).
  cbn [mbind result_bind].
  destruct (low <=? run_id) eqn:Hlow; [destruct (run_id <=? high) eqn:Hhigh|];
    cbn [mbind result_bind]; try (apply Hskip; rewrite Hin; reflexivity).
  destruct (Hkeys d0 ltac:(left)) as [l Hl0].
  unfold dict_getitem. rewrite Hl0. cbn [mbind result_bind].
  destruct (IH (<[d0 := l ++ [fpath]]> lists)) as (lists' & Hl & Hspec).
  { intros d Hd. destruct (decide (d = d0)) as [->|Hne].
    - rewrite lookup_insert_eq. eauto.
    - rewrite lookup_insert_ne by congruence. apply Hkeys. right. exact Hd. }
  exists lists'. split; [exact Hl|]. intros d. rewrite Hspec.
  destruct (decide (d = d0)) as [->|Hne].
  - rewrite (bool_decide_false _ Hd0), (bool_decide_true (d0 ∈ d0 :: ds)) by left.
    rewrite Hin. cbn. rewrite lookup_insert_eq, Hl0. reflexivity.
  - rewrite lookup_insert_ne by congruence.
    rewrite (bool_decide_ext (d ∈ d0 :: ds) (d ∈ ds)); [reflexivity|].
    rewrite elem_of_cons. tauto.
Qed.

Lemma dsplits_NoDup : NoDup dsplits.
Proof.
  unfold dsplits. repeat constructor; rewrite ?elem_of_cons, ?elem_of_nil;
    intuition discriminate.
Qed.

Lemma files_in_range_cons d fpath run_id files ids :
  files_in_range g d (fpath :: files) (run_id :: ids)
  = (if in_range g d run_id then [fpath] else []) ++ files_in_range g d files ids.
Proof.
  unfold files_in_range. cbn [zip zip_with]. rewrite filter_cons. cbn [snd].
  destruct (in_range g d run_id); cbn; reflexivity.
Qed.

(** The files in order: every bucket receives its files in file order.
    [k] is the index of the first file of [files]. *)
Lemma assign_files_ok (k : nat) files (lists : gmap string (list string)) :
  (k + length files <= length (run_ids g))%nat ->
  (forall d, d ∈ dsplits -> is_Some (lists !! d)) ->
  exists lists',
    assign_files g (Z.of_nat k) files lists = OK lists'
    /\ forall d,
         lists' !! d
         = if bool_decide (d ∈ dsplits)
           then (fun l => l ++ files_in_range g d files (drop k (run_ids g)))
                  <$> lists !! d
           else lists !! d.
Proof.
  revert k lists. induction files as [|fpath files IH]; intros k lists Hlen Hkeys.
  - exists lists. split; [reflexivity|]. intros d.
    case_bool_decide; [|reflexivity].
    destruct (lists !! d); cbn; [|reflexivity].
    unfold files_in_range. cbn. rewrite app_nil_r. reflexivity.
  - cbn [assign_files length] in *.
    destruct (lookup_lt_is_Some_2 (run_ids g) k ltac:(lia)) as [run_id Hid].
    assert (Hget : Py.getitem (run_ids g) (Z.of_nat k) = OK run_id)
      by (rewrite getitem_of_nat, Hid; reflexivity).
    rewrite Hget. cbn [mbind result_bind].
    destruct (assign_file_ok fpath run_id dsplits lists dsplits_NoDup Hkeys)
      as (lists1 & H1 & Hspec1).
    rewrite H1. cbn [mbind result_bind].
    replace (Z.of_nat k + 1) with (Z.of_nat (S k)) by lia.
    destruct (IH (S k) lists1) as (lists' & Hl & Hspec).
    { lia. }
    { intros d Hd. rewrite Hspec1. destruct (Hkeys d Hd) as [l ->].
      destruct (_ && _); cbn; eauto. }
    exists lists'. split; [exact Hl|]. intros d. rewrite Hspec, Hspec1.
    case_bool_decide; [|reflexivity]. cbn [andb].
    rewrite (drop_S _ _ _ Hid), files_in_range_cons.
    destruct (lists !! d) as [l|]; destruct (in_range g d run_id); cbn;
      rewrite <- ?app_assoc; reflexivity.
Qed.

(** The lists the first loop of the planner builds. *)
Lemma assign_all_files :
  (length (fpaths g) <= length (run_ids g))%nat ->
  exists lists,
    assign_files g 0 (fpaths g) empty_fpath_lists = OK lists
    /\ (forall d, d ∈ dsplits -> lists !! d = Some (bucket_files g d)).
Proof.
  intros Hlen.
  destruct (assign_files_ok 0 (fpaths g) empty_fpath_lists) as (lists & Hl & Hspec).
  { lia. }
  { intros d Hd. unfold dsplits in Hd. rewrite !elem_of_cons, elem_of_nil in Hd.
    destruct Hd as [->|[->|[->|[]]]]; eexists; reflexivity. }
  exists lists. split; [exact Hl|]. intros d Hd. rewrite Hspec.
  rewrite (bool_decide_true _ Hd).
  unfold dsplits in Hd. rewrite !elem_of_cons, elem_of_nil in Hd.
  destruct Hd as [->|[->|[->|[]]]]; reflexivity.
Qed.

(** With fewer run ids than files the loop runs out of run ids. *)
Lemma assign_files_short (k : nat) files (lists : gmap string (list string)) :
  (k <= length (run_ids g))%nat ->
  (length (run_ids g) < k + length files)%nat ->
  (forall d, d ∈ dsplits -> is_Some (lists !! d)) ->
  assign_files g (Z.of_nat k) files lists = Raise IndexError.
Proof.
  revert k lists. induction files as [|fpath files IH]; intros k lists Hk Hlen Hkeys.
  { cbn in Hlen. lia. }
  cbn [assign_files length] in *.
  destruct (run_ids g !! k) as [run_id|] eqn:Hid.
  - assert (Hget : Py.getitem (run_ids g) (Z.of_nat k) = OK run_id)
      by (rewrite getitem_of_nat, Hid; reflexivity).
    rewrite Hget. cbn [mbind result_bind].
    destruct (assign_file_ok fpath run_id dsplits lists dsplits_NoDup Hkeys)
      as (lists1 & H1 & Hspec1).
    rewrite H1. cbn [mbind result_bind].
    replace (Z.of_nat k + 1) with (Z.of_nat (S k)) by lia.
    apply lookup_lt_Some in Hid. apply IH; [lia|lia|].
    intros d Hd. rewrite Hspec1. destruct (Hkeys d Hd) as [l ->].
    destruct (_ && _); cbn; eauto.
  - rewrite getitem_of_nat, Hid. reflexivity.
Qed.

End Buckets.

(** ** The planner *)

Lemma split_total {A : Type} (a : list A) (n : Z) :
  n <> 0 -> exists chunks, split a n = OK chunks.
Proof.
  intros Hn. unfold split, Py.divmod.
  destruct (Z.eqb_spec n 0); [contradiction|]. cbn. eauto.
Qed.

(** The second loop leaves the counts, the groups and the chunk lists of
    the other groups alone, whatever its outcome. *)
Lemma chunk_buckets_frame key lists ds c :
  n_files_dsplit (chunk_buckets key lists ds c).1 = n_files_dsplit c
  /\ groups (chunk_buckets key lists ds c).1 = groups c
  /\ forall d key', key' <> key ->
       output_chunks (chunk_buckets key lists ds c).1 d key' = output_chunks c d key'.
Proof.
  revert c. induction ds as [|d0 ds IH]; intros c; [repeat split|].
  cbn [chunk_buckets].
  destruct (dict_getitem lists d0) as [l|e]; [|repeat split].
  destruct (Py.len l =? 0); [apply IH|].
  destruct (_ ≫= _) as [chunks|e]; [|repeat split].
  destruct (IH {| n_files_dsplit := n_files_dsplit c; groups := groups c;
                  output_dsplit := <[d0 := <[key := chunks]>
                                             (default ∅ (output_dsplit c !! d0))]>
                                     (output_dsplit c) |})
    as (Hn & Hg & Ho).
  split; [exact Hn|]. split; [exact Hg|].
  intros d key' Hne. rewrite (Ho d key' Hne). unfold output_chunks. cbn.
  destruct (decide (d = d0)) as [->|Hd].
  - rewrite lookup_insert_eq. cbn. rewrite lookup_insert_ne by congruence.
    destruct (output_dsplit c !! d0); reflexivity.
  - rewrite lookup_insert_ne by congruence. reflexivity.
Qed.

(** When every bucket that received files has a chunk count other than 0,
    the second loop succeeds and writes the chunks of exactly these
    buckets. *)
Lemma chunk_buckets_ok key (lists : gmap string (list string)) ds c :
  NoDup ds ->
  (forall d, d ∈ ds ->
     exists l, lists !! d = Some l
       /\ (l <> [] -> exists n, n_files_dsplit c !! d = Some n /\ n <> 0)) ->
  exists c',
    chunk_buckets key lists ds c = (c', OK tt)
    /\ (forall d, d ∉ ds -> output_dsplit c' !! d = output_dsplit c !! d)
    /\ (forall d l, d ∈ ds -> lists !! d = Some l ->
          (l = [] -> output_dsplit c' !! d = output_dsplit c !! d)
          /\ (l <> [] ->
                exists n chunks,
                  n_files_dsplit c !! d = Some n
                  /\ split l n = OK chunks
                  /\ output_dsplit c' !! d
                     = Some (<[key := chunks]> (default ∅ (output_dsplit c !! d))))).
Proof.
  intros Hnd. revert c. induction Hnd as [|d0 ds Hd0 Hnd IH]; intros c Hall.
  { exists c. split; [reflexivity|]. split; [reflexivity|].
    intros d l Hd. apply elem_of_nil in Hd. destruct Hd. }
  destruct (Hall d0 ltac:(left)) as (l0 & Hl0 & Hcount).
  cbn [chunk_buckets]. unfold dict_getitem at 1. rewrite Hl0.
  destruct l0 as [|x l0].
  - (* the bucket is empty: skipped *)
    change (Py.len [] =? 0) with true. cbn [andb].
    destruct (IH c) as (c' & Hc' & Hout & Hin).
    { intros d Hd. apply Hall. right. exact Hd. }
    exists c'. split; [exact Hc'|]. split.
    + intros d Hd. apply Hout. intros Hd'. apply Hd. right. exact Hd'.
    + intros d l [->|Hd]%elem_of_cons Hl.
      * rewrite Hl0 in Hl. injection Hl as <-.
        split; [intros _; apply Hout, Hd0|intros Hne; congruence].
      * apply Hin; assumption.
  - destruct (Hcount ltac:(discriminate)) as (n & Hn & Hn0).
    destruct (split_total (x :: l0) n Hn0) as [chunks Hchunks].
    assert (Hlen : (Py.len (x :: l0) =? 0) = false).
    { apply Z.eqb_neq. unfold Py.len. cbn [length]. lia. }
    rewrite Hlen. unfold dict_getitem. rewrite Hn.
    cbn [mbind result_bind]. rewrite Hchunks.
    set (c1 := {| n_files_dsplit := n_files_dsplit c; groups := groups c;
                  output_dsplit := <[d0 := <[key := chunks]>
                                             (default ∅ (output_dsplit c !! d0))]>
                                     (output_dsplit c) |}).
    destruct (IH c1) as (c' & Hc' & Hout & Hin).
    { intros d Hd. apply Hall. right. exact Hd. }
    exists c'. split; [exact Hc'|]. split.
    + intros d Hd. rewrite Hout by (intros Hd'; apply Hd; right; exact Hd').
      cbn. apply lookup_insert_ne. intros ->. apply Hd. left.
    + intros d l [->|Hd]%elem_of_cons Hl.
      * rewrite Hl0 in Hl. injection Hl as <-.
        split; [discriminate|]. intros _. exists n, chunks.
        split; [exact Hn|]. split; [exact Hchunks|].
        rewrite (Hout d0 Hd0). cbn. apply lookup_insert_eq.
      * assert (Hne : d0 <> d) by (intros ->; contradiction).
        destruct (Hin d l Hd Hl) as [He Hf]. split.
        -- intros Hnil. rewrite (He Hnil). cbn. apply lookup_insert_ne, Hne.
        -- intros Hnn. destruct (Hf Hnn) as (n' & chunks' & H1 & H2 & H3).
           exists n', chunks'. split; [exact H1|]. split; [exact H2|].
           rewrite H3. cbn. rewrite lookup_insert_ne by exact Hne. reflexivity.
Qed.

(** If the second loop succeeds, every bucket that received files has a
    chunk count other than 0. *)
Lemma chunk_buckets_OK_inv key (lists : gmap string (list string)) ds c :
  (chunk_buckets key lists ds c).2 = OK tt ->
  forall d l, d ∈ ds -> lists !! d = Some l -> l <> [] ->
    exists n, n_files_dsplit c !! d = Some n /\ n <> 0.
Proof.
  revert c. induction ds as [|d0 ds IH]; intros c Hok d l Hd Hl Hne.
  { apply elem_of_nil in Hd. destruct Hd. }
  cbn [chunk_buckets] in Hok. unfold dict_getitem in Hok.
  destruct (lists !! d0) as [l0|] eqn:Hl0; [|discriminate Hok].
  destruct (Z.eqb_spec (Py.len l0) 0) as [Hz|Hnz].
  - apply elem_of_cons in Hd as [->|Hd]; [|exact (IH c Hok d l Hd Hl Hne)].
    rewrite Hl0 in Hl. injection Hl as <-.
    destruct l0; [congruence|]. unfold Py.len in Hz. cbn in Hz. lia.
  - destruct (n_files_dsplit c !! d0) as [n|] eqn:Hn; [|discriminate Hok].
    cbn [mbind result_bind] in Hok.
    destruct (Z.eq_dec n 0) as [->|Hn0].
    { unfold split, Py.divmod in Hok. cbn in Hok. discriminate Hok. }
    destruct (split l0 n) as [chunks|e]; [|discriminate Hok].
    apply elem_of_cons in Hd as [->|Hd]; [eauto|].
    exact (IH _ Hok d l Hd Hl Hne).
Qed.

Section Planner.

Variables (c : cfg) (key : string) (g : group_cfg).
Hypothesis Hgroup : groups c !! key = Some g.
Hypothesis Hranges : ranges_ok g.

Lemma add_fpaths_unfold :
  (length (fpaths g) <= length (run_ids g))%nat ->
  exists lists,
    (forall d, d ∈ dsplits -> lists !! d = Some (bucket_files g d))
    /\ add_fpaths_for_data_split_to_cfg c key = chunk_buckets key lists dsplits c.
Proof.
  intros Hlen. destruct (assign_all_files g Hranges Hlen) as (lists & Hl & Hspec).
  exists lists. split; [exact Hspec|].
  unfold add_fpaths_for_data_split_to_cfg, dict_getitem. rewrite Hgroup.
  cbn [mbind result_bind]. fold empty_fpath_lists. rewrite Hl. reflexivity.
Qed.

Lemma add_fpaths_ok :
  (length (fpaths g) <= length (run_ids g))%nat ->
  (forall d, d ∈ dsplits -> bucket_files g d <> [] ->
     exists n, n_files_dsplit c !! d = Some n /\ n <> 0) ->
  exists c',
    add_fpaths_for_data_split_to_cfg c key = (c', OK tt)
    /\ forall d, d ∈ dsplits ->
         (bucket_files g d = [] -> output_dsplit c' !! d = output_dsplit c !! d)
         /\ (bucket_files g d <> [] ->
               exists n chunks,
                 n_files_dsplit c !! d = Some n
                 /\ split (bucket_files g d) n = OK chunks
                 /\ output_chunks c' d key = Some chunks).
Proof.
  intros Hlen Hcounts.
  destruct (add_fpaths_unfold Hlen) as (lists & Hlists & ->).
  destruct (chunk_buckets_ok key lists dsplits c dsplits_NoDup) as (c' & Hc' & _ & Hin).
  { intros d Hd. exists (bucket_files g d). split; [apply Hlists, Hd|].
    apply Hcounts, Hd. }
  exists c'. split; [exact Hc'|]. intros d Hd.
  destruct (Hin d _ Hd (Hlists d Hd)) as [He Hf]. split; [exact He|].
  intros Hne. destruct (Hf Hne) as (n & chunks & Hn & Hs & Ho).
  exists n, chunks. split; [exact Hn|]. split; [exact Hs|].
  unfold output_chunks. rewrite Ho. cbn. apply lookup_insert_eq.
Qed.

End Planner.

(** X2. The planner succeeds exactly when every bucket that receives a file
    of the group has a chunk count configured that is not 0; a bucket
    without files needs no count. *)
Theorem planner_succeeds_iff (c : cfg) (key : string) (g : group_cfg) :
  groups c !! key = Some g ->
  ranges_ok g ->
  (length (fpaths g) <= length (run_ids g))%nat ->
  (add_fpaths_for_data_split_to_cfg c key).2 = OK tt
  <-> forall d, d ∈ dsplits -> bucket_files g d <> [] ->
        exists n, n_files_dsplit c !! d = Some n /\ n <> 0.
Proof.
  intros Hgroup Hranges Hlen. split.
  - intros Hok d Hd Hne.
    destruct (add_fpaths_unfold c key g Hgroup Hranges Hlen) as (lists & Hlists & Heq).
    rewrite Heq in Hok.
    exact (chunk_buckets_OK_inv key lists dsplits c Hok d _ Hd (Hlists d Hd) Hne).
  - intros Hcounts.
    destruct (add_fpaths_ok c key g Hgroup Hranges Hlen Hcounts) as (c' & -> & _).
    reflexivity.
Qed.

(** X3. Bucket coverage. When the planner succeeds with positive chunk
    counts, each bucket that receives files gets, under the group's key, as
    many chunks as its count, and the chunks in order are exactly the
    group's files whose run id lies in the bucket's range, in file order; a
    bucket that receives no file keeps the entry it had. *)
Theorem planner_bucket_coverage (c : cfg) (key : string) (g : group_cfg) :
  groups c !! key = Some g ->
  ranges_ok g ->
  (length (fpaths g) <= length (run_ids g))%nat ->
  (forall d, d ∈ dsplits -> bucket_files g d <> [] ->
     exists n, n_files_dsplit c !! d = Some n /\ 1 <= n) ->
  exists c',
    add_fpaths_for_data_split_to_cfg c key = (c', OK tt)
    /\ forall d, d ∈ dsplits ->
         (bucket_files g d = [] -> output_dsplit c' !! d = output_dsplit c !! d)
         /\ (bucket_files g d <> [] ->
               exists n chunks,
                 n_files_dsplit c !! d = Some n
                 /\ output_chunks c' d key = Some chunks
                 /\ Py.len chunks = n
                 /\ concat chunks = bucket_files g d).
Proof.
  intros Hgroup Hranges Hlen Hcounts.
  destruct (add_fpaths_ok c key g Hgroup Hranges Hlen) as (c' & Hc' & Hout).
  { intros d Hd Hne. destruct (Hcounts d Hd Hne) as (n & Hn & Hpos).
    exists n. split; [exact Hn|lia]. }
  exists c'. split; [exact Hc'|]. intros d Hd.
  destruct (Hout d Hd) as [He Hf]. split; [exact He|]. intros Hne.
  destruct (Hf Hne) as (n & chunks & Hn & Hs & Ho).
  destruct (Hcounts d Hd Hne) as (n' & Hn' & Hpos).
  rewrite Hn in Hn'. injection Hn' as <-.
  rewrite (split_chunks _ n Hpos) in Hs. injection Hs as <-.
  exists n. eexists. split; [exact Hn|]. split; [exact Ho|]. split.
  - unfold Py.len. rewrite length_fmap, length_seq. lia.
  - apply concat_chunks, Hpos.
Qed.

(** X4. A negative chunk count loses the bucket: the planner succeeds and
    stores an empty list of chunks for it, so that its files are in no
    chunk. *)
Theorem planner_negative_count (c : cfg) (key : string) (g : group_cfg)
    (d : string) (n : Z) :
  groups c !! key = Some g ->
  ranges_ok g ->
  (length (fpaths g) <= length (run_ids g))%nat ->
  (forall d', d' ∈ dsplits -> bucket_files g d' <> [] ->
     exists n', n_files_dsplit c !! d' = Some n' /\ n' <> 0) ->
  d ∈ dsplits ->
  bucket_files g d <> [] ->
  n_files_dsplit c !! d = Some n ->
  n < 0 ->
  exists c',
    add_fpaths_for_data_split_to_cfg c key = (c', OK tt)
    /\ output_chunks c' d key = Some [].
Proof.
  intros Hgroup Hranges Hlen Hcounts Hd Hne Hn Hneg.
  destruct (add_fpaths_ok c key g Hgroup Hranges Hlen Hcounts) as (c' & Hc' & Hout).
  exists c'. split; [exact Hc'|].
  destruct (Hout d Hd) as [_ Hf].
  destruct (Hf Hne) as (n' & chunks & Hn' & Hs & Ho).
  rewrite Hn in Hn'. injection Hn' as <-.
  unfold split, Py.divmod in Hs. destruct (Z.eqb_spec n 0); [lia|].
  cbn in Hs. rewrite range_nonpositive in Hs by lia. injection Hs as <-.
  exact Ho.
Qed.

(** X5. With fewer run ids than files the planner fails with [IndexError]
    and leaves the configuration as it was. *)
Theorem planner_short_run_ids (c : cfg) (key : string) (g : group_cfg) :
  groups c !! key = Some g ->
  ranges_ok g ->
  (length (run_ids g) < length (fpaths g))%nat ->
  add_fpaths_for_data_split_to_cfg c key = (c, Raise IndexError).
Proof.
  intros Hgroup Hranges Hlen.
  unfold add_fpaths_for_data_split_to_cfg, dict_getitem. rewrite Hgroup.
  cbn [mbind result_bind]. fold empty_fpath_lists.
  assert (Hshort : assign_files g 0 (fpaths g) empty_fpath_lists = Raise IndexError).
  { apply (assign_files_short g Hranges 0 (fpaths g) empty_fpath_lists); [lia|lia|].
    intros d Hd. unfold dsplits in Hd. rewrite !elem_of_cons, elem_of_nil in Hd.
    destruct Hd as [->|[->|[->|[]]]]; eexists; reflexivity. }
  rewrite Hshort. reflexivity.
Qed.

(** The second loop writes under the buckets it goes through only. *)
Lemma chunk_buckets_other_buckets key lists ds c d :
  d ∉ ds ->
  output_dsplit (chunk_buckets key lists ds c).1 !! d = output_dsplit c !! d.
Proof.
  revert c. induction ds as [|d0 ds IH]; intros c Hd; [reflexivity|].
  apply not_elem_of_cons in Hd as [Hne Hd].
  cbn [chunk_buckets].
  destruct (dict_getitem lists d0) as [l|e]; [|reflexivity].
  destruct (Py.len l =? 0); [exact (IH c Hd)|].
  destruct (_ ≫= _) as [chunks|e]; [|reflexivity].
  rewrite (IH _ Hd). cbn. rewrite lookup_insert_ne by congruence. reflexivity.
Qed.

(** X6. Whatever its outcome, the planner writes nothing but the chunk lists
    of its own group under the three buckets: the chunk lists stored for
    another group are as they were under every bucket, and so is what the
    configuration holds under an output name that is not one of the three
    buckets. *)
Theorem planner_frame (c : cfg) (key : string) :
  (forall d key', key' <> key ->
     output_chunks (add_fpaths_for_data_split_to_cfg c key).1 d key'
     = output_chunks c d key')
  /\ (forall d, d ∉ dsplits ->
        output_dsplit (add_fpaths_for_data_split_to_cfg c key).1 !! d
        = output_dsplit c !! d).
Proof.
  unfold add_fpaths_for_data_split_to_cfg.
  destruct (_ ≫= _) as [lists|e]; [|split; reflexivity].
  split.
  - apply chunk_buckets_frame.
  - intros d Hd. apply chunk_buckets_other_buckets. exact Hd.
Qed.

Lemma elem_of_files_in_range g d files ids (i : nat) fpath run_id :
  files !! i = Some fpath -> ids !! i = Some run_id ->
  in_range g d run_id = true ->
  fpath ∈ files_in_range g d files ids.
Proof.
  intros Hf Hr Hin. unfold files_in_range.
  apply list_elem_of_fmap. exists (fpath, run_id). split; [reflexivity|].
  apply list_elem_of_filter. split; [exact Hin|].
  exact (elem_of_lookup_zip_with_2 pair files ids fpath run_id (fpath, run_id) i Hf Hr).
Qed.

(** X7. No exclusivity: a file whose run id lies in the ranges of two
    buckets ends up in a chunk of each. *)
Theorem planner_overlapping_ranges (c : cfg) (key : string) (g : group_cfg)
    (d1 d2 : string) (i : nat) (fpath : string) (run_id : Z) :
  groups c !! key = Some g ->
  ranges_ok g ->
  (length (fpaths g) <= length (run_ids g))%nat ->
  (forall d, d ∈ dsplits -> bucket_files g d <> [] ->
     exists n, n_files_dsplit c !! d = Some n /\ 1 <= n) ->
  d1 ∈ dsplits -> d2 ∈ dsplits ->
  fpaths g !! i = Some fpath ->
  run_ids g !! i = Some run_id ->
  in_range g d1 run_id = true ->
  in_range g d2 run_id = true ->
  exists c' chunks1 chunks2,
    add_fpaths_for_data_split_to_cfg c key = (c', OK tt)
    /\ output_chunks c' d1 key = Some chunks1
    /\ output_chunks c' d2 key = Some chunks2
    /\ fpath ∈ concat chunks1
    /\ fpath ∈ concat chunks2.
Proof.
  intros Hgroup Hranges Hlen Hcounts Hd1 Hd2 Hf Hr Hin1 Hin2.
  pose proof (elem_of_files_in_range g d1 _ _ i fpath run_id Hf Hr Hin1) as He1.
  pose proof (elem_of_files_in_range g d2 _ _ i fpath run_id Hf Hr Hin2) as He2.
  fold (bucket_files g d1) in He1. fold (bucket_files g d2) in He2.
  assert (Hne : forall d, fpath ∈ bucket_files g d -> bucket_files g d <> []).
  { intros d He Hnil. rewrite Hnil in He. apply elem_of_nil in He. exact He. }
  destruct (add_fpaths_ok c key g Hgroup Hranges Hlen) as (c' & Hc' & Hout).
  { intros d Hd Hn. destruct (Hcounts d Hd Hn) as (n & Hn' & Hpos).
    exists n. split; [exact Hn'|lia]. }
  destruct (Hout d1 Hd1) as [_ Hf1]. destruct (Hout d2 Hd2) as [_ Hf2].
  destruct (Hf1 (Hne _ He1)) as (n1 & chunks1 & Hn1 & Hs1 & Ho1).
  destruct (Hf2 (Hne _ He2)) as (n2 & chunks2 & Hn2 & Hs2 & Ho2).
  destruct (Hcounts d1 Hd1 (Hne _ He1)) as (n1' & Hn1' & Hpos1).
  destruct (Hcounts d2 Hd2 (Hne _ He2)) as (n2' & Hn2' & Hpos2).
  rewrite Hn1 in Hn1'. injection Hn1' as <-.
  rewrite Hn2 in Hn2'. injection Hn2' as <-.
  rewrite (split_chunks _ n1 Hpos1) in Hs1. injection Hs1 as <-.
  rewrite (split_chunks _ n2 Hpos2) in Hs2. injection Hs2 as <-.
  eexists c', _, _. split; [exact Hc'|]. split; [exact Ho1|]. split; [exact Ho2|].
  rewrite !concat_chunks by assumption. split; assumption.
Qed.

(** *** The sample plans *)

Ltac solve_ranges_ok :=
  let d := fresh "d" in
  let r := fresh "r" in
  let H := fresh "H" in
  intros d r H; cbn in H;
  repeat (rewrite lookup_insert in H; case_decide;
          [injection H as <-; cbn; lia|]);
  rewrite lookup_empty in H; discriminate H.

Ltac solve_counts :=
  let d := fresh "d" in
  let Hd := fresh "Hd" in
  intros d Hd _; unfold dsplits in Hd;
  rewrite !elem_of_cons, elem_of_nil in Hd;
  destruct Hd as [->|[->|[->|[]]]]; eexists; (split; [reflexivity|lia]).

Lemma ten_files_ranges_ok : ranges_ok ten_files.
Proof. solve_ranges_ok. Qed.

Lemma short_group_ranges_ok : ranges_ok short_group.
Proof. solve_ranges_ok. Qed.

Lemma overlap_group_ranges_ok : ranges_ok overlap_group.
Proof. solve_ranges_ok. Qed.

Lemma train_in_dsplits : "train" ∈ dsplits.
Proof. left. Qed.

Lemma validate_in_dsplits : "validate" ∈ dsplits.
Proof. right. left. Qed.

Lemma planner_succeeds_iff_witness :
  groups (plan_cfg 2) !! "muon" = Some ten_files
  /\ ranges_ok ten_files
  /\ (length (fpaths ten_files) <= length (run_ids ten_files))%nat
  /\ ((add_fpaths_for_data_split_to_cfg (plan_cfg 2) "muon").2 = OK tt
      <-> forall d, d ∈ dsplits -> bucket_files ten_files d <> [] ->
            exists n, n_files_dsplit (plan_cfg 2) !! d = Some n /\ n <> 0).
Proof.
  assert (H1 : groups (plan_cfg 2) !! "muon" = Some ten_files) by reflexivity.
  assert (H3 : (length (fpaths ten_files) <= length (run_ids ten_files))%nat)
    by (cbn; lia).
  split; [exact H1|]. split; [exact ten_files_ranges_ok|]. split; [exact H3|].
  exact (planner_succeeds_iff _ _ _ H1 ten_files_ranges_ok H3).
Defined.

Lemma planner_bucket_coverage_witness :
  groups (plan_cfg 2) !! "muon" = Some ten_files
  /\ ranges_ok ten_files
  /\ (length (fpaths ten_files) <= length (run_ids ten_files))%nat
  /\ (forall d, d ∈ dsplits -> bucket_files ten_files d <> [] ->
        exists n, n_files_dsplit (plan_cfg 2) !! d = Some n /\ 1 <= n)
  /\ exists c', add_fpaths_for_data_split_to_cfg (plan_cfg 2) "muon" = (c', OK tt).
Proof.
  assert (H1 : groups (plan_cfg 2) !! "muon" = Some ten_files) by reflexivity.
  assert (H3 : (length (fpaths ten_files) <= length (run_ids ten_files))%nat)
    by (cbn; lia).
  assert (H4 : forall d, d ∈ dsplits -> bucket_files ten_files d <> [] ->
                 exists n, n_files_dsplit (plan_cfg 2) !! d = Some n /\ 1 <= n)
    by solve_counts.
  split; [exact H1|]. split; [exact ten_files_ranges_ok|]. split; [exact H3|].
  split; [exact H4|].
  destruct (planner_bucket_coverage _ _ _ H1 ten_files_ranges_ok H3 H4) as (c' & Hc' & _).
  exists c'. exact Hc'.
Defined.

Lemma planner_negative_count_witness :
  groups (plan_cfg (-1)) !! "muon" = Some ten_files
  /\ ranges_ok ten_files
  /\ (length (fpaths ten_files) <= length (run_ids ten_files))%nat
  /\ (forall d', d' ∈ dsplits -> bucket_files ten_files d' <> [] ->
        exists n', n_files_dsplit (plan_cfg (-1)) !! d' = Some n' /\ n' <> 0)
  /\ "train" ∈ dsplits
  /\ bucket_files ten_files "train" <> []
  /\ n_files_dsplit (plan_cfg (-1)) !! "train" = Some (-1)
  /\ -1 < 0
  /\ exists c',
       add_fpaths_for_data_split_to_cfg (plan_cfg (-1)) "muon" = (c', OK tt)
       /\ output_chunks c' "train" "muon" = Some [].
Proof.
  assert (H1 : groups (plan_cfg (-1)) !! "muon" = Some ten_files) by reflexivity.
  assert (H3 : (length (fpaths ten_files) <= length (run_ids ten_files))%nat)
    by (cbn; lia).
  assert (H4 : forall d', d' ∈ dsplits -> bucket_files ten_files d' <> [] ->
                 exists n', n_files_dsplit (plan_cfg (-1)) !! d' = Some n' /\ n' <> 0)
    by solve_counts.
  assert (H6 : bucket_files ten_files "train" <> []) by (vm_compute; discriminate).
  assert (H7 : n_files_dsplit (plan_cfg (-1)) !! "train" = Some (-1)) by reflexivity.
  assert (H8 : -1 < 0) by lia.
  split; [exact H1|]. split; [exact ten_files_ranges_ok|]. split; [exact H3|].
  split; [exact H4|]. split; [exact train_in_dsplits|]. split; [exact H6|].
  split; [exact H7|]. split; [exact H8|].
  exact (planner_negative_count _ _ _ _ _ H1 ten_files_ranges_ok H3 H4
           train_in_dsplits H6 H7 H8).
Defined.

Lemma planner_short_run_ids_witness :
  groups short_cfg !! "muon" = Some short_group
  /\ ranges_ok short_group
  /\ (length (run_ids short_group) < length (fpaths short_group))%nat
  /\ add_fpaths_for_data_split_to_cfg short_cfg "muon" = (short_cfg, Raise IndexError).
Proof.
  assert (H1 : groups short_cfg !! "muon" = Some short_group) by reflexivity.
  assert (H3 : (length (run_ids short_group) < length (fpaths short_group))%nat)
    by (cbn; lia).
  split; [exact H1|]. split; [exact short_group_ranges_ok|]. split; [exact H3|].
  exact (planner_short_run_ids _ _ _ H1 short_group_ranges_ok H3).
Defined.

Lemma planner_frame_witness :
  "neutrino" <> "muon"
  /\ output_chunks (add_fpaths_for_data_split_to_cfg (frame_cfg 2) "muon").1
       "train" "neutrino"
     = Some [["n1"]; ["n2"]]
  /\ output_chunks (add_fpaths_for_data_split_to_cfg (frame_cfg 2) "muon").1
       "train" "muon"
     = Some [["f1"; "f2"; "f3"]; ["f4"; "f5"; "f6"]].
Proof.
  assert (H1 : "neutrino" <> "muon") by discriminate.
  split; [exact H1|]. split; [|vm_compute; reflexivity].
  rewrite (proj1 (planner_frame (frame_cfg 2) "muon") "train" "neutrino" H1).
  vm_compute. reflexivity.
Defined.

Lemma planner_overlapping_ranges_witness :
  groups overlap_cfg !! "muon" = Some overlap_group
  /\ ranges_ok overlap_group
  /\ (length (fpaths overlap_group) <= length (run_ids overlap_group))%nat
  /\ (forall d, d ∈ dsplits -> bucket_files overlap_group d <> [] ->
        exists n, n_files_dsplit overlap_cfg !! d = Some n /\ 1 <= n)
  /\ "train" ∈ dsplits /\ "validate" ∈ dsplits
  /\ fpaths overlap_group !! 1%nat = Some "f2"
  /\ run_ids overlap_group !! 1%nat = Some 2
  /\ in_range overlap_group "train" 2 = true
  /\ in_range overlap_group "validate" 2 = true
  /\ exists c' chunks1 chunks2,
       add_fpaths_for_data_split_to_cfg overlap_cfg "muon" = (c', OK tt)
       /\ output_chunks c' "train" "muon" = Some chunks1
       /\ output_chunks c' "validate" "muon" = Some chunks2
       /\ "f2" ∈ concat chunks1
       /\ "f2" ∈ concat chunks2.
Proof.
  assert (H1 : groups overlap_cfg !! "muon" = Some overlap_group) by reflexivity.
  assert (H3 : (length (fpaths overlap_group) <= length (run_ids overlap_group))%nat)
    by (cbn; lia).
  assert (H4 : forall d, d ∈ dsplits -> bucket_files overlap_group d <> [] ->
                 exists n, n_files_dsplit overlap_cfg !! d = Some n /\ 1 <= n).
  { intros d Hd Hne. unfold dsplits in Hd.
    rewrite !elem_of_cons, elem_of_nil in Hd.
    destruct Hd as [->|[->|[->|[]]]];
      try (eexists; split; [reflexivity|lia]).
    exfalso. apply Hne. vm_compute. reflexivity. }
  assert (H5 : fpaths overlap_group !! 1%nat = Some "f2") by reflexivity.
  assert (H6 : run_ids overlap_group !! 1%nat = Some 2) by reflexivity.
  assert (H7 : in_range overlap_group "train" 2 = true) by reflexivity.
  assert (H8 : in_range overlap_group "validate" 2 = true) by reflexivity.
  split; [exact H1|]. split; [exact overlap_group_ranges_ok|]. split; [exact H3|].
  split; [exact H4|]. split; [exact train_in_dsplits|].
  split; [exact validate_in_dsplits|]. split; [exact H5|]. split; [exact H6|].
  split; [exact H7|]. split; [exact H8|].
  exact (planner_overlapping_ranges _ _ _ _ _ _ _ _ H1 overlap_group_ranges_ok H3 H4
           train_in_dsplits validate_in_dsplits H5 H6 H7 H8).
Defined.

(** ** The inventory of a group *)

Section Inventory.

Variables (fs : filesystem) (dataset_key run_id_col_name : string).

(** One readable file adds its event count and its run id. *)
Lemma collect_files_cons fpath rest total run_ids run_id :
  first_run_id fs dataset_key run_id_col_name fpath run_id ->
  exists n,
    get_number_of_evts fs fpath dataset_key = OK n
    /\ collect_files fs dataset_key run_id_col_name (fpath :: rest) total run_ids
       = collect_files fs dataset_key run_id_col_name rest (total + n)
           (run_ids ++ [run_id]).
Proof.
  intros (f & row & rest' & Hf & Hd & Hr).
  exists (Py.len (row :: rest')). split.
  - unfold get_number_of_evts, h5py_File, dict_getitem. rewrite Hf. cbn.
    rewrite Hd. reflexivity.
  - cbn [collect_files]. unfold h5py_File, dict_getitem, record_getitem.
    rewrite Hf. cbn [mbind result_bind]. rewrite Hd. cbn [mbind result_bind].
    change (Py.getitem (row :: rest') 0) with (OK row).
    cbn [mbind result_bind]. rewrite Hr. reflexivity.
Qed.

(** A file whose read succeeds is readable. *)
Lemma collect_files_cons_inv fpath rest total run_ids r :
  collect_files fs dataset_key run_id_col_name (fpath :: rest) total run_ids = OK r ->
  readable fs dataset_key run_id_col_name fpath.
Proof.
  cbn [collect_files]. unfold h5py_File, dict_getitem, record_getitem.
  destruct (fs !! fpath) as [f|] eqn:Hf; [|discriminate].
  cbn [mbind result_bind].
  destruct (f !! dataset_key) as [dset|] eqn:Hd; [|discriminate].
  cbn [mbind result_bind].
  destruct dset as [|row rest']; [discriminate|].
  change (Py.getitem (row :: rest') 0) with (OK row). cbn [mbind result_bind].
  destruct (row !! run_id_col_name) as [run_id|] eqn:Hr; [|discriminate].
  intros _. exists run_id, f, row, rest'. auto.
Qed.

Lemma collect_files_readable files total run_ids :
  Forall (readable fs dataset_key run_id_col_name) files ->
  exists counts ids,
    Forall2 (fun fpath n => get_number_of_evts fs fpath dataset_key = OK n) files counts
    /\ Forall2 (first_run_id fs dataset_key run_id_col_name) files ids
    /\ collect_files fs dataset_key run_id_col_name files total run_ids
       = OK (total + sum_Z counts, run_ids ++ ids).
Proof.
  intros H. revert total run_ids.
  induction H as [|fpath files [run_id Hrun] _ IH]; intros total run_ids.
  - exists [], []. repeat split; try constructor.
    cbn. rewrite Z.add_0_r, app_nil_r. reflexivity.
  - destruct (collect_files_cons fpath files total run_ids run_id Hrun) as (n & Hn & ->).
    destruct (IH (total + n) (run_ids ++ [run_id])) as (counts & ids & Hc & Hi & ->).
    exists (n :: counts), (run_id :: ids).
    split; [constructor; assumption|]. split; [constructor; assumption|].
    cbn [sum_Z foldr]. rewrite <- app_assoc. f_equal. f_equal.
    unfold sum_Z. lia.
Qed.

Lemma collect_files_OK_inv files total run_ids r :
  collect_files fs dataset_key run_id_col_name files total run_ids = OK r ->
  Forall (readable fs dataset_key run_id_col_name) files.
Proof.
  revert total run_ids. induction files as [|fpath files IH]; intros total run_ids H.
  - constructor.
  - pose proof (collect_files_cons_inv _ _ _ _ _ H) as Hread.
    constructor; [exact Hread|]. destruct Hread as [run_id Hrun].
    destruct (collect_files_cons fpath files total run_ids run_id Hrun) as (n & _ & Heq).
    rewrite Heq in H. exact (IH _ _ H).
Qed.

(** The readable files in front of the first one that is not are read and
    passed over. *)
Lemma collect_files_prefix pre rest total run_ids :
  Forall (readable fs dataset_key run_id_col_name) pre ->
  exists total' run_ids',
    collect_files fs dataset_key run_id_col_name (pre ++ rest) total run_ids
    = collect_files fs dataset_key run_id_col_name rest total' run_ids'.
Proof.
  intros H. revert total run_ids.
  induction H as [|fpath pre [run_id Hrun] _ IH]; intros total run_ids.
  - exists total, run_ids. reflexivity.
  - rewrite <- app_comm_cons.
    destruct (collect_files_cons fpath (pre ++ rest) total run_ids run_id Hrun)
      as (n & _ & ->).
    apply IH.
Qed.

End Inventory.

Lemma int_truediv_nonzero (a b : Z) :
  b <> 0 -> exists q, int_truediv a b = OK q.
Proof.
  intros Hb. unfold int_truediv. destruct (Z.eqb_spec b 0); [contradiction|].
  destruct (a =? 0); eauto.
Qed.

Lemma get_number_of_evts_nonneg (fs : filesystem) (file dataset_key : string) (n : Z) :
  get_number_of_evts fs file dataset_key = OK n -> 0 <= n.
Proof.
  unfold get_number_of_evts, h5py_File, dict_getitem.
  destruct (fs !! file) as [f|]; [|discriminate]. cbn [mbind result_bind].
  destruct (f !! dataset_key) as [dset|]; [|discriminate]. cbn [mbind result_bind].
  intros [= <-]. unfold Py.len. lia.
Qed.

(** X8. The inventory of a group succeeds exactly when the file list is not
    empty and every file is readable: it exists, has the dataset, the
    dataset has at least one record, and the first record has the run id
    column. *)
Theorem inventory_succeeds_iff (fs : filesystem) (list_of_files : list string)
    (dataset_key run_id_col_name : string) :
  is_OK (get_number_of_evts_and_run_ids fs list_of_files dataset_key run_id_col_name)
    = true
  <-> list_of_files <> []
      /\ Forall (readable fs dataset_key run_id_col_name) list_of_files.
Proof.
  unfold get_number_of_evts_and_run_ids. split.
  - intros H.
    destruct (collect_files _ _ _ _ _ _) as [[total ids]|e] eqn:Hc; [|discriminate H].
    split; [|exact (collect_files_OK_inv _ _ _ _ _ _ _ Hc)].
    intros ->. discriminate H.
  - intros [Hne Hall].
    destruct (collect_files_readable fs dataset_key run_id_col_name list_of_files 0 []
                Hall) as (counts & ids & _ & _ & ->).
    cbn [mbind result_bind].
    destruct (int_truediv_nonzero (0 + sum_Z counts) (Py.len list_of_files))
      as [q ->]; [|reflexivity].
    destruct list_of_files; [congruence|]. unfold Py.len. cbn. lia.
Qed.

(** X9. What the inventory returns: the total is the sum of the event counts
    that [get_number_of_evts] gives file by file, none of them negative; the
    mean is Python's quotient of that total by the number of files, the
    exact quotient rounded once, which is the quotient of the two as floats
    where both are below [2^53]; and the run ids are those of the first
    record of each file, in file order. *)
Theorem inventory_values (fs : filesystem) (list_of_files : list string)
    (dataset_key run_id_col_name : string) (total : Z) (mean : f64)
    (run_ids : list Z) :
  get_number_of_evts_and_run_ids fs list_of_files dataset_key run_id_col_name
    = OK (total, mean, run_ids) ->
  exists counts,
    Forall2 (fun fpath n => get_number_of_evts fs fpath dataset_key = OK n)
      list_of_files counts
    /\ Forall (fun n => 0 <= n) counts
    /\ total = sum_Z counts
    /\ int_truediv total (Py.len list_of_files) = OK mean
    /\ (total < 2 ^ 53 -> Py.len list_of_files < 2 ^ 53 ->
        mean = F64.div (F64.of_Z total) (F64.of_Z (Py.len list_of_files)))
    /\ Forall2 (first_run_id fs dataset_key run_id_col_name) list_of_files run_ids.
Proof.
  unfold get_number_of_evts_and_run_ids. intros H.
  destruct (collect_files _ _ _ _ _ _) as [[total' ids]|e] eqn:Hc; [|discriminate H].
  pose proof (collect_files_OK_inv _ _ _ _ _ _ _ Hc) as Hall.
  destruct (collect_files_readable fs dataset_key run_id_col_name list_of_files 0 []
              Hall) as (counts & ids' & Hcounts & Hids & Heq).
  rewrite Hc in Heq. injection Heq as -> ->.
  cbn [mbind result_bind] in H.
  destruct (int_truediv (0 + sum_Z counts) (Py.len list_of_files)) as [q|e] eqn:Hq;
    [|discriminate H].
  injection H as <- <- <-.
  assert (Hnonneg : Forall (fun n => 0 <= n) counts).
  { clear -Hcounts. induction Hcounts as [|fpath n files counts Hn _ IH]; constructor.
    - exact (get_number_of_evts_nonneg _ _ _ _ Hn).
    - exact IH. }
  assert (Hlen : Py.len list_of_files <> 0).
  { intros H0. unfold int_truediv in Hq. rewrite H0 in Hq. discriminate Hq. }
  exists counts. split; [exact Hcounts|]. split; [exact Hnonneg|].
  split; [lia|]. split; [exact Hq|]. split; [|exact Hids].
  intros Htotal Hfiles.
  pose proof (sum_Z_nonneg counts Hnonneg) as Hsum.
  rewrite int_truediv_small in Hq.
  - injection Hq as <-. reflexivity.
  - lia.
  - unfold Py.len in *. lia.
Qed.

(** X10. The first file that cannot be read decides the outcome, whatever
    comes after it: a missing file gives [OSError], a file without the
    dataset [KeyError], a dataset without events [IndexError], and a first
    record without the run id column [ValueError]. *)
Theorem inventory_first_failure (fs : filesystem) (pre post : list string)
    (bad dataset_key run_id_col_name : string) :
  Forall (readable fs dataset_key run_id_col_name) pre ->
  (fs !! bad = None ->
     get_number_of_evts_and_run_ids fs (pre ++ bad :: post)
       dataset_key run_id_col_name = Raise OSError)
  /\ (forall f, fs !! bad = Some f -> f !! dataset_key = None ->
        get_number_of_evts_and_run_ids fs (pre ++ bad :: post)
          dataset_key run_id_col_name = Raise KeyError)
  /\ (forall f, fs !! bad = Some f -> f !! dataset_key = Some [] ->
        get_number_of_evts_and_run_ids fs (pre ++ bad :: post)
          dataset_key run_id_col_name = Raise IndexError)
  /\ (forall f row rest,
        fs !! bad = Some f -> f !! dataset_key = Some (row :: rest) ->
        row !! run_id_col_name = None ->
        get_number_of_evts_and_run_ids fs (pre ++ bad :: post)
          dataset_key run_id_col_name = Raise ValueError).
Proof.
  intros Hpre. unfold get_number_of_evts_and_run_ids.
  destruct (collect_files_prefix fs dataset_key run_id_col_name pre (bad :: post) 0 []
              Hpre) as (total' & ids' & ->).
  cbn [collect_files]. unfold h5py_File, dict_getitem, record_getitem.
  repeat split.
  - intros ->. reflexivity.
  - intros f -> Hd. cbn [mbind result_bind]. rewrite Hd. reflexivity.
  - intros f -> Hd. cbn [mbind result_bind]. rewrite Hd. reflexivity.
  - intros f row rest -> Hd Hr. cbn [mbind result_bind]. rewrite Hd.
    cbn [mbind result_bind]. change (Py.getitem (row :: rest) 0) with (OK row).
    cbn [mbind result_bind]. rewrite Hr. reflexivity.
Qed.

(** *** The sample files *)

Lemma two_files_readable : Forall (readable two_files "y" "run_id") ["a.h5"; "b.h5"].
Proof.
  repeat constructor.
  - exists 7. eexists _, _, _. repeat split; reflexivity.
  - exists 9. eexists _, _, _. repeat split; reflexivity.
Qed.

Lemma a_file_readable : Forall (readable three_files "y" "run_id") ["a.h5"].
Proof.
  repeat constructor. exists 7. eexists _, _, _. repeat split; reflexivity.
Qed.

Lemma inventory_succeeds_iff_witness :
  is_OK (get_number_of_evts_and_run_ids two_files ["a.h5"; "b.h5"] "y" "run_id") = true
  /\ ["a.h5"; "b.h5"] <> []
  /\ Forall (readable two_files "y" "run_id") ["a.h5"; "b.h5"].
Proof.
  assert (H : ["a.h5"; "b.h5"] <> [] /\
              Forall (readable two_files "y" "run_id") ["a.h5"; "b.h5"])
    by (split; [discriminate|exact two_files_readable]).
  split; [|exact H].
  exact (proj2 (inventory_succeeds_iff two_files ["a.h5"; "b.h5"] "y" "run_id") H).
Defined.

Lemma inventory_values_witness :
  get_number_of_evts_and_run_ids two_files ["a.h5"; "b.h5"] "y" "run_id"
    = OK (4, F64.of_Z 2, [7; 9])
  /\ exists counts,
       Forall2 (fun fpath n => get_number_of_evts two_files fpath "y" = OK n)
         ["a.h5"; "b.h5"] counts
       /\ Forall (fun n => 0 <= n) counts
       /\ 4 = sum_Z counts
       /\ int_truediv 4 (Py.len ["a.h5"; "b.h5"]) = OK (F64.of_Z 2)
       /\ (4 < 2 ^ 53 -> Py.len ["a.h5"; "b.h5"] < 2 ^ 53 ->
           F64.of_Z 2 = F64.div (F64.of_Z 4) (F64.of_Z (Py.len ["a.h5"; "b.h5"])))
       /\ Forall2 (first_run_id two_files "y" "run_id") ["a.h5"; "b.h5"] [7; 9].
Proof.
  assert (H : get_number_of_evts_and_run_ids two_files ["a.h5"; "b.h5"] "y" "run_id"
              = OK (4, F64.of_Z 2, [7; 9])) by (vm_compute; reflexivity).
  split; [exact H|].
  exact (inventory_values two_files ["a.h5"; "b.h5"] "y" "run_id" 4 (F64.of_Z 2)
           [7; 9] H).
Defined.

Lemma inventory_first_failure_witness :
  Forall (readable three_files "y" "run_id") ["a.h5"]
  /\ three_files !! "empty.h5" = Some (<["y" := []]> ∅)
  /\ (<["y" := []]> ∅ : gmap string (list (gmap string Z))) !! "y" = Some []
  /\ get_number_of_evts_and_run_ids three_files (["a.h5"] ++ "empty.h5" :: ["b.h5"])
       "y" "run_id" = Raise IndexError.
Proof.
  assert (H1 : three_files !! "empty.h5" = Some (<["y" := []]> ∅)) by reflexivity.
  assert (H2 : (<["y" := []]> ∅ : gmap string (list (gmap string Z))) !! "y" = Some [])
    by reflexivity.
  split; [exact a_file_readable|]. split; [exact H1|]. split; [exact H2|].
  exact (proj1 (proj2 (proj2 (inventory_first_failure three_files ["a.h5"] ["b.h5"]
                                "empty.h5" "y" "run_id" a_file_readable)))
           _ H1 H2).
Defined.

(** ** More on the hit assembler *)

Lemma row_of_columns (records : list (string -> f64)) (names : list string)
    (i : nat) (r : string -> f64) :
  records !! i = Some r ->
  Np.row {| Np.shape0 := length records;
            Np.columns := field_column records <$> names |} i
  = r <$> names.
Proof.
  intros Hr. unfold Np.row. cbn [Np.columns].
  induction names as [|name names IH]; [reflexivity|].
  cbn. unfold field_column at 1. rewrite list_lookup_fmap, Hr. cbn.
  f_equal. exact IH.
Qed.

(** The rows of a hit matrix are the rows of its records, in order. *)
Lemma rows_hit_matrix (records : list (string -> f64)) (with_channel_id : bool) :
  Np.rows (hit_matrix records with_channel_id)
  = hit_row with_channel_id <$> records.
Proof.
  unfold Np.rows, hit_matrix. cbn [Np.shape0].
  apply list_eq. intros i. rewrite !list_lookup_fmap.
  destruct (records !! i) as [r|] eqn:Hr.
  - rewrite lookup_seq_lt by (eapply lookup_lt_Some, Hr).
    cbn [fmap option_fmap option_map]. f_equal.
    exact (row_of_columns records _ i r Hr).
  - rewrite lookup_seq_ge by (apply lookup_ge_None; exact Hr). reflexivity.
Qed.

(** X11. The hit matrix is well formed: it has five or six columns, each as
    long as the matrix has rows, and every row has as many entries as there
    are columns. *)
Theorem hit_matrix_shape (event_blob : blob) (geo : option Geometry)
    (do_mc_hits : bool) (data_cuts : gmap string cut) (do4d : bool * string)
    (m : Np.ndarray2) :
  outcome (get_hits event_blob geo do_mc_hits data_cuts do4d) = OK m ->
  (Np.shape1 m = 5%nat \/ Np.shape1 m = 6%nat)
  /\ Forall (fun column => length column = Np.shape0 m) (Np.columns m)
  /\ length (Np.rows m) = Np.shape0 m
  /\ Forall (fun row => length row = Np.shape1 m) (Np.rows m).
Proof.
  intros H. apply get_hits_inv in H as (c & names & records & _ & _ & _ & ->).
  fold (hit_matrix records (wants_channel_id do4d)).
  rewrite rows_hit_matrix. unfold hit_matrix, Np.shape1. cbn [Np.shape0 Np.columns].
  split; [destruct (wants_channel_id do4d); auto|].
  split; [|split].
  - rewrite Forall_fmap. apply Forall_forall. intros name _. cbn.
    unfold field_column. apply length_fmap.
  - apply length_fmap.
  - rewrite Forall_fmap. apply Forall_forall. intros r _. cbn.
    unfold hit_row. rewrite !length_fmap. reflexivity.
Qed.

Lemma hit_matrix_shape_witness :
  outcome (get_hits (calibrated_blob three_hits []) None false
             (sample_cuts false) (true, "channel_id"))
    = OK three_hits_with_channel
  /\ (Np.shape1 three_hits_with_channel = 5%nat
      \/ Np.shape1 three_hits_with_channel = 6%nat)
  /\ Forall (fun column => length column = Np.shape0 three_hits_with_channel)
       (Np.columns three_hits_with_channel)
  /\ length (Np.rows three_hits_with_channel)
     = Np.shape0 three_hits_with_channel
  /\ Forall (fun row => length row = Np.shape1 three_hits_with_channel)
       (Np.rows three_hits_with_channel).
Proof.
  assert (H : outcome (get_hits (calibrated_blob three_hits []) None false
                         (sample_cuts false) (true, "channel_id"))
              = OK three_hits_with_channel) by (vm_compute; reflexivity).
  split; [exact H|]. exact (hit_matrix_shape _ _ _ _ _ _ H).
Defined.

(** X12. On a calibrated event and with the triggered-only cut off, the hit
    matrix has one row per hit, in the order of the hit table, and the row
    of a hit is its pos_x, pos_y, pos_z, time and triggered fields,
    followed by its channel_id when that column is asked for. *)
Theorem hit_rows_follow_the_table (event_blob : blob) (geo : option Geometry)
    (data_cuts : gmap string cut) (do4d : bool * string)
    (names : list string) (records : list (string -> f64)) (c : cut) :
  event_blob !! KStr "Hits" = Some (VTable names records) ->
  Forall (fun name => name ∈ names) (hit_columns ++ ["channel_id"]) ->
  data_cuts !! "triggered" = Some c ->
  is_True c = false ->
  exists m,
    get_hits event_blob geo false data_cuts do4d = ([], OK m)
    /\ Np.shape0 m = length records
    /\ Np.rows m = hit_row (wants_channel_id do4d) <$> records.
Proof.
  intros Hhits Hnames Hcut Hoff. eexists. split; [|split].
  - apply (get_hits_calibrated _ geo _ do4d _ _ c Hhits Hnames Hcut Hoff).
  - reflexivity.
  - apply rows_hit_matrix.
Qed.

(** X13. The triggered-only cut filters nothing: with a cut that is truthy
    [get_hits] returns no matrix, whatever the event, the geometry and the
    flags, and on a calibrated event what it raises is the [TypeError] of
    subscripting the bound method [__array__]. *)
Theorem triggered_cut_never_returns (event_blob : blob) (geo : option Geometry)
    (do_mc_hits : bool) (data_cuts : gmap string cut) (do4d : bool * string)
    (c : cut) :
  data_cuts !! "triggered" = Some c ->
  is_True c = true ->
  (forall m, outcome (get_hits event_blob geo do_mc_hits data_cuts do4d) <> OK m)
  /\ (forall names records,
        event_blob !! KStr "Hits" = Some (VTable names records) ->
        "pos_x" ∈ names -> "triggered" ∈ names ->
        get_hits event_blob geo false data_cuts do4d = ([], Raise TypeError)).
Proof.
  intros Hcut Hon. split.
  - intros m H. apply get_hits_inv in H as (c' & _ & _ & Hc' & Hoff & _).
    rewrite Hcut in Hc'. injection Hc' as <-. congruence.
  - intros names records Hhits Hx Ht.
    exact (get_hits_cut_on _ geo _ do4d _ _ c Hhits Hx Ht Hcut Hon).
Qed.

Lemma hit_columns_in_calibrated_names :
  Forall (fun name => name ∈ calibrated_names) (hit_columns ++ ["channel_id"]).
Proof. apply (bool_decide_unpack _). vm_compute. exact I. Qed.

Lemma hit_rows_follow_the_table_witness :
  calibrated_blob three_hits [] !! KStr "Hits" = Some (VTable calibrated_names three_hits)
  /\ Forall (fun name => name ∈ calibrated_names) (hit_columns ++ ["channel_id"])
  /\ sample_cuts false !! "triggered" = Some (CutBool false)
  /\ is_True (CutBool false) = false
  /\ exists m,
       get_hits (calibrated_blob three_hits []) None false (sample_cuts false)
         (true, "channel_id") = ([], OK m)
       /\ Np.shape0 m = length three_hits
       /\ Np.rows m = hit_row (wants_channel_id (true, "channel_id")) <$> three_hits.
Proof.
  assert (H1 : calibrated_blob three_hits [] !! KStr "Hits"
               = Some (VTable calibrated_names three_hits)) by reflexivity.
  assert (H3 : sample_cuts false !! "triggered" = Some (CutBool false)) by reflexivity.
  assert (H4 : is_True (CutBool false) = false) by reflexivity.
  split; [exact H1|]. split; [exact hit_columns_in_calibrated_names|].
  split; [exact H3|]. split; [exact H4|].
  exact (hit_rows_follow_the_table _ None _ (true, "channel_id") _ _ _
           H1 hit_columns_in_calibrated_names H3 H4).
Defined.

Lemma triggered_cut_never_returns_witness :
  sample_cuts true !! "triggered" = Some (CutBool true)
  /\ is_True (CutBool true) = true
  /\ outcome (get_hits (raw_blob three_hits) (Some sample_geo) true
                (sample_cuts true) (false, "time"))
     <> OK {| Np.shape0 := 3; Np.columns := field_column three_hits <$> hit_columns |}
  /\ get_hits (calibrated_blob three_hits []) None false (sample_cuts true)
       (false, "time") = ([], Raise TypeError).
Proof.
  assert (H1 : sample_cuts true !! "triggered" = Some (CutBool true)) by reflexivity.
  assert (H2 : is_True (CutBool true) = true) by reflexivity.
  assert (H3 : calibrated_blob three_hits [] !! KStr "Hits"
               = Some (VTable calibrated_names three_hits)) by reflexivity.
  assert (H4 : "pos_x" ∈ calibrated_names)
    by (apply (bool_decide_unpack _); vm_compute; exact I).
  assert (H5 : "triggered" ∈ calibrated_names)
    by (apply (bool_decide_unpack _); vm_compute; exact I).
  split; [exact H1|]. split; [exact H2|]. split.
  - exact (proj1 (triggered_cut_never_returns (raw_blob three_hits) (Some sample_geo)
                    true (sample_cuts true) (false, "time") _ H1 H2) _).
  - exact (proj2 (triggered_cut_never_returns (calibrated_blob three_hits []) None
                    false (sample_cuts true) (false, "time") _ H1 H2) _ _ H3 H4 H5).
Defined.

(** X14. What [get_hits] needs in order to return: the table selected by the
    flag, a table under [Hits] also when the simulated hits are selected, a
    geometry when that table has no pos_x column, and the key
    ['triggered'] in the cuts. *)
Theorem get_hits_requires (event_blob : blob) (geo : option Geometry)
    (do_mc_hits : bool) (data_cuts : gmap string cut) (do4d : bool * string)
    (m : Np.ndarray2) :
  outcome (get_hits event_blob geo do_mc_hits data_cuts do4d) = OK m ->
  is_Some (event_blob !! KStr (if do_mc_hits then "McHits" else "Hits"))
  /\ (exists names records,
        event_blob !! KStr "Hits" = Some (VTable names records)
        /\ ("pos_x" ∉ names -> is_Some geo))
  /\ is_Some (data_cuts !! "triggered").
Proof.
  intros H.
  pose proof (get_hits_inv _ _ _ _ _ _ H) as (c & _ & _ & Hc & _).
  unfold get_hits in H.
  rewrite outcome_bind in H. apply bind_OK_inv in H as (sel & Hsel & H).
  rewrite outcome_bind in H. apply bind_OK_inv in H as (tnames & Hnames & H).
  rewrite outcome_bind in H. apply bind_OK_inv in H as (hits & Hcal & _).
  split; [|split].
  - unfold lift, outcome, blob_getitem in Hsel. cbn [snd] in Hsel.
    destruct do_mc_hits; cbn [negb] in Hsel;
      destruct (event_blob !! _); [eauto|discriminate|eauto|discriminate].
  - unfold lift, outcome, blob_getitem in Hnames. cbn [snd] in Hnames.
    destruct (event_blob !! KStr "Hits") as [[names records| | |]|];
      try discriminate Hnames.
    injection Hnames as <-. exists names, records. split; [reflexivity|].
    intros Hraw. rewrite (bool_decide_true _ Hraw) in Hcal.
    destruct geo; [eauto|discriminate Hcal].
  - rewrite Hc. eauto.
Qed.

Lemma get_hits_requires_witness :
  outcome (get_hits (raw_blob three_hits) (Some sample_geo) true
             (sample_cuts false) (false, "time"))
    = OK {| Np.shape0 := 3; Np.columns := field_column three_hits <$> hit_columns |}
  /\ is_Some (raw_blob three_hits !! KStr (if true then "McHits" else "Hits"))
  /\ (exists names records,
        raw_blob three_hits !! KStr "Hits" = Some (VTable names records)
        /\ ("pos_x" ∉ names -> is_Some (Some sample_geo)))
  /\ is_Some (sample_cuts false !! "triggered").
Proof.
  assert (H : outcome (get_hits (raw_blob three_hits) (Some sample_geo) true
                         (sample_cuts false) (false, "time"))
              = OK {| Np.shape0 := 3;
                      Np.columns := field_column three_hits <$> hit_columns |})
    by (vm_compute; reflexivity).
  split; [exact H|]. exact (get_hits_requires _ _ _ _ _ _ H).
Defined.

(** ** More on the track assembler *)

Lemma get_tracks_tail (event_blob : blob) (file_particle_type : string)
    (event_hits : Np.ndarray2) (prod_ident : option Z) :
  get_tracks event_blob file_particle_type event_hits prod_ident
  = (track ← get_tracks event_blob file_particle_type event_hits None;
     OK (track ++ prod_ident_tail prod_ident)).
Proof.
  unfold get_tracks.
  destruct (event_id_and_run_id event_blob) as [[event_id run_id]|e]; [|reflexivity].
  cbn [mbind result_bind].
  destruct (if bool_decide (file_particle_type = "undefined") then _ else _)
    as [track|e]; [|reflexivity].
  cbn [mbind result_bind]. destruct prod_ident; cbn [prod_ident_tail].
  - reflexivity.
  - rewrite app_nil_r. reflexivity.
Qed.

Lemma muon_track_length (event_blob : blob) (event_id run_id : f64) track :
  muon_track event_blob event_id run_id = OK track -> length track = 14%nat.
Proof.
  unfold muon_track. intros H. do 12 bind_inv H. injection H as <-. reflexivity.
Qed.

Lemma neutrino_track_length (event_blob : blob) (event_hits : Np.ndarray2)
    (event_id run_id : f64) track :
  neutrino_track event_blob event_hits event_id run_id = OK track ->
  length track = 14%nat.
Proof.
  unfold neutrino_track. intros H. do 15 bind_inv H. injection H as <-. reflexivity.
Qed.

(** X15. The length of a track vector depends on the particle type and on the
    presence of a production identifier only: 3 entries for ['undefined'],
    14 for ['muon'] and ['neutrino'], and one more, the identifier, at the
    end when it is given. No other type gets a vector. *)
Theorem track_length (event_blob : blob) (file_particle_type : string)
    (event_hits : Np.ndarray2) (prod_ident : option Z) (track : list f64) :
  get_tracks event_blob file_particle_type event_hits prod_ident = OK track ->
  ((file_particle_type = "undefined"
    /\ length track = (3 + length (prod_ident_tail prod_ident))%nat)
   \/ ((file_particle_type = "muon" \/ file_particle_type = "neutrino")
       /\ length track = (14 + length (prod_ident_tail prod_ident))%nat))
  /\ forall p, prod_ident = Some p -> last track = Some (F64.of_Z p).
Proof.
  rewrite get_tracks_tail. intros H. bind_inv H. injection H as <-.
  split.
  - rewrite length_app. unfold get_tracks in Hx. bind_inv Hx.
    destruct x0 as [event_id run_id]. bind_inv Hx. injection Hx as <-.
    case_bool_decide as H1.
    { left. injection Hx1 as <-. split; [exact H1|reflexivity]. }
    case_bool_decide as H2.
    { right. rewrite (muon_track_length _ _ _ _ Hx1). auto. }
    case_bool_decide as H3; [|discriminate Hx1].
    right. rewrite (neutrino_track_length _ _ _ _ _ Hx1). auto.
  - intros p ->. cbn [prod_ident_tail]. apply last_snoc.
Qed.

Lemma track_length_witness :
  get_tracks (calibrated_blob three_hits neutrino_tracks) "neutrino"
    three_hits_with_channel (Some 3)
    = OK [F64.of_Z 5; F64.of_Z 14; F64.of_Z 20; F64.of_Z 1; quarter;
          F64.of_Z 0; F64.of_Z 0; F64.of_Z 1; F64.of_Z 50; F64.of_Z 100;
          F64.of_Z 20; F64.of_Z 21; F64.of_Z 22; F64.of_Z 60; F64.of_Z 3]
  /\ forall p, Some 3 = Some p ->
       last [F64.of_Z 5; F64.of_Z 14; F64.of_Z 20; F64.of_Z 1; quarter;
             F64.of_Z 0; F64.of_Z 0; F64.of_Z 1; F64.of_Z 50; F64.of_Z 100;
             F64.of_Z 20; F64.of_Z 21; F64.of_Z 22; F64.of_Z 60; F64.of_Z 3]
       = Some (F64.of_Z p).
Proof.
  assert (H : get_tracks (calibrated_blob three_hits neutrino_tracks) "neutrino"
                three_hits_with_channel (Some 3)
              = OK [F64.of_Z 5; F64.of_Z 14; F64.of_Z 20; F64.of_Z 1; quarter;
                    F64.of_Z 0; F64.of_Z 0; F64.of_Z 1; F64.of_Z 50; F64.of_Z 100;
                    F64.of_Z 20; F64.of_Z 21; F64.of_Z 22; F64.of_Z 60; F64.of_Z 3])
    by (vm_compute; reflexivity).
  split; [exact H|]. exact (proj2 (track_length _ _ _ _ _ H)).
Defined.

(** X16. The track of an ['undefined'] event is the event id, the run id and
    a zero, followed by the production identifier when there is one,
    whatever the hits and the truth tracks of the event. The event id is
    the first entry of the event_id column of [EventInfo]; the run id is
    read from [Header] whenever the blob has one, from the first entry of
    [RawHeader] otherwise, and cast to float32. A blob with neither has no
    track of any type: [KeyError]. *)
Theorem undefined_track (event_blob : blob) (event_hits : Np.ndarray2)
    (prod_ident : option Z) (names : list string)
    (first : string -> f64) (rest : list (string -> f64)) :
  event_blob !! KStr "EventInfo" = Some (VTable names (first :: rest)) ->
  "event_id" ∈ names ->
  (forall run_id,
     event_blob !! KStr "Header" = Some (VHeader run_id) ->
     get_tracks event_blob "undefined" event_hits prod_ident
     = OK ([first "event_id"; F64.astype_float32 run_id; F64.of_Z 0]
           ++ prod_ident_tail prod_ident))
  /\ (forall run_id row rows,
        event_blob !! KStr "Header" = None ->
        event_blob !! KStr "RawHeader" = Some (VArray ((run_id :: row) :: rows)) ->
        get_tracks event_blob "undefined" event_hits prod_ident
        = OK ([first "event_id"; F64.astype_float32 run_id; F64.of_Z 0]
              ++ prod_ident_tail prod_ident))
  /\ (event_blob !! KStr "Header" = None ->
      event_blob !! KStr "RawHeader" = None ->
      forall file_particle_type,
        get_tracks event_blob file_particle_type event_hits prod_ident
        = Raise KeyError).
Proof.
  intros Hinfo Hin.
  assert (Hid :
    event_id_and_run_id event_blob
    = (run_id ← (if bool_decide (is_Some (event_blob !! KStr "Header")) then
                   h ← blob_getitem event_blob (KStr "Header");
                   r ← start_run_run_id h;
                   OK (F64.astype_float32 r)
                 else
                   a ← blob_getitem event_blob (KStr "RawHeader");
                   r ← getitem_0_0 a;
                   OK (F64.astype_float32 r));
       OK (first "event_id", run_id))).
  { unfold event_id_and_run_id, blob_getitem. rewrite Hinfo.
    cbn [mbind result_bind getattr]. rewrite (bool_decide_true _ Hin). reflexivity. }
  split; [|split].
  - intros run_id Hh.
    rewrite get_tracks_tail. unfold get_tracks. rewrite Hid. unfold blob_getitem.
    rewrite Hh, (bool_decide_true (is_Some (Some _))) by eauto. reflexivity.
  - intros run_id row rows Hh Hraw.
    rewrite get_tracks_tail. unfold get_tracks. rewrite Hid. unfold blob_getitem.
    rewrite Hh, Hraw.
    rewrite (bool_decide_false (is_Some None)) by apply is_Some_None. reflexivity.
  - intros Hh Hraw file_particle_type.
    rewrite get_tracks_tail. unfold get_tracks. rewrite Hid. unfold blob_getitem.
    rewrite Hh, Hraw.
    rewrite (bool_decide_false (is_Some None)) by apply is_Some_None. reflexivity.
Qed.

Lemma undefined_track_witness :
  calibrated_blob three_hits [] !! KStr "EventInfo"
    = Some (VTable ["event_id"] [record_of [("event_id", F64.of_Z 5)]])
  /\ "event_id" ∈ ["event_id"]
  /\ calibrated_blob three_hits [] !! KStr "Header" = Some (VHeader (F64.of_Z 100))
  /\ get_tracks (calibrated_blob three_hits []) "undefined" three_hits_with_channel None
     = OK ([record_of [("event_id", F64.of_Z 5)] "event_id";
            F64.astype_float32 (F64.of_Z 100); F64.of_Z 0]
           ++ prod_ident_tail None).
Proof.
  assert (H1 : calibrated_blob three_hits [] !! KStr "EventInfo"
               = Some (VTable ["event_id"] [record_of [("event_id", F64.of_Z 5)]]))
    by reflexivity.
  assert (H2 : "event_id" ∈ ["event_id"]) by left.
  assert (H3 : calibrated_blob three_hits [] !! KStr "Header"
               = Some (VHeader (F64.of_Z 100))) by reflexivity.
  split; [exact H1|]. split; [exact H2|]. split; [exact H3|].
  exact (proj1 (undefined_track _ three_hits_with_channel None _ _ _ H1 H2) _ H3).
Defined.

(** X17. A muon event needs a muon: when the truth-track table has fewer than
    two records, reading the record of index 1 fails and [get_tracks] raises
    [IndexError]. *)
Theorem muon_track_without_muon (event_blob : blob) (event_hits : Np.ndarray2)
    (prod_ident : option Z) (names : list string)
    (records : list (string -> f64)) (event_id run_id : f64) :
  event_id_and_run_id event_blob = OK (event_id, run_id) ->
  event_blob !! KStr "McTracks" = Some (VTable names records) ->
  (length records < 2)%nat ->
  get_tracks event_blob "muon" event_hits prod_ident = Raise IndexError.
Proof.
  intros Hid Hmc Hlen. rewrite get_tracks_muon, Hid. cbn [mbind result_bind].
  unfold muon_track, mc_track_field, blob_getitem. rewrite Hmc.
  cbn [mbind result_bind record_field].
  change 1 with (Z.of_nat 1). rewrite getitem_of_nat.
  rewrite lookup_ge_None_2 by lia. reflexivity.
Qed.

Lemma muon_track_without_muon_witness :
  event_id_and_run_id (calibrated_blob three_hits sentinel_only_tracks)
    = OK (F64.of_Z 5, F64.of_Z 100)
  /\ calibrated_blob three_hits sentinel_only_tracks !! KStr "McTracks"
     = Some (VTable track_names sentinel_only_tracks)
  /\ (length sentinel_only_tracks < 2)%nat
  /\ get_tracks (calibrated_blob three_hits sentinel_only_tracks) "muon"
       three_hits_with_channel None
     = Raise IndexError.
Proof.
  assert (H1 : event_id_and_run_id (calibrated_blob three_hits sentinel_only_tracks)
               = OK (F64.of_Z 5, F64.of_Z 100)) by (vm_compute; reflexivity).
  assert (H2 : calibrated_blob three_hits sentinel_only_tracks !! KStr "McTracks"
               = Some (VTable track_names sentinel_only_tracks)) by reflexivity.
  assert (H3 : (length sentinel_only_tracks < 2)%nat) by (cbn; lia).
  split; [exact H1|]. split; [exact H2|]. split; [exact H3|].
  exact (muon_track_without_muon _ three_hits_with_channel None _ _ _ _ H1 H2 H3).
Defined.

Lemma slice_from_1 {A : Type} (l : list A) : Py.slice l 1 (Py.len l) = drop 1 l.
Proof.
  destruct l as [|x l]; [reflexivity|].
  rewrite slice_inside by (unfold Py.len; cbn [length]; lia).
  apply take_ge. rewrite length_drop. unfold Py.len. lia.
Qed.

(** X18. What the muon branch computes once [event_blob[4]] resolves to a
    blob with a truth-track table: the type, flags, direction and time of
    the record of index 1, the energy summed over all records of the
    event's table, the sentinel included, the number of records minus one,
    and as vertex the average of the positions of the records from index 1
    on, weighted with the energies of the table found under the key 4. *)
Theorem muon_track_with_key_4 (event_blob : blob) (event_hits : Np.ndarray2)
    (prod_ident : option Z) (names : list string)
    (records : list (string -> f64)) (event_id run_id : f64)
    (first_muon : string -> f64) (blob_4 : blob) (names_4 : list string)
    (records_4 : list (string -> f64)) :
  event_id_and_run_id event_blob = OK (event_id, run_id) ->
  event_blob !! KStr "McTracks" = Some (VTable names records) ->
  Forall (fun name => name ∈ names) track_fields ->
  records !! 1%nat = Some first_muon ->
  event_blob !! KInt 4 = Some (VBlob blob_4) ->
  blob_4 !! KStr "McTracks" = Some (VTable names_4 records_4) ->
  "energy" ∈ names_4 ->
  length records = length records_4 ->
  F64.eqb (Np.sum (field_column (drop 1 records_4) "energy")) F64.zero = false ->
  get_tracks event_blob "muon" event_hits prod_ident
  = OK ([event_id; first_muon "type"; Np.sum (field_column records "energy");
         first_muon "is_cc"; first_muon "bjorkeny";
         first_muon "dir_x"; first_muon "dir_y"; first_muon "dir_z";
         first_muon "time"; run_id;
         weighted_mean (field_column (drop 1 records) "pos_x")
           (field_column (drop 1 records_4) "energy");
         weighted_mean (field_column (drop 1 records) "pos_y")
           (field_column (drop 1 records_4) "energy");
         weighted_mean (field_column (drop 1 records) "pos_z")
           (field_column (drop 1 records_4) "energy");
         F64.of_Z (Py.len records - 1)]
        ++ prod_ident_tail prod_ident).
Proof.
  intros Hid Hmc Hnames Hr H4 Hmc4 He4 Hlen Hsum.
  rewrite get_tracks_tail, get_tracks_muon, Hid. cbn [mbind result_bind].
  unfold muon_track. change 1 with (Z.of_nat 1).
  rewrite !(mc_track_field_at _ _ _ Hmc 1 first_muon _ Hr).
  unfold mc_tracks_from_1, blob_4_mc_tracks_from_1_energy, blob_getitem.
  rewrite Hmc, H4. cbn [mbind result_bind value_getitem]. unfold blob_getitem.
  rewrite Hmc4.
  unfold track_fields in Hnames.
  repeat match goal with
         | H : Forall _ (_ :: _) |- _ => apply Forall_cons in H as [? H]
         end.
  cbn [mbind result_bind shape_0 getattr slice_from].
  change (Z.of_nat 1) with 1. rewrite !slice_from_1.
  rewrite !bool_decide_true by assumption. cbn [mbind result_bind].
  unfold Np.average.
  rewrite !bool_decide_true
    by (unfold field_column; rewrite !length_fmap, !length_drop, Hlen; reflexivity).
  fold (field_column (drop 1 records_4) "energy").
  rewrite Hsum. reflexivity.
Qed.

Lemma track_fields_in_track_names :
  Forall (fun name => name ∈ track_names) track_fields.
Proof. apply (bool_decide_unpack _). vm_compute. exact I. Qed.

Lemma muon_track_with_key_4_witness :
  event_id_and_run_id muon_blob_with_key_4 = OK (F64.of_Z 5, F64.of_Z 100)
  /\ muon_blob_with_key_4 !! KStr "McTracks" = Some (VTable track_names muon_tracks)
  /\ Forall (fun name => name ∈ track_names) track_fields
  /\ muon_tracks !! 1%nat = Some (track 13 10 1 F64.zero 5 10)
  /\ muon_blob_with_key_4 !! KInt 4
     = Some (VBlob (calibrated_blob three_hits muon_tracks))
  /\ calibrated_blob three_hits muon_tracks !! KStr "McTracks"
     = Some (VTable track_names muon_tracks)
  /\ "energy" ∈ track_names
  /\ length muon_tracks = length muon_tracks
  /\ F64.eqb (Np.sum (field_column (drop 1 muon_tracks) "energy")) F64.zero = false
  /\ exists track,
       get_tracks muon_blob_with_key_4 "muon" three_hits_with_channel None = OK track
       /\ track !! 2%nat = Some (F64.of_Z 40)
       /\ track !! 10%nat = Some (F64.of_Z 25)
       /\ track !! 13%nat = Some (F64.of_Z 2).
Proof.
  assert (H1 : event_id_and_run_id muon_blob_with_key_4
               = OK (F64.of_Z 5, F64.of_Z 100)) by (vm_compute; reflexivity).
  assert (H2 : muon_blob_with_key_4 !! KStr "McTracks"
               = Some (VTable track_names muon_tracks)) by reflexivity.
  assert (H4 : muon_tracks !! 1%nat = Some (track 13 10 1 F64.zero 5 10))
    by reflexivity.
  assert (H5 : muon_blob_with_key_4 !! KInt 4
               = Some (VBlob (calibrated_blob three_hits muon_tracks)))
    by reflexivity.
  assert (H6 : calibrated_blob three_hits muon_tracks !! KStr "McTracks"
               = Some (VTable track_names muon_tracks)) by reflexivity.
  assert (H7 : "energy" ∈ track_names)
    by (apply (bool_decide_unpack _); vm_compute; exact I).
  assert (H8 : length muon_tracks = length muon_tracks) by reflexivity.
  assert (H9 : F64.eqb (Np.sum (field_column (drop 1 muon_tracks) "energy"))
                 F64.zero = false) by (vm_compute; reflexivity).
  split; [exact H1|]. split; [exact H2|]. split; [exact track_fields_in_track_names|].
  split; [exact H4|]. split; [exact H5|]. split; [exact H6|]. split; [exact H7|].
  split; [exact H8|]. split; [exact H9|].
  eexists. split.
  - exact (muon_track_with_key_4 _ three_hits_with_channel None _ _ _ _ _ _ _ _
             H1 H2 track_fields_in_track_names H4 H5 H6 H7 H8 H9).
  - repeat split; vm_compute; reflexivity.
Defined.

(** X19. The layout of the track vector of a neutrino event: the event id,
    then type, energy, is_cc, bjorkeny, direction and time of the primary
    record, the run id, the position of the primary record, the time
    residual, and the production identifier when there is one. *)
Theorem neutrino_track_layout (event_blob : blob) (event_hits : Np.ndarray2)
    (prod_ident : option Z) (names : list string)
    (records : list (string -> f64)) (event_id run_id : f64)
    (hits_time triggered : list f64) :
  event_id_and_run_id event_blob = OK (event_id, run_id) ->
  event_blob !! KStr "McTracks" = Some (VTable names records) ->
  Forall (fun name => name ∈ names) track_fields ->
  Exists (fun r => nonzero (r "bjorkeny") = true) records ->
  Np.column event_hits 3 = OK hits_time ->
  Np.column event_hits 4 = OK triggered ->
  length hits_time = length triggered ->
  exists (i : nat) r,
    get_primary_track_index event_blob = OK (Z.of_nat i)
    /\ records !! i = Some r
    /\ get_tracks event_blob "neutrino" event_hits prod_ident
       = OK ([event_id; r "type"; r "energy"; r "is_cc"; r "bjorkeny";
              r "dir_x"; r "dir_y"; r "dir_z"; r "time"; run_id;
              r "pos_x"; r "pos_y"; r "pos_z";
              F64.sub (Np.mean (Np.select hits_time
                                  ((fun t => F64.eqb t F64.one) <$> triggered)))
                      (r "time")]
             ++ prod_ident_tail prod_ident).
Proof.
  intros Hid Hmc Hnames Hex Htime Htrig Hlen.
  destruct (primary_index_found _ _ _ Hmc (track_fields_bjorkeny _ Hnames) Hex)
    as [p Hp].
  destruct (primary_index_first _ _ _ Hmc p Hp) as (i & r & -> & Hr & _ & _).
  exists i, r. split; [exact Hp|]. split; [exact Hr|].
  rewrite get_tracks_tail, get_tracks_neutrino, Hid. cbn [mbind result_bind].
  rewrite (neutrino_track_returns _ event_hits _ _ event_id run_id i r _ _
             Hmc Hnames Hp Hr Htime Htrig Hlen).
  reflexivity.
Qed.

Lemma neutrino_track_layout_witness :
  event_id_and_run_id (calibrated_blob three_hits neutrino_tracks)
    = OK (F64.of_Z 5, F64.of_Z 100)
  /\ calibrated_blob three_hits neutrino_tracks !! KStr "McTracks"
     = Some (VTable track_names neutrino_tracks)
  /\ Forall (fun name => name ∈ track_names) track_fields
  /\ Exists (fun r => nonzero (r "bjorkeny") = true) neutrino_tracks
  /\ Np.column three_hits_with_channel 3 = OK (field_column three_hits "time")
  /\ Np.column three_hits_with_channel 4 = OK (field_column three_hits "triggered")
  /\ length (field_column three_hits "time")
     = length (field_column three_hits "triggered")
  /\ exists (i : nat) r,
       get_primary_track_index (calibrated_blob three_hits neutrino_tracks)
         = OK (Z.of_nat i)
       /\ neutrino_tracks !! i = Some r
       /\ i = 1%nat
       /\ get_tracks (calibrated_blob three_hits neutrino_tracks) "neutrino"
            three_hits_with_channel (Some 2)
          = OK [F64.of_Z 5; F64.of_Z 14; F64.of_Z 20; F64.of_Z 1; quarter;
                F64.of_Z 0; F64.of_Z 0; F64.of_Z 1; F64.of_Z 50; F64.of_Z 100;
                F64.of_Z 20; F64.of_Z 21; F64.of_Z 22; F64.of_Z 60; F64.of_Z 2].
Proof.
  assert (H1 : event_id_and_run_id (calibrated_blob three_hits neutrino_tracks)
               = OK (F64.of_Z 5, F64.of_Z 100)) by (vm_compute; reflexivity).
  assert (H2 : calibrated_blob three_hits neutrino_tracks !! KStr "McTracks"
               = Some (VTable track_names neutrino_tracks)) by reflexivity.
  assert (H4 : Exists (fun r => nonzero (r "bjorkeny") = true) neutrino_tracks)
    by (apply Exists_cons_tl, Exists_cons_hd; vm_compute; reflexivity).
  assert (H5 : Np.column three_hits_with_channel 3
               = OK (field_column three_hits "time")) by reflexivity.
  assert (H6 : Np.column three_hits_with_channel 4
               = OK (field_column three_hits "triggered")) by reflexivity.
  assert (H7 : length (field_column three_hits "time")
               = length (field_column three_hits "triggered")) by reflexivity.
  assert (Hprimary : get_primary_track_index (calibrated_blob three_hits neutrino_tracks)
                     = OK 1) by (vm_compute; reflexivity).
  split; [exact H1|]. split; [exact H2|]. split; [exact track_fields_in_track_names|].
  split; [exact H4|]. split; [exact H5|]. split; [exact H6|]. split; [exact H7|].
  destruct (neutrino_track_layout _ three_hits_with_channel (Some 2) _ _ _ _ _ _
              H1 H2 track_fields_in_track_names H4 H5 H6 H7)
    as (i & r & Hp & Hr & Hget).
  exists i, r. split; [exact Hp|]. split; [exact Hr|].
  rewrite Hprimary in Hp. injection Hp as Hi.
  assert (Hi1 : i = 1%nat) by lia.
  split; [exact Hi1|].
  rewrite Hget. rewrite Hi1 in Hr. injection Hr as <-.
  vm_compute. reflexivity.
Defined.

(** ** The float32 cast of the run id *)

Lemma float32_exact_pos (s : bool) (m : positive) :
  Zpos (digits2_pos m) <= 24 ->
  F64.astype_float32 (binary_round F64.prec F64.emax s m 0)
  = binary_round F64.prec F64.emax s m 0.
Proof.
  intros Hd. unfold F64.astype_float32, F64.prec, F64.emax.
  set (d := Zpos (digits2_pos m)) in *.
  assert (Hd0 : 1 <= d) by (unfold d; lia).
  (* the binary64 value of the integer *)
  assert (H64 : binary_round 53 1024 s m 0
                = S754_finite s (Pos.iter xO m (Z.to_pos (53 - d))) (d - 53)).
  { rewrite (binary_round_small 53 1024 s m 0 (Z.to_pos (53 - d))).
    - f_equal. lia.
    - fold d. lia.
    - lia. }
  rewrite H64, round_to_finite.
  destruct (Z.eq_dec d 24) as [Hd24|Hd24].
  - (* a 24-bit integer: its mantissa is the float32 mantissa *)
    replace (Z.to_pos (53 - d)) with 29%positive by lia.
    rewrite (binary_round_shifted 24 128 s m (d - 53) 29) by (fold d; lia).
    rewrite round_to_finite.
    rewrite (binary_round_small 53 1024 s m (d - 53 + 29) 29) by (fold d; lia).
    f_equal. lia.
  - set (k := Z.to_pos (24 - d)).
    assert (Hk : Zpos k = 24 - d) by (unfold k; lia).
    assert (Hsplit : Pos.iter xO m (Z.to_pos (53 - d))
                     = Pos.iter xO (Pos.iter xO m k) 29).
    { rewrite <- Pos.iter_add. f_equal. lia. }
    rewrite Hsplit.
    rewrite (binary_round_shifted 24 128 s (Pos.iter xO m k) (d - 53) 29);
      [|rewrite digits2_pos_iter; fold d; lia|lia].
    rewrite round_to_finite.
    rewrite (binary_round_small 53 1024 s (Pos.iter xO m k) (d - 53 + 29) 29);
      [|rewrite digits2_pos_iter; fold d; lia|lia].
    f_equal. lia.
Qed.

(** X20. The float32 cast that [get_tracks] applies to the run id is exact for
    every integer of magnitude below [2^24 = 16777216]: such a run id
    reaches the track vector unchanged. *)
Theorem float32_exact_below_2_24 (z : Z) :
  Z.abs z < 2 ^ 24 ->
  F64.astype_float32 (F64.of_Z z) = F64.of_Z z.
Proof.
  intros Hz. destruct z as [|m|m]; [reflexivity| |].
  - apply (float32_exact_pos false m). apply digits2_pos_bound; lia.
  - apply (float32_exact_pos true m). apply digits2_pos_bound; lia.
Qed.

(** The next integer is not kept. *)
Example float32_rounds_2_24_plus_1 :
  F64.astype_float32 (F64.of_Z 16777217) = F64.of_Z 16777216.
Proof. vm_compute. reflexivity. Qed.

Lemma float32_exact_below_2_24_witness :
  Z.abs 100 < 2 ^ 24 /\ F64.astype_float32 (F64.of_Z 100) = F64.of_Z 100.
Proof.
  assert (H : Z.abs 100 < 2 ^ 24) by (cbn; lia).
  split; [exact H|]. exact (float32_exact_below_2_24 100 H).
Defined.

(** ** The extractor as a whole *)

Lemma calls_bind {A B : Type} (c : Traced A) (k : A -> Traced B) :
  calls (c ≫= k)
  = calls c ++ match outcome c with OK a => calls (k a) | Raise _ => [] end.
Proof.
  destruct c as [l [a|e]]; unfold calls, outcome; cbn.
  - destruct (k a). reflexivity.
  - rewrite app_nil_r. reflexivity.
Qed.

Lemma get_hits_calls (event_blob : blob) (geo : option Geometry)
    (do_mc_hits : bool) (data_cuts : gmap string cut) (do4d : bool * string) :
  (length (calls (get_hits event_blob geo do_mc_hits data_cuts do4d)) <= 1)%nat.
Proof.
  unfold get_hits. rewrite calls_bind. cbn [calls lift fst outcome snd app].
  destruct (if negb do_mc_hits then _ else _) as [hits|e]; [|cbn; lia].
  rewrite calls_bind. cbn [calls lift fst outcome snd app].
  destruct (_ ≫= _) as [names|e]; [|cbn; lia].
  rewrite calls_bind.
  destruct (bool_decide _); [destruct geo as [g|]|];
    cbn [geo_apply calls outcome fst snd app mret traced_ret].
  - destruct (apply g hits); cbn; lia.
  - cbn. lia.
  - cbn. lia.
Qed.

(** X21. One event is calibrated at most once: [get_event_data] makes the
    calls to the calibration service that [get_hits] makes, at most one,
    and returns a pair exactly when [get_hits] returns the hits and
    [get_tracks], run on these hits, returns the track. *)
Theorem event_data_composes (event_blob : blob) (file_particle_type : string)
    (geo : option Geometry) (do_mc_hits : bool) (data_cuts : gmap string cut)
    (do4d : bool * string) (prod_ident : option Z) :
  calls (get_event_data event_blob file_particle_type geo do_mc_hits data_cuts
           do4d prod_ident)
    = calls (get_hits event_blob geo do_mc_hits data_cuts do4d)
  /\ (length (calls (get_event_data event_blob file_particle_type geo do_mc_hits
                      data_cuts do4d prod_ident)) <= 1)%nat
  /\ forall event_hits event_track,
       outcome (get_event_data event_blob file_particle_type geo do_mc_hits
                  data_cuts do4d prod_ident) = OK (event_hits, event_track)
       <-> outcome (get_hits event_blob geo do_mc_hits data_cuts do4d) = OK event_hits
           /\ get_tracks event_blob file_particle_type event_hits prod_ident
              = OK event_track.
Proof.
  assert (Hcalls :
    calls (get_event_data event_blob file_particle_type geo do_mc_hits data_cuts
             do4d prod_ident)
    = calls (get_hits event_blob geo do_mc_hits data_cuts do4d)).
  { unfold get_event_data. rewrite calls_bind.
    destruct (outcome (get_hits _ _ _ _ _)) as [hits|e];
      [|apply app_nil_r].
    rewrite calls_bind. cbn [calls lift fst outcome snd app].
    destruct (get_tracks _ _ _ _); cbn; apply app_nil_r. }
  split; [exact Hcalls|]. split; [rewrite Hcalls; apply get_hits_calls|].
  intros event_hits event_track.
  unfold get_event_data. rewrite outcome_bind.
  destruct (outcome (get_hits _ _ _ _ _)) as [hits|e]; cbn.
  - unfold outcome, lift. cbn.
    destruct (get_tracks event_blob file_particle_type hits prod_ident)
      as [track|e] eqn:Ht; cbn.
    + split.
      * intros [= <- <-]. split; [reflexivity|exact Ht].
      * intros [[= <-] Ht']. rewrite Ht in Ht'. injection Ht' as <-. reflexivity.
    + split; [discriminate|].
      intros [[= <-] Ht']. rewrite Ht in Ht'. discriminate Ht'.
  - split; [discriminate|]. intros [H _]. discriminate H.
Qed.

(** ** The event counts of the list files *)

(** [int] gives a count below [2^53] back. *)
Lemma int_of_Z (n : Z) :
  0 <= n < 2 ^ 53 -> int (F64.of_Z n) = Returns n.
Proof.
  intros [Hn Hb]. destruct n as [|p|p]; [reflexivity| |lia].
  rewrite of_Z_pos by (apply digits2_pos_bound; lia).
  destruct (53 - Zpos (digits2_pos p)) as [|k|k]; cbn [int].
  - cbn. f_equal. lia.
  - change (0 <=? - Zpos k) with false. cbn iota.
    f_equal. rewrite iter_xO_value, Z.opp_involutive.
    apply Z.div_mul. lia.
  - cbn. f_equal. lia.
Qed.

(** ** The writer of the list files *)

Lemma string_app_nil_r (s : string) : s +:+ "" = s.
Proof.
  induction s as [|a s IH]; [reflexivity|].
  change (String a (s +:+ "") = String a s). f_equal. exact IH.
Qed.

Lemma string_app_assoc (s1 s2 s3 : string) :
  (s1 +:+ s2) +:+ s3 = s1 +:+ (s2 +:+ s3).
Proof.
  induction s1 as [|a s1 IH]; [reflexivity|].
  change (String a ((s1 +:+ s2) +:+ s3) = String a (s1 +:+ (s2 +:+ s3))).
  f_equal. exact IH.
Qed.

Lemma for_each_app {A : Type} (l1 l2 : list A) (body : A -> Writer unit) s :
  for_each (l1 ++ l2) body s
  = match for_each l1 body s with
    | (s', Returns _) => for_each l2 body s'
    | (s', Raises e) => (s', Raises e)
    end.
Proof.
  revert s. induction l1 as [|x l1 IH]; intros s; [reflexivity|].
  cbn [app for_each]. unfold mbind, writer_bind.
  destruct (body x s) as [s' [[]|e]]; [apply IH|reflexivity].
Qed.

Lemma range_of_nat (n : nat) : Py.range (Z.of_nat n) = Z.of_nat <$> seq 0 n.
Proof.
  unfold Py.range, seqZ. rewrite Nat2Z.id.
  apply list_fmap_ext. intros _ i _. lia.
Qed.

Lemma for_each_fmap {A B : Type} (f : A -> B) (l : list A) (body : B -> Writer unit) :
  for_each (f <$> l) body = for_each l (fun x => body (f x)).
Proof. induction l as [|x l IH]; cbn; [|rewrite IH]; reflexivity. Qed.

Lemma items_getitem_lookup {V : Type} (d : list (string * V)) (j : nat) k v :
  NoDup d.*1 -> d !! j = Some (k, v) -> items_getitem d k = OK v.
Proof.
  revert j. induction d as [|[k' v'] d IH]; intros j Hnd Hj; [discriminate|].
  cbn in Hnd. apply NoDup_cons in Hnd as [Hnotin Hnd].
  destruct j as [|j]; cbn in Hj |- *.
  - injection Hj as -> ->. rewrite bool_decide_true by reflexivity. reflexivity.
  - case_bool_decide as Hk; [|exact (IH j Hnd Hj)].
    subst k'. exfalso. apply Hnotin.
    apply list_elem_of_fmap. exists (k, v). split; [reflexivity|].
    apply list_elem_of_lookup. eauto.
Qed.

(** The float that counts the events of a list of files. *)
Lemma n_evts_nonneg (fs : filesystem) (fpath : string) : 0 <= n_evts fs fpath.
Proof.
  unfold n_evts, get_number_of_evts, h5py_File, dict_getitem.
  destruct (fs !! fpath) as [f|]; [|cbn; lia].
  cbn. destruct (f !! "y"); cbn; unfold Py.len; lia.
Qed.

Lemma sum_n_evts_nonneg (fs : filesystem) (files : list string) :
  0 <= sum_Z (n_evts fs <$> files).
Proof.
  induction files as [|x l IH]; [cbn; lia|].
  unfold sum_Z in *. rewrite fmap_cons. cbn [foldr].
  pose proof (n_evts_nonneg fs x). lia.
Qed.

Lemma count_events (fs : filesystem) (files : list string) (total : Z) :
  0 <= total -> total + sum_Z (n_evts fs <$> files) < 2 ^ 53 ->
  count_files fs (F64.of_Z total) files
  = F64.of_Z (total + sum_Z (n_evts fs <$> files)).
Proof.
  unfold count_files.
  revert total. induction files as [|x l IH]; intros total Ht Hb.
  - cbn. rewrite Z.add_0_r. reflexivity.
  - pose proof (n_evts_nonneg fs x). pose proof (sum_n_evts_nonneg fs l).
    unfold sum_Z in *. rewrite fmap_cons in *. cbn [foldr foldl] in *.
    rewrite add_of_Z by lia. rewrite IH by lia. f_equal. lia.
Qed.

Lemma count_files_app (fs : filesystem) (c : f64) (l1 l2 : list string) :
  count_files fs c (l1 ++ l2) = count_files fs (count_files fs c l1) l2.
Proof. apply foldl_app. Qed.

Lemma listed_files_S (n : nat) (chunks : list (list string)) chunk :
  chunks !! n = Some chunk ->
  listed_files (S n) chunks = listed_files n chunks ++ chunk.
Proof.
  intros H. unfold listed_files.
  rewrite (take_S_r _ _ _ H), concat_app. cbn. rewrite app_nil_r. reflexivity.
Qed.

Section ListFile.

Variable fs : filesystem.
Variable d : gset string.
Variable mk : list string.

Local Abbreviation World t out ol :=
  {| dirs := d; makedirs_calls := mk; texts := t; stdout := out; output_lists := ol |}.
Local Abbreviation Locals ks counts :=
  {| keys := ks; final_number_of_events := counts |}.

Lemma count_and_write_ok f_out t out ol (j : nat) (fpath content : string)
    ks counts c :
  has_events fs fpath -> counts !! j = Some c ->
  count_and_write fs f_out (Z.of_nat j) fpath
    (World (<[f_out := content]> t) out ol, Locals ks counts)
  = ((World (<[f_out := content +:+ (fpath +:+ newline)]> t) out ol,
      Locals ks (<[j := count_files fs c [fpath]]> counts)),
     Returns tt).
Proof.
  intros [n Hn] Hc. unfold count_and_write, count_files, n_evts.
  unfold mbind, writer_bind, local, complete, set_locals, write, set_world.
  cbn [fst snd final_number_of_events keys foldl].
  rewrite getitem_of_nat, Hc, Hn. cbn [builtin fst snd].
  cbn [dirs makedirs_calls texts stdout output_lists].
  rewrite lookup_insert_eq, insert_insert_eq, Nat2Z.id. reflexivity.
Qed.

Lemma chunk_ok f_out t out ol (j : nat) (chunk : list string) :
  Forall (has_events fs) chunk ->
  forall content ks counts c,
  counts !! j = Some c ->
  for_each chunk (count_and_write fs f_out (Z.of_nat j))
    (World (<[f_out := content]> t) out ol, Locals ks counts)
  = ((World (<[f_out := content +:+ chunk_lines chunk]> t) out ol,
      Locals ks (<[j := count_files fs c chunk]> counts)),
     Returns tt).
Proof.
  induction 1 as [|fpath chunk Hf _ IH]; intros content ks counts c Hc.
  - cbn. rewrite string_app_nil_r, list_insert_id by exact Hc. reflexivity.
  - cbn [for_each]. unfold mbind at 1, writer_bind at 1.
    rewrite (count_and_write_ok f_out t out ol j fpath content ks counts c Hf Hc).
    rewrite (IH _ ks _ (count_files fs c [fpath])).
    + rewrite list_insert_insert_eq. cbn [chunk_lines foldr].
      rewrite string_app_assoc. reflexivity.
    + apply list_lookup_insert_eq. apply lookup_lt_Some in Hc. exact Hc.
Qed.

Variable groups : list (string * list (list string)).
Hypothesis groups_NoDup : NoDup groups.*1.

Lemma write_group_ok f_out t out ol (i j : nat) g content ks counts c :
  groups !! j = Some g -> chunk_at fs i g -> counts !! j = Some c ->
  write_group fs f_out groups (Z.of_nat i) (Z.of_nat j)
    (World (<[f_out := content]> t) out ol, Locals ks counts)
  = ((World (<[f_out := content +:+ chunk_lines (default [] (g.2 !! i))]> t) out ol,
      Locals (Some groups.*1)
             (<[j := count_files fs c (default [] (g.2 !! i))]> counts)),
     Returns tt).
Proof.
  intros Hg (chunk & Hchunk & Hfiles) Hc. destruct g as [k chunks].
  cbn [snd] in Hchunk |- *. rewrite Hchunk. cbn [default].
  unfold write_group.
  unfold mbind at 1, writer_bind at 1, set_locals at 1. cbn [fst snd final_number_of_events].
  unfold mbind at 1, writer_bind at 1, read_keys, local.
  unfold mbind at 1, writer_bind at 1. cbn [fst snd keys mret writer_ret].
  unfold mbind at 1, writer_bind at 1, complete at 1.
  rewrite getitem_of_nat, list_lookup_fmap, Hg. cbn [fmap option_fmap option_map fst builtin].
  unfold mbind at 1, writer_bind at 1, complete at 1.
  rewrite (items_getitem_lookup groups j k chunks groups_NoDup Hg). cbn [builtin].
  unfold mbind at 1, writer_bind at 1, complete at 1.
  rewrite getitem_of_nat, Hchunk. cbn [builtin].
  apply chunk_ok; assumption.
Qed.

Lemma groups_from f_out t out ol (i : nat) (rest : list (string * list (list string))) :
  forall done content ks counts_done counts_rest,
  groups = done ++ rest ->
  Forall (chunk_at fs i) rest ->
  length counts_done = length done -> length counts_rest = length rest ->
  for_each (seq (length done) (length rest))
    (fun j => write_group fs f_out groups (Z.of_nat i) (Z.of_nat j))
    (World (<[f_out := content]> t) out ol, Locals ks (counts_done ++ counts_rest))
  = ((World (<[f_out := content +:+ list_file_text rest i]> t) out ol,
      Locals (match rest with [] => ks | _ => Some groups.*1 end)
             (counts_done
              ++ zip_with (fun c g => count_files fs c (default [] (g.2 !! i)))
                   counts_rest rest)),
     Returns tt).
Proof.
  induction rest as [|g rest IH];
    intros done content ks counts_done counts_rest Hgroups Hrest Hld Hlr.
  - destruct counts_rest; [|discriminate]. cbn.
    rewrite string_app_nil_r. reflexivity.
  - destruct counts_rest as [|c counts_rest]; [discriminate|].
    apply Forall_cons in Hrest as [Hg Hrest].
    cbn [length seq for_each]. unfold mbind at 1, writer_bind at 1.
    rewrite (write_group_ok f_out t out ol i (length done) g content ks
               (counts_done ++ c :: counts_rest) c).
    + assert (Hins : forall x,
        <[length done := x]> (counts_done ++ c :: counts_rest)
        = counts_done ++ x :: counts_rest).
      { intros x. rewrite <- Hld.
        replace (length counts_done) with (length counts_done + 0)%nat by lia.
        rewrite insert_app_r. reflexivity. }
      rewrite Hins.
      replace (S (length done)) with (length (done ++ [g]))
        by (rewrite length_app; cbn; lia).
      rewrite (cons_middle _ counts_done counts_rest), app_assoc.
      rewrite (IH (done ++ [g])).
      * cbn [zip_with list_file_text foldr]. rewrite string_app_assoc.
        rewrite <- app_assoc. cbn [app].
        destruct rest; reflexivity.
      * rewrite <- app_assoc. exact Hgroups.
      * exact Hrest.
      * rewrite !length_app. cbn. lia.
      * cbn in Hlr. lia.
    + rewrite Hgroups. apply list_lookup_middle. reflexivity.
    + exact Hg.
    + rewrite <- Hld. apply list_lookup_middle. reflexivity.
Qed.

End ListFile.

Section OneSet.

Variable fs : filesystem.
Variable d : gset string.
Variable mk : list string.
Variable c : list_cfg.
Variables folder name dsplit : string.
Hypothesis folder_set : output_file_folder c = Some folder.
Hypothesis name_set : output_file_name c = Some name.
Variable groups : list (string * list (list string)).
Hypothesis groups_NoDup : NoDup groups.*1.
Hypothesis groups_nonempty : groups <> [].

Local Abbreviation World t out ol :=
  {| dirs := d; makedirs_calls := mk; texts := t; stdout := out; output_lists := ol |}.
Local Abbreviation Locals ks counts :=
  {| keys := ks; final_number_of_events := counts |}.

Local Abbreviation counts_after := (counts_after fs groups).

Lemma counts_after_S (i : nat) :
  Forall (chunk_at fs i) groups ->
  zip_with (fun c g => count_files fs c (default [] (g.2 !! i)))
    (counts_after i) groups
  = counts_after (S i).
Proof.
  intros H. unfold counts_after. rewrite zip_with_fmap_l, zip_with_diag.
  apply Forall_fmap_ext. eapply Forall_impl; [exact H|].
  intros g (chunk & Hchunk & _). cbn beta.
  rewrite Hchunk, (listed_files_S i _ chunk Hchunk), count_files_app. reflexivity.
Qed.

Lemma counts_after_0 :
  replicate (length groups) F64.zero = counts_after 0.
Proof.
  unfold counts_after. generalize groups. intros l.
  induction l as [|g l IH]; [reflexivity|]. cbn. f_equal. exact IH.
Qed.

Lemma write_list_file_ok t out ol (i : nat) ks :
  Forall (chunk_at fs i) groups ->
  write_list_file fs c dsplit groups (Z.of_nat i)
    (World t out ol, Locals ks (counts_after i))
  = ((World (<[list_file_path folder name dsplit (Z.of_nat i) :=
                list_file_text groups i]> t) out
            (Some (default [] ol ++ [list_file_path folder name dsplit (Z.of_nat i)])),
      Locals (Some groups.*1) (counts_after (S i))),
     Returns tt).
Proof.
  intros H. unfold write_list_file. rewrite folder_set, name_set.
  unfold mbind at 1, writer_bind at 1, complete at 1. cbn [cfg_getitem builtin].
  unfold mbind at 1, writer_bind at 1, complete at 1.
  unfold mbind at 1, writer_bind at 1, set_world at 1.
  cbn [fst snd dirs makedirs_calls texts stdout output_lists].
  unfold mbind at 1, writer_bind at 1, open_w, set_world.
  cbn [fst snd dirs makedirs_calls texts stdout output_lists].
  fold (list_file_path folder name dsplit (Z.of_nat i)).
  unfold Py.len. rewrite range_of_nat, for_each_fmap.
  rewrite (groups_from fs d mk groups groups_NoDup
             (list_file_path folder name dsplit (Z.of_nat i)) t out _ i groups
             [] "" ks [] (counts_after i) eq_refl H eq_refl)
    by (unfold counts_after; apply length_fmap).
  cbn [app]. rewrite counts_after_S by exact H.
  destruct groups; [contradiction|]. reflexivity.
Qed.

Lemma files_from (b : nat) : forall (a : nat) t out ol ks,
  (forall i, (a <= i < a + b)%nat -> Forall (chunk_at fs i) groups) ->
  for_each (seq a b) (fun i => write_list_file fs c dsplit groups (Z.of_nat i))
    (World t out ol, Locals ks (counts_after a))
  = ((World (foldl (fun t i => <[list_file_path folder name dsplit (Z.of_nat i) :=
                                   list_file_text groups i]> t) t (seq a b))
            out
            (match b with
             | O => ol
             | _ => Some (default [] ol
                          ++ ((fun i => list_file_path folder name dsplit (Z.of_nat i))
                                <$> seq a b))
             end),
      Locals (match b with O => ks | _ => Some groups.*1 end) (counts_after (a + b))),
     Returns tt).
Proof.
  induction b as [|b IH]; intros a t out ol ks H.
  - cbn. rewrite Nat.add_0_r. reflexivity.
  - cbn [seq for_each]. unfold mbind at 1, writer_bind at 1.
    rewrite (write_list_file_ok t out ol a ks) by (apply H; lia).
    rewrite IH by (intros i Hi; apply H; lia).
    cbn [foldl fmap list_fmap default].
    replace (S a + b)%nat with (a + S b)%nat by lia.
    destruct b; [reflexivity|].
    unfold id. rewrite <- app_assoc. reflexivity.
Qed.

(** The loop that prints the counts, on the locals a set leaves. *)
Lemma print_counts (n : nat) (rest : list (string * list (list string))) :
  forall done t out ol,
  groups = done ++ rest ->
  Forall (fun g => events_listed fs n g.2 < 2 ^ 53) rest ->
  for_each (seq (length done) (length rest)) (fun i =>
      ks ← read_keys;
      key ← complete (builtin (Py.getitem ks (Z.of_nat i)));
      counts ← local final_number_of_events;
      count ← complete (builtin (Py.getitem counts (Z.of_nat i)));
      n ← complete (int count);
      print [PStr key; PStr ":"; PInt n])
    (World t out ol, Locals (Some groups.*1) (counts_after n))
  = ((World t
        (out ++ ((fun g => [PStr g.1; PStr ":"; PInt (events_listed fs n g.2)])
                   <$> rest))
        ol,
      Locals (Some groups.*1) (counts_after n)),
     Returns tt).
Proof.
  induction rest as [|g rest IH]; intros done t out ol Hgroups Hb.
  - cbn. rewrite app_nil_r. reflexivity.
  - apply Forall_cons in Hb as [Hg Hb].
    assert (Hlook : groups !! length done = Some g)
      by (rewrite Hgroups; apply list_lookup_middle; reflexivity).
    cbn [length seq for_each]. unfold mbind at 1, writer_bind at 1.
    unfold mbind at 1, writer_bind at 1, read_keys, local.
    unfold mbind at 1, writer_bind at 1. cbn [fst snd keys mret writer_ret].
    unfold mbind at 1, writer_bind at 1, complete at 1.
    rewrite getitem_of_nat, list_lookup_fmap, Hlook.
    cbn [fmap option_fmap option_map builtin].
    unfold mbind at 1, writer_bind at 1. cbn [fst snd final_number_of_events].
    unfold mbind at 1, writer_bind at 1, complete at 1.
    rewrite getitem_of_nat. unfold counts_after at 1.
    rewrite list_lookup_fmap, Hlook. cbn [fmap option_fmap option_map builtin].
    unfold mbind at 1, writer_bind at 1, complete at 1.
    pose proof (sum_n_evts_nonneg fs (listed_files n g.2)) as Hpos.
    change F64.zero with (F64.of_Z 0).
    rewrite (count_events fs (listed_files n g.2) 0 ltac:(lia))
      by (unfold events_listed in Hg; lia).
    rewrite int_of_Z by (unfold events_listed in Hg; lia).
    unfold print, set_world. cbn [fst snd dirs makedirs_calls texts stdout output_lists].
    replace (S (length done)) with (length (done ++ [g]))
      by (rewrite length_app; cbn; lia).
    rewrite (IH (done ++ [g])).
    + rewrite <- app_assoc. reflexivity.
    + rewrite <- app_assoc. exact Hgroups.
    + exact Hb.
Qed.

Hypothesis items_set : output_items c !! dsplit = Some groups.
Hypothesis groups_regular : regular fs groups.

Lemma regular_chunks (i : nat) :
  (i < n_output_files groups)%nat -> Forall (chunk_at fs i) groups.
Proof.
  intros Hi. destruct groups_regular as (_ & _ & H).
  eapply Forall_impl; [exact H|]. intros g (Hlen & Hfiles & _).
  destruct (lookup_lt_is_Some_2 g.2 i ltac:(lia)) as [chunk Hchunk].
  exists chunk. split; [exact Hchunk|].
  apply Forall_forall. intros fpath Hin.
  rewrite Forall_forall in Hfiles. apply Hfiles.
  unfold listed_files. apply list_elem_of_In, in_concat. exists chunk.
  split; [|apply list_elem_of_In; exact Hin].
  apply list_elem_of_In, list_elem_of_lookup. exists i.
  rewrite lookup_take_lt by lia. exact Hchunk.
Qed.

Lemma write_dsplit_ok t out ol ks counts :
  exists l',
  write_dsplit fs c dsplit (World t out ol, Locals ks counts)
  = ((set_written fs c folder name (World t out ol) dsplit, l'), Returns tt)
  /\ is_Some (keys l').
Proof.
  destruct groups_regular as (_ & Hn & Hall).
  assert (Hhead : exists k0 chunks0 rest, groups = (k0, chunks0) :: rest).
  { destruct groups as [|[k0 chunks0] rest]; [contradiction|eauto]. }
  destruct Hhead as (k0 & chunks0 & rest & Hgroups).
  assert (Hn0 : n_output_files groups = length chunks0) by (rewrite Hgroups; reflexivity).
  eexists. unfold write_dsplit, set_written. rewrite items_set.
  unfold mbind at 1, writer_bind at 1, print at 1, set_world at 1.
  cbn [fst snd dirs makedirs_calls texts stdout output_lists].
  unfold mbind at 1, writer_bind at 1, complete at 1.
  change 0 with (Z.of_nat 0). rewrite getitem_of_nat.
  rewrite Hgroups at 1. cbn [fmap list_fmap lookup list_lookup fst builtin].
  unfold mbind at 1, writer_bind at 1, complete at 1.
  rewrite (items_getitem_lookup groups 0 k0 chunks0 groups_NoDup)
    by (rewrite Hgroups; reflexivity).
  cbn [builtin].
  unfold mbind at 1, writer_bind at 1, set_locals at 1.
  cbn [fst snd keys final_number_of_events].
  unfold mbind at 1, writer_bind at 1.
  unfold Py.len at 1. rewrite range_of_nat, for_each_fmap.
  rewrite counts_after_0, <- Hn0.
  rewrite (files_from (n_output_files groups) 0 _ _ _ ks)
    by (intros i Hi; apply regular_chunks; lia).
  unfold mbind at 1, writer_bind at 1.
  unfold Py.len at 1. rewrite range_of_nat, for_each_fmap.
  assert (Hmatch : forall (A : Type) (x y : A),
            match n_output_files groups with O => x | S _ => y end = y)
    by (intros; destruct (n_output_files groups); [lia|reflexivity]).
  rewrite !Hmatch.
  rewrite (print_counts (n_output_files groups) groups [] _ _ _ eq_refl)
    by (eapply Forall_impl; [exact Hall|]; intros g (_ & _ & Hb); exact Hb).
  unfold print, set_world. cbn [fst snd dirs makedirs_calls texts stdout output_lists].
  split.
  - unfold written_texts, written_paths, printed_lines.
    rewrite <- !app_assoc. reflexivity.
  - cbn. eauto.
Qed.

End OneSet.

Lemma string_length_app (s1 s2 : string) :
  String.length (s1 +:+ s2) = (String.length s1 + String.length s2)%nat.
Proof.
  induction s1 as [|a s1 IH]; [reflexivity|].
  change (S (String.length (s1 +:+ s2)) = S (String.length s1 + String.length s2)).
  rewrite IH. reflexivity.
Qed.

Lemma string_app_inj_r (s1 s2 t : string) : s1 +:+ t = s2 +:+ t -> s1 = s2.
Proof.
  revert s2. induction s1 as [|a s1 IH]; intros [|b s2] H.
  - reflexivity.
  - apply (f_equal String.length) in H.
    change ("" +:+ t) with t in H. rewrite string_length_app in H. cbn in H. lia.
  - apply (f_equal String.length) in H.
    change ("" +:+ t) with t in H. rewrite string_length_app in H. cbn in H. lia.
  - change (String a (s1 +:+ t) = String b (s2 +:+ t)) in H.
    injection H as -> H. f_equal. exact (IH s2 H).
Qed.

(** Two list files of the sets have the same path only if they are the
    same file of the same set. *)
Lemma list_file_path_inj (folder name ds ds' : string) (i j : nat) :
  ds ∈ dsplits -> ds' ∈ dsplits ->
  list_file_path folder name ds (Z.of_nat i)
  = list_file_path folder name ds' (Z.of_nat j) ->
  ds = ds' /\ i = j.
Proof.
  intros Hds Hds' H. unfold list_file_path in H.
  do 4 apply String.app_inj in H.
  assert (Hsame : forall s, s +:+ "_" +:+ str (Z.of_nat i) +:+ ".txt"
                            = s +:+ "_" +:+ str (Z.of_nat j) +:+ ".txt" -> i = j).
  { intros s Hs. do 2 apply String.app_inj in Hs.
    apply string_app_inj_r in Hs. apply pretty_Z_inj in Hs. lia. }
  unfold dsplits in Hds, Hds'.
  repeat (apply elem_of_cons in Hds as [->|Hds]);
    [| | |apply elem_of_nil in Hds; contradiction];
    repeat (apply elem_of_cons in Hds' as [->|Hds']);
    try (apply elem_of_nil in Hds'; contradiction);
    try discriminate H;
    (split; [reflexivity|exact (Hsame _ H)]).
Qed.

Lemma written_texts_in (folder name ds : string)
    (groups : list (string * list (list string))) (t : gmap string string) (i : nat) :
  ds ∈ dsplits -> (i < n_output_files groups)%nat ->
  written_texts folder name ds groups t !! list_file_path folder name ds (Z.of_nat i)
  = Some (list_file_text groups i).
Proof.
  intros Hds. unfold written_texts.
  induction (n_output_files groups) as [|n IH]; intros Hi; [lia|].
  rewrite seq_S, foldl_app. cbn [foldl Nat.add].
  destruct (decide (i = n)) as [->|Hne].
  - apply lookup_insert_eq.
  - rewrite lookup_insert_ne; [apply IH; lia|].
    intros Heq. apply (list_file_path_inj _ _ _ _ _ _ Hds Hds) in Heq as [_ Heq].
    congruence.
Qed.

Lemma written_texts_out (folder name ds : string)
    (groups : list (string * list (list string))) (t : gmap string string)
    (path : string) :
  (forall i : nat, (i < n_output_files groups)%nat ->
     list_file_path folder name ds (Z.of_nat i) <> path) ->
  written_texts folder name ds groups t !! path = t !! path.
Proof.
  unfold written_texts.
  induction (n_output_files groups) as [|n IH]; intros H; [reflexivity|].
  rewrite seq_S, foldl_app. cbn [foldl Nat.add].
  rewrite lookup_insert_ne by (apply H; lia).
  apply IH. intros i Hi. apply H. lia.
Qed.

Section Writer.

Variable fs : filesystem.
Variable c : list_cfg.
Variables folder name : string.
Hypothesis folder_set : output_file_folder c = Some folder.
Hypothesis name_set : output_file_name c = Some name.

Local Abbreviation written := (sets_written fs c folder name).

Lemma written_dirs (sets : list string) : forall w,
  dirs (written w sets) = dirs w.
Proof.
  induction sets as [|ds sets IH]; intros w; [reflexivity|].
  change (written w (ds :: sets)) with (written (set_written fs c folder name w ds) sets).
  rewrite IH. unfold set_written. destruct (output_items c !! ds); reflexivity.
Qed.

Lemma written_makedirs_calls (sets : list string) : forall w,
  makedirs_calls (written w sets) = makedirs_calls w.
Proof.
  induction sets as [|ds sets IH]; intros w; [reflexivity|].
  change (written w (ds :: sets)) with (written (set_written fs c folder name w ds) sets).
  rewrite IH. unfold set_written. destruct (output_items c !! ds); reflexivity.
Qed.

Lemma written_out (sets : list string) (path : string) : forall w,
  (forall ds groups (i : nat), ds ∈ sets -> output_items c !! ds = Some groups ->
     (i < n_output_files groups)%nat ->
     list_file_path folder name ds (Z.of_nat i) <> path) ->
  texts (written w sets) !! path = texts w !! path.
Proof.
  induction sets as [|ds sets IH]; intros w H; [reflexivity|].
  change (written w (ds :: sets)) with (written (set_written fs c folder name w ds) sets).
  rewrite IH by (intros ds' groups i Hin; apply H; right; exact Hin).
  unfold set_written. destruct (output_items c !! ds) as [groups|] eqn:Hitems;
    [|reflexivity].
  cbn [texts]. apply written_texts_out. intros i Hi.
  exact (H ds groups i ltac:(left) Hitems Hi).
Qed.

Lemma written_in (sets : list string) ds groups (i : nat) : forall w,
  NoDup sets -> sets ⊆ dsplits -> ds ∈ sets ->
  output_items c !! ds = Some groups -> (i < n_output_files groups)%nat ->
  texts (written w sets) !! list_file_path folder name ds (Z.of_nat i)
  = Some (list_file_text groups i).
Proof.
  induction sets as [|ds0 sets IH]; intros w Hnd Hsub Hin Hitems Hi.
  - apply elem_of_nil in Hin. contradiction.
  - apply NoDup_cons in Hnd as [Hnotin Hnd].
    change (written w (ds0 :: sets)) with (written (set_written fs c folder name w ds0) sets).
    apply elem_of_cons in Hin as [->|Hin].
    + rewrite written_out.
      * unfold set_written. rewrite Hitems. cbn [texts].
        apply written_texts_in; [apply Hsub; left|exact Hi].
      * intros ds' groups' j Hin' _ _ Heq.
        apply list_file_path_inj in Heq as [-> _];
          [contradiction|apply Hsub; right; exact Hin'|apply Hsub; left].
    + apply IH; try assumption.
      intros x Hx. apply Hsub. right. exact Hx.
Qed.

Lemma written_stdout (sets : list string) : forall w,
  stdout (written w sets)
  = stdout w
    ++ concat ((fun ds => match output_items c !! ds with
                          | Some groups => printed_lines fs ds groups
                          | None => []
                          end) <$> sets).
Proof.
  induction sets as [|ds sets IH]; intros w; [symmetry; apply app_nil_r|].
  change (written w (ds :: sets)) with (written (set_written fs c folder name w ds) sets).
  rewrite IH. cbn [fmap list_fmap concat]. unfold set_written.
  destruct (output_items c !! ds); cbn [stdout]; [|reflexivity].
  rewrite <- app_assoc. reflexivity.
Qed.

Lemma written_output_lists (sets : list string) : forall w,
  default [] (output_lists (written w sets))
  = default [] (output_lists w)
    ++ concat ((fun ds => match output_items c !! ds with
                          | Some groups => written_paths folder name ds groups
                          | None => []
                          end) <$> sets).
Proof.
  induction sets as [|ds sets IH]; intros w; [symmetry; apply app_nil_r|].
  change (written w (ds :: sets)) with (written (set_written fs c folder name w ds) sets).
  rewrite IH. cbn [fmap list_fmap concat]. unfold set_written.
  destruct (output_items c !! ds); cbn [output_lists default]; [|reflexivity].
  unfold id. rewrite <- app_assoc. reflexivity.
Qed.

Hypothesis sets_regular : forall ds groups,
  ds ∈ dsplits -> output_items c !! ds = Some groups -> regular fs groups.

Lemma regular_nonempty (groups : list (string * list (list string))) :
  regular fs groups -> groups <> [].
Proof. intros (_ & Hn & _) ->. cbn in Hn. lia. Qed.

Lemma write_dsplit_run (ds : string) (w : world) (l : locals) :
  ds ∈ dsplits ->
  exists l',
    write_dsplit fs c ds (w, l) = ((set_written fs c folder name w ds, l'), Returns tt).
Proof.
  intros Hds. destruct (output_items c !! ds) as [groups|] eqn:Hitems.
  - pose proof (sets_regular ds groups Hds Hitems) as Hreg.
    destruct w as [d mk t out ol], l as [ks counts].
    destruct (write_dsplit_ok fs d mk c folder name ds folder_set name_set groups
                (proj1 Hreg) (regular_nonempty groups Hreg) Hitems Hreg
                t out ol ks counts) as (l' & Hrun & _).
    exists l'. exact Hrun.
  - exists l. unfold write_dsplit, set_written. rewrite Hitems. reflexivity.
Qed.

Lemma sets_run (sets : list string) : forall w l,
  sets ⊆ dsplits ->
  exists l', for_each sets (write_dsplit fs c) (w, l) = ((written w sets, l'), Returns tt).
Proof.
  induction sets as [|ds sets IH]; intros w l Hsub; [exists l; reflexivity|].
  destruct (write_dsplit_run ds w l ltac:(apply Hsub; left)) as [l1 H1].
  destruct (IH (set_written fs c folder name w ds) l1) as [l2 H2].
  { intros x Hx. apply Hsub. right. exact Hx. }
  exists l2. cbn [for_each]. unfold mbind, writer_bind. rewrite H1. exact H2.
Qed.

Lemma writer_run (w : world) :
  make_dsplit_list_files fs c w = (written (headed folder w) dsplits, Returns tt).
Proof.
  unfold make_dsplit_list_files. rewrite folder_set.
  unfold mbind at 1, writer_bind at 1, complete at 1. cbn [cfg_getitem builtin].
  unfold mbind at 1, writer_bind at 1, makedirs_unless_exists, set_world at 1.
  cbn [fst snd].
  do 5 (unfold mbind at 1, writer_bind at 1, print at 1, set_world at 1;
        cbn [fst snd dirs makedirs_calls texts stdout output_lists]).
  rewrite <- !app_assoc. cbn [app].
  match goal with
  | |- context [for_each dsplits _ (?w0, ?l0)] =>
      destruct (sets_run dsplits w0 l0 ltac:(reflexivity)) as [l' ->]
  end.
  reflexivity.
Qed.

End Writer.




(** Steps of the statement monad. *)
Lemma bind_returns {A B : Type} (a : A) (k : A -> Writer B) s :
  (complete (Returns a) ≫= k) s = k a s.
Proof. reflexivity. Qed.

Lemma bind_local {A B : Type} (f : locals -> A) (k : A -> Writer B) s :
  (local f ≫= k) s = k (f s.2) s.
Proof. reflexivity. Qed.

Lemma bind_set_world {B : Type} (f : world -> world) (k : unit -> Writer B) s :
  (set_world f ≫= k) s = k tt (f s.1, s.2).
Proof. reflexivity. Qed.

Lemma bind_set_locals {B : Type} (f : locals -> locals) (k : unit -> Writer B) s :
  (set_locals f ≫= k) s = k tt (s.1, f s.2).
Proof. reflexivity. Qed.

Lemma bind_print {B : Type} (args : list print_arg) (k : unit -> Writer B) w l :
  (print args ≫= k) (w, l)
  = k tt ({| dirs := dirs w; makedirs_calls := makedirs_calls w;
             texts := texts w; stdout := stdout w ++ [args];
             output_lists := output_lists w |}, l).
Proof. reflexivity. Qed.

Lemma bind_ret {A B : Type} (a : A) (k : A -> Writer B) s :
  (mret a ≫= k) s = k a s.
Proof. reflexivity. Qed.

Lemma bind_read_keys {B : Type} (k : list string -> Writer B) s :
  (read_keys ≫= k) s
  = match keys s.2 with
    | Some l => k l s
    | None => (s, Raises UnboundLocalError)
    end.
Proof.
  unfold read_keys, mbind, writer_bind, local. destruct (keys s.2); reflexivity.
Qed.

Lemma bind_bind {A B C : Type} (m : Writer A) (k : A -> Writer B)
    (k' : B -> Writer C) s :
  ((m ≫= k) ≫= k') s = (m ≫= (fun a => k a ≫= k')) s.
Proof.
  unfold mbind, writer_bind. destruct (m s) as [s1 [a|e]]; reflexivity.
Qed.

(** A set whose first group has no chunk: nothing binds [keys]. *)
Lemma write_dsplit_unbound (fs : filesystem) (c : list_cfg) (ds : string)
    (groups : list (string * list (list string))) (w : world) (l : locals) :
  output_items c !! ds = Some groups ->
  groups <> [] -> n_output_files groups = 0%nat -> keys l = None ->
  exists w' l',
    write_dsplit fs c ds (w, l) = ((w', l'), Raises UnboundLocalError)
    /\ texts w' = texts w /\ output_lists w' = output_lists w.
Proof.
  intros Hitems Hne Hn Hkeys.
  destruct groups as [|[k0 chunks0] rest]; [contradiction|].
  cbn in Hn. apply nil_length_inv in Hn. subst chunks0.
  unfold write_dsplit. rewrite Hitems. cbv beta iota.
  rewrite bind_print.
  change 0 with (Z.of_nat 0). rewrite getitem_of_nat.
  cbn [fmap list_fmap lookup list_lookup fst builtin]. rewrite bind_returns.
  cbn [items_getitem]. rewrite bool_decide_true by reflexivity.
  cbn [builtin]. rewrite bind_returns, bind_set_locals.
  change (Py.range (Py.len (@nil (list string)))) with (@nil Z).
  cbn [for_each]. rewrite bind_ret.
  unfold Py.len. rewrite range_of_nat, for_each_fmap.
  cbn [length seq for_each]. rewrite !bind_bind, bind_read_keys.
  cbn [fst snd keys]. rewrite Hkeys.
  do 2 eexists. split; [reflexivity|]. split; reflexivity.
Qed.

Lemma sets_unbound (fs : filesystem) (c : list_cfg) (sets : list string) :
  (forall ds groups, ds ∈ sets -> output_items c !! ds = Some groups ->
     groups <> [] /\ n_output_files groups = 0%nat) ->
  forall w l, keys l = None ->
  (exists ds, ds ∈ sets /\ is_Some (output_items c !! ds)) ->
  exists w' l',
    for_each sets (write_dsplit fs c) (w, l) = ((w', l'), Raises UnboundLocalError)
    /\ texts w' = texts w /\ output_lists w' = output_lists w.
Proof.
  induction sets as [|ds sets IH]; intros Hall w l Hkeys (ds' & Hin & Hsome).
  - apply elem_of_nil in Hin. contradiction.
  - cbn [for_each]. unfold mbind, writer_bind.
    destruct (output_items c !! ds) as [groups|] eqn:Hitems.
    + destruct (Hall ds groups ltac:(left) Hitems) as [Hne Hn].
      destruct (write_dsplit_unbound fs c ds groups w l Hitems Hne Hn Hkeys)
        as (w' & l' & -> & Ht & Hol).
      eauto.
    + assert (Hskip : write_dsplit fs c ds (w, l) = ((w, l), Returns tt))
        by (unfold write_dsplit; rewrite Hitems; reflexivity).
      rewrite Hskip. apply IH; [|exact Hkeys|].
      * intros x groups Hx. apply Hall. right. exact Hx.
      * apply elem_of_cons in Hin as [->|Hin].
        -- rewrite Hitems in Hsome. destruct Hsome; discriminate.
        -- eauto.
Qed.

(** X25. When no set has a chunk in its first group, which is what a
    negative file count leaves behind, the writer prints the heading and
    the name of the first set and then fails on the unbound [keys]: no
    list file is written and [output_lists] is as it was. *)
Theorem writer_unbound_keys (fs : filesystem) (c : list_cfg) (folder : string)
    (w : world) :
  output_file_folder c = Some folder ->
  (exists ds, ds ∈ dsplits /\ is_Some (output_items c !! ds)) ->
  (forall ds groups, ds ∈ dsplits -> output_items c !! ds = Some groups ->
     groups <> [] /\ n_output_files groups = 0%nat) ->
  exists w',
    make_dsplit_list_files fs c w = (w', Raises UnboundLocalError)
    /\ texts w' = texts w /\ output_lists w' = output_lists w.
Proof.
  intros Hfolder Hsome Hall. unfold make_dsplit_list_files. rewrite Hfolder.
  unfold mbind at 1, writer_bind at 1, complete at 1. cbn [cfg_getitem builtin].
  unfold mbind at 1, writer_bind at 1, makedirs_unless_exists, set_world at 1.
  cbn [fst snd].
  do 5 (unfold mbind at 1, writer_bind at 1, print at 1, set_world at 1;
        cbn [fst snd dirs makedirs_calls texts stdout output_lists]).
  match goal with
  | |- context [for_each dsplits _ (?w0, ?l0)] =>
      destruct (sets_unbound fs c dsplits Hall w0 l0 eq_refl Hsome)
        as (w' & l' & -> & Ht & Hol)
  end.
  exists w'. split; [reflexivity|]. split; assumption.
Qed.

(** What a run that returns went through. *)
Lemma bind_inv {A B : Type} (m : Writer A) (k : A -> Writer B) s s' b :
  (m ≫= k) s = (s', Returns b) ->
  exists a s1, m s = (s1, Returns a) /\ k a s1 = (s', Returns b).
Proof.
  unfold mbind, writer_bind. destruct (m s) as [s1 [a|e]]; [eauto|discriminate].
Qed.

Lemma complete_builtin_inv {A : Type} (r : result A) s s' a :
  complete (builtin r) s = (s', Returns a) -> r = OK a /\ s' = s.
Proof.
  unfold complete. destruct r as [x|e]; cbn; [|discriminate].
  intros [= -> ->]. split; reflexivity.
Qed.

Lemma for_each_inv {A : Type} (l : list A) (body : A -> Writer unit) :
  forall s s', for_each l body s = (s', Returns tt) ->
  Forall (fun x => exists s1 s2, body x s1 = (s2, Returns tt)) l.
Proof.
  induction l as [|x l IH]; intros s s' H; [constructor|].
  cbn [for_each] in H. apply bind_inv in H as ([] & s1 & Hx & Hl).
  constructor; [eauto|exact (IH s1 s' Hl)].
Qed.

Lemma getitem_of_nat_inv {A : Type} (a : list A) (k : nat) x :
  Py.getitem a (Z.of_nat k) = OK x -> a !! k = Some x.
Proof.
  rewrite getitem_of_nat. destruct (a !! k); [|discriminate].
  intros [= ->]. reflexivity.
Qed.

Lemma count_and_write_inv fs f_out j fpath s s' :
  count_and_write fs f_out j fpath s = (s', Returns tt) -> has_events fs fpath.
Proof.
  unfold count_and_write. rewrite bind_local. intros H.
  apply bind_inv in H as (count & s1 & _ & H).
  apply bind_inv in H as (n & s2 & Hn & _).
  apply complete_builtin_inv in Hn as [Hn _]. exists n. exact Hn.
Qed.

Lemma write_group_inv fs f_out groups (i j : nat) g s s' :
  NoDup groups.*1 -> groups !! j = Some g ->
  write_group fs f_out groups (Z.of_nat i) (Z.of_nat j) s = (s', Returns tt) ->
  chunk_at fs i g.
Proof.
  intros Hnd Hg. unfold write_group.
  rewrite bind_set_locals, bind_read_keys. cbn [fst snd keys].
  rewrite getitem_of_nat, list_lookup_fmap, Hg.
  cbn [fmap option_fmap option_map builtin]. rewrite bind_returns.
  destruct g as [k chunks]. cbn [fst].
  rewrite (items_getitem_lookup groups j k chunks Hnd Hg).
  cbn [builtin]. rewrite bind_returns. intros H.
  apply bind_inv in H as (chunk & s1 & Hchunk & H).
  apply complete_builtin_inv in Hchunk as [Hchunk _].
  apply getitem_of_nat_inv in Hchunk.
  exists chunk. split; [exact Hchunk|].
  apply for_each_inv in H. eapply Forall_impl; [exact H|].
  intros fpath (s2 & s3 & Hf). exact (count_and_write_inv _ _ _ _ _ _ Hf).
Qed.

Lemma Forall_range (P : Z -> Prop) (n : nat) :
  Forall P (Py.range (Z.of_nat n)) -> forall i : nat, (i < n)%nat -> P (Z.of_nat i).
Proof.
  rewrite range_of_nat, Forall_fmap, Forall_forall. intros H i Hi.
  apply (H i). apply elem_of_seq. lia.
Qed.

Lemma write_list_file_inv fs c ds groups (i : nat) s s' :
  NoDup groups.*1 ->
  write_list_file fs c ds groups (Z.of_nat i) s = (s', Returns tt) ->
  is_Some (output_file_name c) /\ Forall (chunk_at fs i) groups.
Proof.
  intros Hnd H. unfold write_list_file in H.
  apply bind_inv in H as (folder & s1 & _ & H).
  apply bind_inv in H as (name & s2 & Hname & H).
  apply complete_builtin_inv in Hname as [Hname _].
  split; [destruct (output_file_name c); [eauto|discriminate]|].
  rewrite bind_set_world in H. unfold open_w in H. rewrite bind_set_world in H.
  apply for_each_inv in H.
  apply Forall_lookup. intros j g Hg.
  pose proof (Forall_range _ _ H j (lookup_lt_Some _ _ _ Hg)) as (s3 & s4 & Hj).
  exact (write_group_inv _ _ _ _ _ _ _ _ Hnd Hg Hj).
Qed.

Lemma write_dsplit_inv fs c ds groups s s' :
  output_items c !! ds = Some groups -> NoDup groups.*1 ->
  write_dsplit fs c ds s = (s', Returns tt) ->
  groups <> []
  /\ forall i : nat, (i < n_output_files groups)%nat ->
       is_Some (output_file_name c) /\ Forall (chunk_at fs i) groups.
Proof.
  intros Hitems Hnd H. unfold write_dsplit in H. rewrite Hitems in H.
  destruct s as [w l]. rewrite bind_print in H.
  apply bind_inv in H as (first_key & s1 & Hkey & H).
  apply complete_builtin_inv in Hkey as [Hkey _].
  change 0 with (Z.of_nat 0) in Hkey. apply getitem_of_nat_inv in Hkey.
  destruct groups as [|[k0 chunks0] rest]; [discriminate|].
  cbn in Hkey. injection Hkey as <-.
  split; [discriminate|].
  cbn [items_getitem] in H. rewrite bool_decide_true in H by reflexivity.
  cbn [builtin] in H. rewrite bind_returns, bind_set_locals in H.
  apply bind_inv in H as ([] & s2 & H & _).
  apply for_each_inv in H. intros i Hi.
  pose proof (Forall_range _ _ H i Hi) as (s3 & s4 & Hrun).
  exact (write_list_file_inv _ _ _ _ _ _ _ Hnd Hrun).
Qed.

(** X26. What a run of the writer that returns has needed: the folder is
    configured; every set has a group; no group of a set has fewer chunks
    than the first one; every listed file has the dataset; and the file name
    is configured if there is a list file to write. *)
Theorem writer_requires (fs : filesystem) (c : list_cfg) (w w' : world) :
  make_dsplit_list_files fs c w = (w', Returns tt) ->
  is_Some (output_file_folder c)
  /\ forall ds groups,
       ds ∈ dsplits -> output_items c !! ds = Some groups -> NoDup groups.*1 ->
       groups <> []
       /\ forall i : nat, (i < n_output_files groups)%nat ->
            is_Some (output_file_name c) /\ Forall (chunk_at fs i) groups.
Proof.
  unfold make_dsplit_list_files. intros H.
  match type of H with
  | context [?body (w, {| keys := None; final_number_of_events := [] |})] =>
      destruct (body (w, {| keys := None; final_number_of_events := [] |}))
        as [[w1 l1] r] eqn:Hbody
  end.
  injection H as -> ->.
  apply bind_inv in Hbody as (folder & s1 & Hfolder & Hbody).
  apply complete_builtin_inv in Hfolder as [Hfolder ->].
  split; [destruct (output_file_folder c); [eauto|discriminate]|].
  unfold makedirs_unless_exists in Hbody.
  rewrite bind_set_world in Hbody. rewrite !bind_print in Hbody.
  apply for_each_inv in Hbody. rewrite Forall_forall in Hbody.
  intros ds groups Hds Hitems Hnd.
  destruct (Hbody ds Hds) as (s2 & s3 & Hrun).
  exact (write_dsplit_inv _ _ _ _ _ _ Hitems Hnd Hrun).
Qed.

(** The chunks [split] makes for a positive count form a regular group. *)
Lemma split_by_listed (n : Z) (g : string * list (list string))
    (files : list string) :
  1 <= n -> split files n = OK g.2 ->
  length g.2 = Z.to_nat n /\ listed_files (Z.to_nat n) g.2 = files.
Proof.
  intros Hn Hsplit. rewrite (split_chunks files n Hn) in Hsplit.
  injection Hsplit as Hsplit.
  assert (Hlen : length g.2 = Z.to_nat n)
    by (rewrite <- Hsplit, length_fmap, length_seq; reflexivity).
  split; [exact Hlen|].
  unfold listed_files. rewrite <- Hlen, firstn_all, <- Hsplit.
  apply concat_chunks, Hn.
Qed.

Lemma split_by_regular (fs : filesystem) (n : Z)
    (groups : list (string * list (list string))) :
  groups <> [] -> NoDup groups.*1 -> 1 <= n -> Forall (split_by fs n) groups ->
  n_output_files groups = Z.to_nat n /\ regular fs groups.
Proof.
  intros Hne Hnd Hn Hall.
  assert (Hcount : n_output_files groups = Z.to_nat n).
  { destruct groups as [|[k0 chunks0] rest]; [contradiction|].
    apply Forall_cons in Hall as [(files & Hs & _) _].
    exact (proj1 (split_by_listed n (k0, chunks0) files Hn Hs)). }
  split; [exact Hcount|]. split; [exact Hnd|]. split; [lia|].
  rewrite Hcount. eapply Forall_impl; [exact Hall|].
  intros g (files & Hs & Hfiles & Hb).
  destruct (split_by_listed n g files Hn Hs) as [Hlen Hlisted].
  unfold events_listed. rewrite Hlisted.
  split; [lia|]. split; assumption.
Qed.


(** The sample configurations meet the hypotheses. *)
Ltac sample_set Hds Hitems :=
  unfold dsplits in Hds;
  repeat (apply elem_of_cons in Hds as [->|Hds]);
  [| | |apply elem_of_nil in Hds; contradiction];
  vm_compute in Hitems; try discriminate Hitems;
  injection Hitems as <-.

Ltac sample_files :=
  repeat constructor; eexists; vm_compute; reflexivity.

Lemma two_groups_regular ds groups :
  ds ∈ dsplits -> output_items list_cfg_two_groups !! ds = Some groups ->
  regular two_files groups.
Proof.
  intros Hds Hitems. sample_set Hds Hitems.
  split; [apply (bool_decide_unpack _); vm_compute; exact I|].
  split; [cbn; lia|].
  repeat constructor; try (cbn; lia); try sample_files; vm_compute; reflexivity.
Qed.

Lemma two_groups_planned ds groups :
  ds ∈ dsplits -> output_items list_cfg_two_groups !! ds = Some groups ->
  groups <> [] /\ NoDup groups.*1
  /\ exists n, 1 <= n /\ Forall (split_by two_files n) groups.
Proof.
  intros Hds Hitems. sample_set Hds Hitems.
  split; [discriminate|].
  split; [apply (bool_decide_unpack _); vm_compute; exact I|].
  exists 2. split; [lia|].
  constructor; [|constructor; [|constructor]].
  - exists ["a.h5"; "b.h5"]. split; [reflexivity|].
    split; [sample_files|vm_compute; reflexivity].
  - exists ["b.h5"]. split; [reflexivity|].
    split; [sample_files|vm_compute; reflexivity].
Qed.

Lemma no_chunk_sets ds groups :
  ds ∈ dsplits -> output_items list_cfg_no_chunk !! ds = Some groups ->
  groups <> [] /\ n_output_files groups = 0%nat.
Proof.
  intros Hds Hitems. sample_set Hds Hitems. split; [discriminate|reflexivity].
Qed.

Lemma no_chunk_train :
  exists ds, ds ∈ dsplits /\ is_Some (output_items list_cfg_no_chunk !! ds).
Proof. exists "train". split; [left|vm_compute; eauto]. Qed.




Lemma writer_unbound_keys_witness :
  output_file_folder list_cfg_no_chunk = Some "out"
  /\ (exists ds, ds ∈ dsplits /\ is_Some (output_items list_cfg_no_chunk !! ds))
  /\ (forall ds groups, ds ∈ dsplits ->
        output_items list_cfg_no_chunk !! ds = Some groups ->
        groups <> [] /\ n_output_files groups = 0%nat)
  /\ exists w',
       make_dsplit_list_files two_files list_cfg_no_chunk empty_world
       = (w', Raises UnboundLocalError)
       /\ texts w' = texts empty_world
       /\ output_lists w' = output_lists empty_world.
Proof.
  assert (H1 : output_file_folder list_cfg_no_chunk = Some "out") by reflexivity.
  split; [exact H1|]. split; [exact no_chunk_train|]. split; [exact no_chunk_sets|].
  exact (writer_unbound_keys two_files list_cfg_no_chunk "out" empty_world
           H1 no_chunk_train no_chunk_sets).
Defined.

Lemma writer_requires_witness :
  make_dsplit_list_files two_files list_cfg_two_groups empty_world
  = ((make_dsplit_list_files two_files list_cfg_two_groups empty_world).1, Returns tt)
  /\ is_Some (output_file_folder list_cfg_two_groups)
  /\ forall ds groups,
       ds ∈ dsplits -> output_items list_cfg_two_groups !! ds = Some groups ->
       NoDup groups.*1 ->
       groups <> []
       /\ forall i : nat, (i < n_output_files groups)%nat ->
            is_Some (output_file_name list_cfg_two_groups)
            /\ Forall (chunk_at two_files i) groups.
Proof.
  assert (H : make_dsplit_list_files two_files list_cfg_two_groups empty_world
              = ((make_dsplit_list_files two_files list_cfg_two_groups empty_world).1,
                 Returns tt))
    by (vm_compute; reflexivity).
  split; [exact H|].
  exact (writer_requires two_files list_cfg_two_groups empty_world _ H).
Defined.


(** The sample run, as it comes out: two list files, two counts. *)
Example two_groups_run :
  let w' := (make_dsplit_list_files two_files list_cfg_two_groups empty_world).1 in
  texts w' !! "out/conc_list_files/set_train_0.txt"
    = Some ("a.h5" +:+ newline +:+ "b.h5" +:+ newline)
  /\ texts w' !! "out/conc_list_files/set_train_1.txt" = Some ("b.h5" +:+ newline)
  /\ stdout w'
     = heading
       ++ [[PStr "train"; PStr "set:"];
           [PStr "a"; PStr ":"; PInt 4];
           [PStr "b"; PStr ":"; PInt 1];
           [PStr "----------------------------------------------"]]
  /\ output_lists w'
     = Some ["out/conc_list_files/set_train_0.txt";
             "out/conc_list_files/set_train_1.txt"].
Proof. vm_compute. repeat split. Qed.
